(** * Starmap: the stars sync script and the MCP query server

    A shallow embedding of [src/sync_stars.py] and [src/mcp_server.py],
    and the properties of the ingestion, the queries, the renderer, the
    mirror and the publisher.

    - Values that travel through the program are JSON values as Python
      holds them after [response.json()]: [None], [bool], [int], [str],
      [list] and [dict].  A [dict] is an association list in insertion
      order; looking a key up returns its first binding.
    - A Python [str] is held as its UTF-8 encoding.  Comparing two
      encodings byte by byte orders them as Python orders the strings
      (by code point), and [s.encode('utf-8')] is the identity on the
      representation.  JSON numbers are integers: the listing API has no
      fractional field.
    - Functions that can raise return a [result]; functions that talk to
      the network, the file system, the clock or the console run in the
      monad [M] over an explicit [world].  The remote services are a
      function of the world that answers each request.
    - A [while True] loop takes fuel, one unit per iteration; running
      out of fuel is an outcome of its own, which no [except] catches.
    - Library functions whose text is not needed ([str.lower],
      [json.dumps], [repr] of a container, [str] of an exception, the
      formatting of a date) are parameters of the functions that call
      them. *)

From Stdlib Require Import ZArith NArith List String Ascii Bool Lia.
From Stdlib Require Import Permutation Sorted DecimalString OrderedTypeEx.
Import ListNotations.

Open Scope string_scope.
Open Scope list_scope.
Open Scope Z_scope.

Infix "+++" := String.append (right associativity, at level 60).

(** ** JSON values *)

Set Warnings "-register-all".

Inductive json : Type :=
| JNull
| JBool (b : bool)
| JNum (n : Z)
| JStr (s : string)
| JArr (items : list json)
| JObj (fields : list (string * json)).

Definition dict := list (string * json).

(** ** Exceptions and fallible results *)

Inductive exn : Type :=
| HTTPError (status : Z)   (* raised by [response.raise_for_status()] *)
| RequestException         (* the transport failed: no response at all *)
| JSONDecodeError          (* [response.json()] on a body that is not JSON *)
| AttributeError
| TypeError
| KeyError (key : string)
| ValueError (msg : string)
| OSError.

Inductive result (A : Type) : Type :=
| Ok (a : A)
| Err (e : exn).
Arguments Ok {A} a.
Arguments Err {A} e.

Definition rbind {A B} (r : result A) (k : A -> result B) : result B :=
  match r with
  | Ok a => k a
  | Err e => Err e
  end.

Notation "x <~ c1 ;; c2" := (rbind c1 (fun x => c2))
  (at level 61, c1 at next level, right associativity).

Fixpoint mapM {A B} (f : A -> result B) (l : list A) : result (list B) :=
  match l with
  | [] => Ok []
  | x :: l' => y <~ f x ;; ys <~ mapM f l' ;; Ok (y :: ys)
  end.

(** ** The Python operations the two scripts use *)

Module Py.

(** [bool(v)] *)
Definition truthy (v : json) : bool :=
  match v with
  | JNull => false
  | JBool b => b
  | JNum n => negb (n =? 0)
  | JStr s => negb (String.eqb s "")
  | JArr l => match l with [] => false | _ => true end
  | JObj d => match d with [] => false | _ => true end
  end.

Fixpoint lookup (d : dict) (k : string) : option json :=
  match d with
  | [] => None
  | (k', v) :: d' => if String.eqb k' k then Some v else lookup d' k
  end.

(** [d.get(k, default)] on a dict *)
Definition dict_get (d : dict) (k : string) (default : json) : json :=
  match lookup d k with
  | Some v => v
  | None => default
  end.

(** [d[k] = v] on a dict: an existing key keeps its position. *)
Fixpoint dict_set (d : dict) (k : string) (v : json) : dict :=
  match d with
  | [] => [(k, v)]
  | (k', v') :: d' =>
      if String.eqb k' k then (k, v) :: d' else (k', v') :: dict_set d' k v
  end.

(** [v.get(k, default)]: only a dict has the method. *)
Definition get (v : json) (k : string) (default : json) : result json :=
  match v with
  | JObj d => Ok (dict_get d k default)
  | _ => Err AttributeError
  end.

(** [v[k]] with a string key *)
Definition index (v : json) (k : string) : result json :=
  match v with
  | JObj d =>
      match lookup d k with
      | Some x => Ok x
      | None => Err (KeyError k)
      end
  | _ => Err TypeError
  end.

Definition is_dict (v : json) : bool :=
  match v with
  | JObj _ => true
  | _ => false
  end.

Definition is_substring (k s : string) : bool :=
  match String.index 0 k s with
  | Some _ => true
  | None => false
  end.

(** The characters of a str: a byte [10xxxxxx] continues the character
    begun before it. *)
Definition is_continuation (c : ascii) : bool :=
  let n := N_of_ascii c in ((128 <=? n) && (n <? 192))%N.

Definition starts_with_continuation (s : string) : bool :=
  match s with
  | String c _ => is_continuation c
  | EmptyString => false
  end.

Fixpoint code_points (s : string) : list string :=
  match s with
  | EmptyString => []
  | String c s' =>
      if starts_with_continuation s' then
        match code_points s' with
        | h :: t => String c h :: t
        | [] => [String c ""]
        end
      else String c "" :: code_points s'
  end.

(** [a == b] *)
Fixpoint eq (a b : json) {struct a} : bool :=
  match a, b with
  | JNull, JNull => true
  | JBool x, JBool y => Bool.eqb x y
  | JBool x, JNum y => (if x then 1 else 0) =? y
  | JNum x, JBool y => x =? (if y then 1 else 0)
  | JNum x, JNum y => x =? y
  | JStr x, JStr y => String.eqb x y
  | JArr xs, JArr ys =>
      (fix go (xs ys : list json) : bool :=
         match xs, ys with
         | [], [] => true
         | x :: xs', y :: ys' => eq x y && go xs' ys'
         | _, _ => false
         end) xs ys
  | JObj xs, JObj ys =>
      (List.length xs =? List.length ys)%nat &&
      (fix go (xs : list (string * json)) : bool :=
         match xs with
         | [] => true
         | (k, v) :: xs' =>
             match lookup ys k with
             | Some v' => eq v v'
             | None => false
             end && go xs'
         end) xs
  | _, _ => false
  end.

(** [k in v] for a string [k] *)
Definition contains (k : string) (v : json) : result bool :=
  match v with
  | JObj d => Ok (match lookup d k with Some _ => true | None => false end)
  | JStr s => Ok (is_substring k s)
  | JArr l => Ok (existsb (eq (JStr k)) l)
  | _ => Err TypeError
  end.

(** [for x in v] *)
Definition iter (v : json) : result (list json) :=
  match v with
  | JArr l => Ok l
  | JObj d => Ok (map (fun kv => JStr (fst kv)) d)
  | JStr s => Ok (map JStr (code_points s))
  | _ => Err TypeError
  end.

(** [len(v)] *)
Definition len (v : json) : result Z :=
  match v with
  | JArr l => Ok (Z.of_nat (List.length l))
  | JObj d => Ok (Z.of_nat (List.length d))
  | JStr s => Ok (Z.of_nat (List.length (code_points s)))
  | _ => Err TypeError
  end.

Definition as_int (v : json) : option Z :=
  match v with
  | JNum n => Some n
  | JBool b => Some (if b then 1 else 0)
  | _ => None
  end.

(** [a < b]: numbers with numbers, str with str, list with list
    (lexicographic); anything else is a [TypeError]. *)
Fixpoint lt (a b : json) {struct a} : result bool :=
  match a, b with
  | JStr x, JStr y => Ok (String.ltb x y)
  | JArr xs, JArr ys =>
      (fix go (xs ys : list json) : result bool :=
         match xs, ys with
         | [], [] => Ok false
         | [], _ :: _ => Ok true
         | _ :: _, [] => Ok false
         | x :: xs', y :: ys' => if eq x y then go xs' ys' else lt x y
         end) xs ys
  | _, _ =>
      match as_int a, as_int b with
      | Some x, Some y => Ok (x <? y)
      | _, _ => Err TypeError
      end
  end.

(** [l[:limit]] on a list *)
Definition slice_to {A} (limit : json) (l : list A) : result (list A) :=
  match limit with
  | JNull => Ok l
  | JStr _ | JArr _ | JObj _ => Err TypeError
  | _ =>
      match as_int limit with
      | Some n =>
          if n <? 0 then Ok (firstn (Z.to_nat (Z.of_nat (List.length l) + n)) l)
          else Ok (firstn (Z.to_nat n) l)
      | None => Err TypeError
      end
  end.

(** [list.sort] and [sorted] are stable and use [<] only.  They are
    modelled as a stable insertion sort; a stable sort of keys that [<]
    orders totally has one possible outcome, whatever the algorithm. *)
Section Sorting.
Context {A : Type}.

Fixpoint insert_asc (x : json * A) (l : list (json * A))
  : result (list (json * A)) :=
  match l with
  | [] => Ok [x]
  | y :: l' =>
      b <~ lt (fst y) (fst x) ;;
      if b then r <~ insert_asc x l' ;; Ok (y :: r)
      else Ok (x :: l)
  end.

(** Elements are inserted from the last to the first, so that among
    equal keys the earlier element ends up first. *)
Fixpoint sort_asc (l : list (json * A)) : result (list (json * A)) :=
  match l with
  | [] => Ok []
  | x :: l' => s <~ sort_asc l' ;; insert_asc x s
  end.

(** [sorted(l, key=key, reverse=reverse)]: the keys are computed first;
    with [reverse=True] the list is reversed, sorted and reversed
    again, which keeps equal keys in their original order. *)
Definition sorted (key : A -> result json) (reverse : bool) (l : list A)
  : result (list A) :=
  ks <~ mapM key l ;;
  let keyed := combine ks l in
  s <~ (if reverse then r <~ sort_asc (rev keyed) ;; Ok (rev r)
        else sort_asc keyed) ;;
  Ok (map snd s).
End Sorting.

(** [str(v)] inside an f-string.  The text of a list or a dict is their
    [repr], taken as a parameter. *)
Definition str (repr : json -> string) (v : json) : string :=
  match v with
  | JNull => "None"
  | JBool true => "True"
  | JBool false => "False"
  | JNum n => NilZero.string_of_int (Z.to_int n)
  | JStr s => s
  | _ => repr v
  end.

(** [sep.join(v)]: every element must be a str. *)
Definition join (sep : string) (v : json) : result string :=
  items <~ iter v ;;
  strs <~ mapM (fun x => match x with JStr s => Ok s | _ => Err TypeError end)
               items ;;
  Ok (String.concat sep strs).

End Py.

(** ** The world outside the process *)

(** A request as [requests] sends it.  The headers (the credential and
    the media type) are fixed per client and not recorded. *)
Inductive request : Type :=
| GET (url : string) (params : dict)
| POST (url : string) (payload : dict)
| PUT (url : string) (payload : dict).

(** [body] is [None] when the response body is not JSON. *)
Record response : Type := mkResponse {
  status_code : Z;
  body : option json }.

(** What the process does to the outside, in the order it does it. *)
Inductive event : Type :=
| Request (r : request)
| Write (path text : string)
| Print (line : string).

Fixpoint requests (log : list event) : list request :=
  match log with
  | [] => []
  | Request r :: log' => r :: requests log'
  | _ :: log' => requests log'
  end.

(** The remote services answer a request knowing the requests made
    before it; [Err] is a transport failure.  The file system either
    accepts writes or refuses them. *)
Record world : Type := mkWorld {
  remote : list request -> request -> result response;
  writable : bool;
  files : list (string * string);    (* newest first *)
  clock : nat;                       (* readings of the clock so far *)
  log : list event }.                (* oldest first *)

Definition sent (w : world) : list request := requests (log w).

Definition record (ev : event) (w : world) : world :=
  mkWorld (remote w) (writable w) (files w) (clock w) (log w ++ [ev]).

Inductive outcome (A : Type) : Type :=
| Returns (a : A)
| Raises (e : exn)
| OutOfFuel.
Arguments Returns {A} a.
Arguments Raises {A} e.
Arguments OutOfFuel {A}.

Definition M (A : Type) : Type := world -> outcome A * world.

Definition ret {A} (a : A) : M A := fun w => (Returns a, w).

Definition bind {A B} (c : M A) (k : A -> M B) : M B :=
  fun w =>
    match c w with
    | (Returns a, w') => k a w'
    | (Raises e, w') => (Raises e, w')
    | (OutOfFuel, w') => (OutOfFuel, w')
    end.

Notation "x <- c1 ;; c2" := (bind c1 (fun x => c2))
  (at level 61, c1 at next level, right associativity).
Notation "c1 ;;; c2" := (bind c1 (fun _ => c2))
  (at level 61, right associativity).

Definition raise {A} (e : exn) : M A := fun w => (Raises e, w).

Definition out_of_fuel {A} : M A := fun w => (OutOfFuel, w).

Definition lift {A} (r : result A) : M A :=
  match r with
  | Ok a => ret a
  | Err e => raise e
  end.

(** [try: c except Exception as e: handler(e)] *)
Definition try_except {A} (c : M A) (handler : exn -> M A) : M A :=
  fun w =>
    match c w with
    | (Raises e, w') => handler e w'
    | r => r
    end.

Definition print (line : string) : M unit :=
  fun w => (Returns tt, record (Print line) w).

(** [datetime.utcnow()]: the index of the reading *)
Definition utcnow : M nat :=
  fun w => (Returns (clock w),
            mkWorld (remote w) (writable w) (files w) (S (clock w)) (log w)).

(** [requests.get], [requests.post], [requests.put] *)
Definition http (r : request) : M response :=
  fun w =>
    match remote w (sent w) r with
    | Ok resp => (Returns resp, record (Request r) w)
    | Err e => (Raises e, record (Request r) w)
    end.

(** [response.raise_for_status()] *)
Definition raise_for_status (r : response) : M unit :=
  if (400 <=? status_code r) && (status_code r <? 600)
  then raise (HTTPError (status_code r))
  else ret tt.

(** [response.json()] *)
Definition response_json (r : response) : M json :=
  match body r with
  | Some v => ret v
  | None => raise JSONDecodeError
  end.

(** [with open(path, "w", encoding="utf-8") as f: f.write(text)], on a
    disk that either takes the file or refuses to open it; the refusal
    raises [OSError] and leaves the files as they are.  A disk that
    opens the file and then fails the write, which would leave the file
    truncated, is outside this model. *)
Definition write_file (path text : string) : M unit :=
  fun w =>
    if writable w then
      (Returns tt,
       mkWorld (remote w) (writable w) ((path, text) :: files w) (clock w)
               (log w ++ [Write path text]))
    else (Raises OSError, w).

Fixpoint read_file (fs : list (string * string)) (path : string)
  : option string :=
  match fs with
  | [] => None
  | (p, text) :: fs' =>
      if String.eqb p path then Some text else read_file fs' path
  end.

Definition nl : string := String (ascii_of_nat 10) "".

Definition int_str (n : Z) : string := NilZero.string_of_int (Z.to_int n).

(** [os.getenv(name)] is [None] or a str; inside an f-string [None]
    prints as its name. *)
Definition opt_str (v : option string) : string :=
  match v with
  | Some s => s
  | None => "None"
  end.

Definition opt_truthy (v : option string) : bool :=
  match v with
  | Some s => negb (String.eqb s "")
  | None => false
  end.

(** ** [src/mcp_server.py] *)

Module McpServer.



(** The body of the [for item in repos] loop of [fetch_starred_repos]:
    one raw listing entry becomes one record. *)
Definition normalize (item : json) : result dict :=
  has_repo <~ Py.contains "repo" item ;;
  repo <~ (if negb has_repo then Ok item else Py.index item "repo") ;;
  has_starred_at <~ Py.contains "starred_at" item ;;
  starred_at <~ (if has_starred_at then Py.get item "starred_at" (JStr "")
                 else Ok (JStr "")) ;;
  name <~ Py.get repo "full_name" (JStr "") ;;
  description <~ Py.get repo "description" (JStr "") ;;
  url <~ Py.get repo "html_url" (JStr "") ;;
  language <~ Py.get repo "language" (JStr "Unknown") ;;
  topics <~ Py.get repo "topics" (JArr []) ;;
  stars <~ Py.get repo "stargazers_count" (JNum 0) ;;
  Ok [("name", name); ("description", description); ("url", url);
      ("language", language); ("topics", topics); ("stars", stars);
      ("starred_at", starred_at)].

Definition starred_url (username : option string) : string :=
  "https://api.github.com/users/" +++ opt_str username +++ "/starred".

(** The [while True] loop of [fetch_starred_repos]; each iteration
    spends one unit of [fuel]. *)
Fixpoint fetch_loop (fuel : nat) (username : option string) (page : Z)
    (all_repos : list dict) : M (list dict) :=
  match fuel with
  | O => out_of_fuel
  | S fuel' =>
      response <- http (GET (starred_url username)
                            [("page", JNum page); ("per_page", JNum 100)]) ;;
      raise_for_status response ;;;
      repos <- response_json response ;;
      if negb (Py.truthy repos) then ret all_repos
      else
        items <- lift (Py.iter repos) ;;
        records <- lift (mapM normalize items) ;;
        n <- lift (Py.len repos) ;;
        if n <? 100 then ret (all_repos ++ records)
        else fetch_loop fuel' username (page + 1) (all_repos ++ records)
  end.

Definition fetch_starred_repos (fuel : nat) (username : option string)
  : M (list dict) :=
  fetch_loop fuel username 1 [].

Record TextContent : Type := mkTextContent {
  type : string;
  text : string }.

(** The result of a tool-call request, as the MCP SDK sends it back to
    the caller. *)
Record CallToolResult : Type := mkCallToolResult {
  content : list TextContent;
  isError : bool }.

Section Tools.
(** [str.lower], [json.dumps(_, indent=2)] and [str(e)] of an
    exception *)
Variable lower : string -> string.
Variable dumps : json -> string.
Variable exn_str : exn -> string.

(** [v.lower()]: only a str has the method. *)
Definition lower_of (v : json) : result string :=
  match v with
  | JStr s => Ok (lower s)
  | _ => Err AttributeError
  end.

(** [any(q in t.lower() for t in topics)] *)
Fixpoint any_topic (q : string) (topics : list json) : result bool :=
  match topics with
  | [] => Ok false
  | t :: topics' =>
      s <~ lower_of t ;;
      if Py.is_substring q s then Ok true else any_topic q topics'
  end.

Definition or_else (a : result bool) (b : result bool) : result bool :=
  x <~ a ;; if x then Ok true else b.

Definition matches_query (query : string) (r : dict) : result bool :=
  or_else (name <~ Py.index (JObj r) "name" ;;
           s <~ lower_of name ;; Ok (Py.is_substring query s))
 (or_else (description <~ Py.index (JObj r) "description" ;;
           s <~ lower_of (if Py.truthy description then description
                          else JStr "") ;;
           Ok (Py.is_substring query s))
 (or_else (language <~ Py.index (JObj r) "language" ;;
           s <~ lower_of language ;; Ok (Py.is_substring query s))
          (topics <~ Py.index (JObj r) "topics" ;;
           items <~ Py.iter topics ;;
           any_topic query items))).

(** [[r for r in repos if keep(r)]] *)
Fixpoint filterM (keep : dict -> result bool) (repos : list dict)
  : result (list dict) :=
  match repos with
  | [] => Ok []
  | r :: repos' =>
      b <~ keep r ;;
      rest <~ filterM keep repos' ;;
      Ok (if b then r :: rest else rest)
  end.

Definition text_result (records : list dict) : list TextContent :=
  [mkTextContent "text" (dumps (JArr (map JObj records)))].

Definition search_stars (repos : list dict) (arguments : json)
  : result (list TextContent) :=
  q <~ Py.get arguments "query" (JStr "") ;;
  query <~ lower_of q ;;
  limit <~ Py.get arguments "limit" (JNum 10) ;;
  kept <~ filterM (matches_query query) repos ;;
  filtered <~ Py.slice_to limit kept ;;
  Ok (text_result filtered).

Definition get_stars_by_language (repos : list dict) (arguments : json)
  : result (list TextContent) :=
  language <~ Py.get arguments "language" (JStr "") ;;
  limit <~ Py.get arguments "limit" (JNum 10) ;;
  kept <~ filterM (fun r =>
                     l <~ Py.index (JObj r) "language" ;;
                     a <~ lower_of l ;;
                     b <~ lower_of language ;;
                     Ok (String.eqb a b)) repos ;;
  filtered <~ Py.slice_to limit kept ;;
  Ok (text_result filtered).

Definition get_stars_by_topic (repos : list dict) (arguments : json)
  : result (list TextContent) :=
  t <~ Py.get arguments "topic" (JStr "") ;;
  topic <~ lower_of t ;;
  limit <~ Py.get arguments "limit" (JNum 10) ;;
  kept <~ filterM (fun r =>
                     topics <~ Py.index (JObj r) "topics" ;;
                     items <~ Py.iter topics ;;
                     any_topic topic items) repos ;;
  filtered <~ Py.slice_to limit kept ;;
  Ok (text_result filtered).

(** [sorted(repos, key=lambda x: x["stars"], reverse=True)[:limit]] *)
Definition top_stars (repos : list dict) (limit : json)
  : result (list dict) :=
  s <~ Py.sorted (fun x => Py.index (JObj x) "stars") true repos ;;
  Py.slice_to limit s.

(** [sorted(repos, key=lambda x: x.get("starred_at", ""),
    reverse=True)[:limit]] *)
Definition recent_stars (repos : list dict) (limit : json)
  : result (list dict) :=
  s <~ Py.sorted (fun x => Py.get (JObj x) "starred_at" (JStr "")) true
                 repos ;;
  Py.slice_to limit s.

Definition get_top_stars (repos : list dict) (arguments : json)
  : result (list TextContent) :=
  limit <~ Py.get arguments "limit" (JNum 10) ;;
  sorted_repos <~ top_stars repos limit ;;
  Ok (text_result sorted_repos).

Definition get_recent_stars (repos : list dict) (arguments : json)
  : result (list TextContent) :=
  limit <~ Py.get arguments "limit" (JNum 10) ;;
  sorted_repos <~ recent_stars repos limit ;;
  Ok (text_result sorted_repos).

(** The function that [@app.call_tool()] decorates; what the decorator
    registers for the tool-call request is [call_tool_handler] below. *)
Definition call_tool (fuel : nat) (username : option string)
    (name : string) (arguments : json) : M (list TextContent) :=
  repos <- fetch_starred_repos fuel username ;;
  if String.eqb name "search_stars" then
    lift (search_stars repos arguments)
  else if String.eqb name "get_stars_by_language" then
    lift (get_stars_by_language repos arguments)
  else if String.eqb name "get_stars_by_topic" then
    lift (get_stars_by_topic repos arguments)
  else if String.eqb name "get_top_stars" then
    lift (get_top_stars repos arguments)
  else if String.eqb name "get_recent_stars" then
    lift (get_recent_stars repos arguments)
  else ret [mkTextContent "text" "Unknown tool"].

(** The handler that the decorator [@app.call_tool()] of the MCP SDK
    registers for a tool-call request, [Server.call_tool] in
    [mcp/server]:
    [try: results = await func(name, arguments or {}); return
     CallToolResult(content=list(results), isError=False)
     except Exception as e: return CallToolResult(content=
     [TextContent(type="text", text=str(e))], isError=True)]. *)
Definition call_tool_handler (fuel : nat) (username : option string)
    (name : string) (arguments : json) : M CallToolResult :=
  try_except
    (results <- call_tool fuel username name
                          (if Py.truthy arguments then arguments
                           else JObj []) ;;
     ret (mkCallToolResult results false))
    (fun e => ret (mkCallToolResult [mkTextContent "text" (exn_str e)] true)).
End Tools.

End McpServer.

(** ** [src/sync_stars.py] *)

Module SyncStars.

Record GitHubClient : Type := mkGitHubClient {
  username : string;
  token : string }.

Record SupermemoryClient : Type := mkSupermemoryClient {
  api_key : option string;
  api_url : string }.

(** The body of the [for item in repos] loop of
    [GitHubClient.fetch_starred_repos]. *)
Definition normalize (item : json) : result dict :=
  repo <~ (if negb (Py.is_dict item) then Ok item
           else has_repo <~ Py.contains "repo" item ;;
                if negb has_repo then Ok item else Py.index item "repo") ;;
  starred_at <~ (if Py.is_dict item then
                   has_starred_at <~ Py.contains "starred_at" item ;;
                   if has_starred_at then Py.get item "starred_at" (JStr "")
                   else Ok (JStr "")
                 else Ok (JStr "")) ;;
  name <~ Py.get repo "full_name" (JStr "") ;;
  description <~ Py.get repo "description" (JStr "") ;;
  url <~ Py.get repo "html_url" (JStr "") ;;
  language <~ Py.get repo "language" (JStr "Unknown") ;;
  topics <~ Py.get repo "topics" (JArr []) ;;
  stars <~ Py.get repo "stargazers_count" (JNum 0) ;;
  last_updated <~ Py.get repo "updated_at" (JStr "") ;;
  homepage <~ Py.get repo "homepage" (JStr "") ;;
  Ok [("name", name); ("description", description); ("url", url);
      ("language", language); ("topics", topics); ("stars", stars);
      ("last_updated", last_updated); ("starred_at", starred_at);
      ("homepage", homepage)].

Definition starred_url (self : GitHubClient) : string :=
  "https://api.github.com/users/" +++ username self +++ "/starred".

Definition per_page : Z := 100.

(** The [while True] loop of [fetch_starred_repos]; each iteration
    spends one unit of [fuel]. *)
Fixpoint fetch_loop (fuel : nat) (self : GitHubClient) (page : Z)
    (all_repos : list dict) : M (list dict) :=
  match fuel with
  | O => out_of_fuel
  | S fuel' =>
      response <- http (GET (starred_url self)
                            [("page", JNum page);
                             ("per_page", JNum per_page)]) ;;
      raise_for_status response ;;;
      repos <- response_json response ;;
      if negb (Py.truthy repos) then ret all_repos
      else
        items <- lift (Py.iter repos) ;;
        records <- lift (mapM normalize items) ;;
        n <- lift (Py.len repos) ;;
        print ("  Fetched page " +++ int_str page +++ " ("
               +++ int_str n +++ " repos)...") ;;;
        if n <? per_page then ret (all_repos ++ records)
        else fetch_loop fuel' self (page + 1) (all_repos ++ records)
  end.

Definition quote_safe (c : ascii) : bool :=
  let n := nat_of_ascii c in
  ((65 <=? n) && (n <=? 90) || (97 <=? n) && (n <=? 122)
   || (48 <=? n) && (n <=? 57))%nat
  || existsb (Ascii.eqb c) (list_ascii_of_string "_.-~/").

Definition hex_digit (n : nat) : ascii :=
  match String.get n "0123456789ABCDEF" with
  | Some c => c
  | None => "0"%char
  end.

(** [requests.utils.quote(bytes)], that is [urllib.parse.quote] with
    its default [safe='/'] *)
Fixpoint quote (s : string) : string :=
  match s with
  | EmptyString => ""
  | String c s' =>
      if quote_safe c then String c (quote s')
      else
        let n := nat_of_ascii c in
        String "%" (String (hex_digit (n / 16))
                           (String (hex_digit (n mod 16)) (quote s')))
  end.

(** [s.replace(old, new)] for a one-character [old] *)
Fixpoint replace_char (old : ascii) (new : string) (s : string) : string :=
  match s with
  | EmptyString => ""
  | String c s' =>
      if Ascii.eqb c old then new +++ replace_char old new s'
      else String c (replace_char old new s')
  end.

Definition b64_digit (n : N) : ascii :=
  match String.get (N.to_nat n)
          "ABCDEFGHIJKLMNOPQRSTUVWXYZabcdefghijklmnopqrstuvwxyz0123456789+/"
  with
  | Some c => c
  | None => "="%char
  end.

Fixpoint b64_groups (l : list N) : string :=
  match l with
  | [] => ""
  | [a] =>
      String (b64_digit (a / 4))
        (String (b64_digit (a mod 4 * 16)) "==")
  | [a; b] =>
      String (b64_digit (a / 4))
        (String (b64_digit (a mod 4 * 16 + b / 16))
           (String (b64_digit (b mod 16 * 4)) "="))
  | a :: b :: c :: rest =>
      String (b64_digit (a / 4))
        (String (b64_digit (a mod 4 * 16 + b / 16))
           (String (b64_digit (b mod 16 * 4 + c / 64))
              (String (b64_digit (c mod 64)) (b64_groups rest))))
  end%N.

(** [base64.b64encode(bytes).decode('utf-8')] *)
Definition b64encode (s : string) : string :=
  b64_groups (map N_of_ascii (list_ascii_of_string s)).

(** The environment after [load_dotenv], as [main] reads it. *)
Record environ : Type := mkEnviron {
  GITHUB_USERNAME : option string;
  GITHUB_TOKEN : option string;
  SUPERMEMORY_API_KEY : option string;
  SUPERMEMORY_API_URL : option string;
  TARGET_REPO_OWNER : option string;
  TARGET_REPO_NAME : option string;
  TARGET_BRANCH : option string }.

(** [os.getenv(name, default)] *)
Definition getenv (v : option string) (default : string) : string :=
  match v with
  | Some s => s
  | None => default
  end.

Section Script.
(** The text of the [n]-th clock reading under [isoformat()] and under
    [strftime('%Y-%m-%d %H:%M UTC')]; the [repr] of a list or a dict;
    [str(e)] of an exception. *)
Variable isoformat : nat -> string.
Variable strftime : nat -> string.
Variable repr : json -> string.
Variable exn_str : exn -> string.

Definition fetch_starred_repos (fuel : nat) (self : GitHubClient)
  : M (list dict) :=
  t <- utcnow ;;
  print ("[" +++ isoformat t +++ "] Fetching starred repos for @"
         +++ username self +++ "...") ;;;
  all_repos <- fetch_loop fuel self 1 [] ;;
  print ("✅ Total starred repos: "
         +++ int_str (Z.of_nat (List.length all_repos))) ;;;
  ret all_repos.

Definition add_memory (self : SupermemoryClient) (content : string)
    (metadata : dict) : M bool :=
  try_except
    (let payload := [("content", JStr content);
                     ("metadata", JObj metadata)] in
     response <- http (POST (api_url self +++ "/memories") payload) ;;
     raise_for_status response ;;;
     ret true)
    (fun e =>
       print ("  ⚠️ Supermemory error: " +++ exn_str e) ;;;
       ret false).

(** [x or default] inside an f-string *)
Definition or_str (x : json) (default : string) : string :=
  if Py.truthy x then Py.str repr x else default.

(** The summary text and the metadata of one record in [sync_repos]. *)
Definition memory_of (repo : dict) : result (string * dict) :=
  name <~ Py.index (JObj repo) "name" ;;
  description <~ Py.index (JObj repo) "description" ;;
  language <~ Py.index (JObj repo) "language" ;;
  topics <~ Py.index (JObj repo) "topics" ;;
  topics_str <~ (if Py.truthy topics then Py.join ", " topics
                 else Ok "None") ;;
  stars <~ Py.index (JObj repo) "stars" ;;
  url <~ Py.index (JObj repo) "url" ;;
  Ok ("Repository: " +++ Py.str repr name +++ nl
      +++ "Description: " +++ or_str description "No description" +++ nl
      +++ "Language: " +++ Py.str repr language +++ nl
      +++ "Topics: " +++ topics_str +++ nl
      +++ "Stars: " +++ Py.str repr stars +++ nl
      +++ "URL: " +++ Py.str repr url +++ nl,
      [("type", JStr "github_star"); ("repo_name", name);
       ("language", language); ("stars", stars); ("url", url)]).

(** The [for repo in repos] loop of [sync_repos]. *)
Fixpoint sync_loop (self : SupermemoryClient) (repos : list dict)
    (success_count : Z) : M Z :=
  match repos with
  | [] => ret success_count
  | repo :: repos' =>
      m <- lift (memory_of repo) ;;
      ok <- add_memory self (fst m) (snd m) ;;
      sync_loop self repos' (if ok then success_count + 1
                             else success_count)
  end.

Definition sync_repos (self : SupermemoryClient) (repos : list dict)
  : M Z :=
  if negb (opt_truthy (api_key self)) then
    print "⚠️ Supermemory API key not provided, skipping sync" ;;;
    ret 0
  else
    t <- utcnow ;;
    print ("[" +++ isoformat t +++ "] Syncing "
           +++ int_str (Z.of_nat (List.length repos))
           +++ " repos to Supermemory...") ;;;
    success_count <- sync_loop self repos 0 ;;
    print ("✅ Synced " +++ int_str success_count +++ "/"
           +++ int_str (Z.of_nat (List.length repos))
           +++ " repos to Supermemory") ;;;
    ret success_count.

(** [v[:5]] on a record field: a list or a str can be sliced, a number
    cannot, and a dict raises too ([TypeError] before Python 3.12). *)
Definition first_five (v : json) : result (list json) :=
  match v with
  | JArr l => Ok (firstn 5 l)
  | JStr s => Ok (map JStr (firstn 5 (Py.code_points s)))
  | _ => Err TypeError
  end.

(** One pass of the [for repo in repos] loop of [generate_markdown]:
    the section appended to the document. *)
Definition section_of (repo : dict) : result string :=
  topics <~ Py.index (JObj repo) "topics" ;;
  topics_str <~ (if Py.truthy topics then
                   shown <~ first_five topics ;;
                   Ok (String.concat " · "
                         (map (fun t => "`" +++ Py.str repr t +++ "`")
                              shown))
                 else Ok "") ;;
  language <~ Py.index (JObj repo) "language" ;;
  lang_badge <~ (if negb (Py.eq language (JStr "Unknown")) then
                   match language with
                   | JStr l =>
                       Ok ("![" +++ l
                           +++ "](https://img.shields.io/badge/-"
                           +++ replace_char " " "%20" l +++ "-grey)")
                   | _ => Err AttributeError
                   end
                 else Ok "") ;;
  name <~ Py.index (JObj repo) "name" ;;
  url <~ Py.index (JObj repo) "url" ;;
  description <~ Py.index (JObj repo) "description" ;;
  stars <~ Py.index (JObj repo) "stars" ;;
  Ok ("## [" +++ Py.str repr name +++ "](" +++ Py.str repr url +++ ")"
      +++ nl +++ nl
      +++ or_str description "_No description provided_" +++ nl +++ nl
      +++ lang_badge +++ " ⭐ " +++ Py.str repr stars +++ " stars"
      +++ nl +++ nl
      +++ topics_str +++ nl +++ nl
      +++ "---" +++ nl +++ nl).

(** [repos.sort(key=lambda x: x.get('starred_at', ''), reverse=True)] *)
Definition sort_by_starred_at (repos : list dict) : result (list dict) :=
  Py.sorted (fun x => Py.get (JObj x) "starred_at" (JStr "")) true repos.

(** [generate_markdown] sorts the caller's list in place: the list as
    it is left comes back with the document. *)
Definition generate_markdown (repos : list dict)
  : M (list dict * string) :=
  repos <- lift (sort_by_starred_at repos) ;;
  t <- utcnow ;;
  let header :=
    "# 🗺️ My GitHub Stars" +++ nl +++ nl
    +++ "> Last updated: " +++ strftime t +++ nl
    +++ "> Total repositories: "
    +++ int_str (Z.of_nat (List.length repos)) +++ nl +++ nl
    +++ "---" +++ nl +++ nl in
  sections <- lift (mapM section_of repos) ;;
  ret (repos, header +++ String.concat "" sections).

Definition file_path : string := "starred-repos.md".

Definition contents_url (owner repo : string) : string :=
  "https://api.github.com/repos/" +++ owner +++ "/" +++ repo
  +++ "/contents/" +++ file_path.

(** The [try] block of [commit_to_github] that reads the current SHA;
    its bare [except:] turns every exception into [sha = None]. *)
Definition read_sha (url branch : string) : M json :=
  try_except
    (response <- http (GET url [("ref", JStr branch)]) ;;
     if status_code response =? 200 then
       v <- response_json response ;;
       lift (Py.get v "sha" JNull)
     else ret JNull)
    (fun _ => ret JNull).

(** The payload of the write as [commit_to_github] builds it: the
    dict literal, then [payload["sha"]] when [sha] is truthy, then
    [payload["content"]]. *)
Definition build_payload (message branch markdown_content : string)
    (sha : json) : dict :=
  let payload :=
    [("message", JStr message);
     ("content", JStr (replace_char "%" "" (quote markdown_content)));
     ("branch", JStr branch)] in
  let payload :=
    if Py.truthy sha then Py.dict_set payload "sha" sha else payload in
  Py.dict_set payload "content" (JStr (b64encode markdown_content)).

Definition commit_to_github (owner repo branch token : string)
    (markdown_content : string) : M unit :=
  t <- utcnow ;;
  print ("[" +++ isoformat t +++ "] Committing to GitHub...") ;;;
  let url := contents_url owner repo in
  sha <- read_sha url branch ;;
  t' <- utcnow ;;
  let payload :=
    build_payload ("Update starred repos - " +++ strftime t') branch
                  markdown_content sha in
  response <- http (PUT url payload) ;;
  raise_for_status response ;;;
  print ("✅ Committed to " +++ owner +++ "/" +++ repo +++ "/" +++ branch
         +++ "/" +++ file_path).

Definition main (fuel : nat) (env : environ) : M unit :=
  if negb (opt_truthy (GITHUB_USERNAME env))
     || negb (opt_truthy (GITHUB_TOKEN env)) then
    raise (ValueError "GITHUB_USERNAME and GITHUB_TOKEN are required in .env")
  else
    let github_username := opt_str (GITHUB_USERNAME env) in
    let github_token := opt_str (GITHUB_TOKEN env) in
    let supermemory_api_key := SUPERMEMORY_API_KEY env in
    let supermemory_api_url :=
      getenv (SUPERMEMORY_API_URL env) "https://api.supermemory.ai/v1" in
    let target_repo_owner := getenv (TARGET_REPO_OWNER env) github_username in
    let target_repo_name := getenv (TARGET_REPO_NAME env) "starmap" in
    let target_branch := getenv (TARGET_BRANCH env) "main" in
    let github_client := mkGitHubClient github_username github_token in
    repos <- fetch_starred_repos fuel github_client ;;
    match repos with
    | [] => print "⚠️ No starred repositories found"
    | _ :: _ =>
        rendered <- generate_markdown repos ;;
        let repos := fst rendered in
        let markdown_content := snd rendered in
        write_file "starred-repos.md" markdown_content ;;;
        print "✅ Saved to starred-repos.md" ;;;
        (if opt_truthy supermemory_api_key then
           let supermemory_client :=
             mkSupermemoryClient supermemory_api_key supermemory_api_url in
           sync_repos supermemory_client repos ;;; ret tt
         else ret tt) ;;;
        try_except
          (commit_to_github target_repo_owner target_repo_name
                            target_branch github_token markdown_content)
          (fun e => print ("⚠️ Failed to commit to GitHub: " +++ exn_str e)) ;;;
        print (nl +++ "🎉 Sync complete!") ;;;
        print ("Raw URL: https://raw.githubusercontent.com/"
               +++ target_repo_owner +++ "/" +++ target_repo_name +++ "/"
               +++ target_branch +++ "/starred-repos.md")
    end.
End Script.

End SyncStars.

(** * Properties *)

(** ** Vocabulary of the statements *)

(** The repository object of a raw listing entry: the entry itself, or
    the value under its [repo] key; [None] when either is not a
    mapping. *)
Definition repository_of (item : json) : option dict :=
  match item with
  | JObj d =>
      match Py.lookup d "repo" with
      | None => Some d
      | Some (JObj r) => Some r
      | Some _ => None
      end
  | _ => None
  end.

(** Record field, source key and default of the fields read from the
    repository object. *)
Definition mcp_fields : list (string * string * json) :=
  [("name", "full_name", JStr "");
   ("description", "description", JStr "");
   ("url", "html_url", JStr "");
   ("language", "language", JStr "Unknown");
   ("topics", "topics", JArr []);
   ("stars", "stargazers_count", JNum 0)].

Definition sync_fields : list (string * string * json) :=
  mcp_fields ++ [("last_updated", "updated_at", JStr "");
                 ("homepage", "homepage", JStr "")].

(** The request for one page of the listing, and the page numbers
    [first], [first + 1], ... *)
Definition page_request (url : string) (page : Z) : request :=
  GET url [("page", JNum page); ("per_page", JNum 100)].

Fixpoint page_numbers (first : Z) (n : nat) : list Z :=
  match n with
  | O => []
  | S n' => first :: page_numbers (first + 1) n'
  end.

(** The listing source answers page [first + i] with the [i]-th of
    [pages], whatever was requested before. *)
Definition serves (net : list request -> request -> result response)
    (url : string) (first : Z) (pages : list (list json)) : Prop :=
  forall i page h,
    nth_error pages i = Some page ->
    net h (page_request url (first + Z.of_nat i))
    = Ok (mkResponse 200 (Some (JArr page))).

(** The stable insertion sort of [Py.sort_asc] over keys of a type [T]
    ordered by a total [tlt], and the descending sort that
    [sorted(_, reverse=True)] builds from it. *)
Section TypedSort.
Context {T A : Type}.
Variable tlt : T -> T -> bool.

Fixpoint insert_by (x : T * A) (l : list (T * A)) : list (T * A) :=
  match l with
  | [] => [x]
  | y :: l' => if tlt (fst y) (fst x) then y :: insert_by x l' else x :: l
  end.

Fixpoint sort_by (l : list (T * A)) : list (T * A) :=
  match l with
  | [] => []
  | x :: l' => insert_by x (sort_by l')
  end.

Definition sorted_desc_by (tkey : A -> T) (l : list A) : list A :=
  map snd (rev (sort_by (rev (map (fun x => (tkey x, x)) l)))).

(** [p] may stand before [q] in ascending order. *)
Definition ascending (p q : T * A) : Prop := tlt (fst q) (fst p) = false.
End TypedSort.

(** A typed key as the JSON value [Py.sort_asc] compares. *)
Definition encode_key {T A} (enc : T -> json) (p : T * A) : json * A :=
  (enc (fst p), snd p).

(** The [stars] and [starred_at] of a record whose field has the type
    the data model gives it. *)
Definition stars_of (r : dict) : Z :=
  match Py.lookup r "stars" with
  | Some (JNum n) => n
  | _ => 0
  end.

Definition starred_at_of (r : dict) : string :=
  match Py.dict_get r "starred_at" (JStr "") with
  | JStr s => s
  | _ => ""
  end.

(** The five tool names [call_tool] recognises. *)
Definition tool_names : list string :=
  ["search_stars"; "get_stars_by_language"; "get_stars_by_topic";
   "get_top_stars"; "get_recent_stars"].

(** Each tool name with the part of [call_tool] that answers it. *)
Definition tool_table (lower : string -> string) (dumps : json -> string)
  : list (string
          * (list dict -> json -> result (list McpServer.TextContent))) :=
  [("search_stars", McpServer.search_stars lower dumps);
   ("get_stars_by_language", McpServer.get_stars_by_language lower dumps);
   ("get_stars_by_topic", McpServer.get_stars_by_topic lower dumps);
   ("get_top_stars", McpServer.get_top_stars dumps);
   ("get_recent_stars", McpServer.get_recent_stars dumps)].

(** The arguments the registered handler passes on, [arguments or {}],
    and the error result that carries the text of [e]. *)
Definition passed_arguments (arguments : json) : json :=
  if Py.truthy arguments then arguments else JObj [].

Definition error_result (exn_str : exn -> string) (e : exn)
  : McpServer.CallToolResult :=
  McpServer.mkCallToolResult [McpServer.mkTextContent "text" (exn_str e)]
                             true.

(** A response that [raise_for_status] lets through. *)
Definition accepted (r : result response) : bool :=
  match r with
  | Ok resp => negb ((400 <=? status_code resp) && (status_code resp <? 600))
  | Err _ => false
  end.

(** How many of [posts], sent one after the other after [history], the
    remote accepts. *)
Fixpoint successes (net : list request -> request -> result response)
    (history posts : list request) : Z :=
  match posts with
  | [] => 0
  | p :: posts' =>
      (if accepted (net history p) then 1 else 0)
      + successes net (history ++ [p]) posts'
  end.

(** The submission of one summary to the sink. *)
Definition submission (self : SyncStars.SupermemoryClient)
    (m : string * dict) : request :=
  POST (SyncStars.api_url self +++ "/memories")
       [("content", JStr (fst m)); ("metadata", JObj (snd m))].

(** A record with the fields the mirror reads, its [topics] a list of
    strs. *)
Definition has_mirror_fields (r : dict) : Prop :=
  (exists v, Py.lookup r "name" = Some v) /\
  (exists v, Py.lookup r "description" = Some v) /\
  (exists v, Py.lookup r "language" = Some v) /\
  (exists ts, Py.lookup r "topics" = Some (JArr (map JStr ts))) /\
  (exists v, Py.lookup r "stars" = Some v) /\
  (exists v, Py.lookup r "url" = Some v).

(** The read of the current version token in [commit_to_github], and
    the token the publisher keeps from its answer. *)
Definition get_sha_request (owner repo branch : string) : request :=
  GET (SyncStars.contents_url owner repo) [("ref", JStr branch)].

Definition sha_read (answer : result response) : json :=
  match answer with
  | Ok resp =>
      if status_code resp =? 200 then
        match body resp with
        | Some (JObj d) => Py.dict_get d "sha" JNull
        | _ => JNull
        end
      else JNull
  | Err _ => JNull
  end.

(** The commit message, the token the publisher has read and the write
    it issues, in a run of [commit_to_github] that starts in [w]. *)
Definition commit_message (strftime : nat -> string) (w : world) : string :=
  "Update starred repos - " +++ strftime (S (clock w)).

Definition token_read (owner repo branch : string) (w : world) : json :=
  sha_read (remote w (sent w) (get_sha_request owner repo branch)).

Definition write_request (strftime : nat -> string)
    (owner repo branch markdown_content : string) (w : world) : request :=
  PUT (SyncStars.contents_url owner repo)
      (SyncStars.build_payload (commit_message strftime w) branch
                               markdown_content
                               (token_read owner repo branch w)).

(** The payload of a write that carries no version token. *)
Definition create_payload (message branch markdown_content : string) : dict :=
  [("message", JStr message);
   ("content", JStr (SyncStars.b64encode markdown_content));
   ("branch", JStr branch)].

(** The class of an exception, which is what an [except] clause
    selects on. *)
Definition exn_class (e : exn) : string :=
  match e with
  | HTTPError _ => "HTTPError"
  | RequestException => "RequestException"
  | JSONDecodeError => "JSONDecodeError"
  | AttributeError => "AttributeError"
  | TypeError => "TypeError"
  | KeyError _ => "KeyError"
  | ValueError _ => "ValueError"
  | OSError => "OSError"
  end.

(** Modelled from the spec: the remote document store, a service
    outside the program.  A read returns the current version token or a
    not-found answer; a write that carries the current token updates
    the document, a write without a token creates it when it does not
    exist, and any other write is refused with a conflict answer and
    changes nothing. *)
Record document : Type := mkDocument {
  doc_token : string;
  doc_content : string }.

Definition store : Type := option document.

Definition store_get (s : store) : response :=
  match s with
  | Some d => mkResponse 200 (Some (JObj [("sha", JStr (doc_token d));
                                          ("content", JStr (doc_content d))]))
  | None => mkResponse 404 (Some (JObj [("message", JStr "Not Found")]))
  end.

Definition written (new_token : string -> string) (payload : dict)
  : document :=
  let content := match Py.lookup payload "content" with
                 | Some (JStr c) => c
                 | _ => ""
                 end in
  mkDocument (new_token content) content.

Definition conflict : response :=
  mkResponse 409 (Some (JObj [("message", JStr "Conflict")])).

Definition store_put (new_token : string -> string) (s : store)
    (payload : dict) : store * response :=
  match s, Py.lookup payload "sha" with
  | None, None =>
      (Some (written new_token payload), mkResponse 201 (Some (JObj [])))
  | Some d, Some (JStr t) =>
      if String.eqb t (doc_token d)
      then (Some (written new_token payload), mkResponse 200 (Some (JObj [])))
      else (s, conflict)
  | _, _ => (s, conflict)
  end.

(** The store as the publisher meets it: [at_read] when the token is
    read, [at_write] when the write arrives; another writer may have
    changed the document in between. *)
Definition store_network (new_token : string -> string)
    (at_read at_write : store) : list request -> request -> result response :=
  fun _ r =>
    match r with
    | GET _ _ => Ok (store_get at_read)
    | PUT _ payload => Ok (snd (store_put new_token at_write payload))
    | POST _ _ => Err RequestException
    end.

(** The document that [main] publishes to, and the events that are
    requests to it. *)
Definition publish_url (env : SyncStars.environ) : string :=
  SyncStars.contents_url
    (SyncStars.getenv (SyncStars.TARGET_REPO_OWNER env)
                      (opt_str (SyncStars.GITHUB_USERNAME env)))
    (SyncStars.getenv (SyncStars.TARGET_REPO_NAME env) "starmap").

Definition is_publish (env : SyncStars.environ) (ev : event) : Prop :=
  match ev with
  | Request (GET url _) | Request (PUT url _) => url = publish_url env
  | _ => False
  end.

(** The exception [commit_to_github] raises on an answer to its write
    that [raise_for_status] does not let through. *)
Definition failure_of (answer : result response) : exn :=
  match answer with
  | Ok resp => HTTPError (status_code resp)
  | Err e => e
  end.

(** [c] leaves the remote services and the files as they are, and adds
    to the log only events that satisfy [P]. *)
Definition adds_only (P : event -> Prop) (w w' : world) : Prop :=
  remote w' = remote w /\ writable w' = writable w /\ files w' = files w /\
  exists evs, log w' = log w ++ evs /\ Forall P evs.

Definition respects (P : event -> Prop) {A} (c : M A) : Prop :=
  forall w, adds_only P w (snd (c w)).

(** The listing requests of [fetch_starred_repos] and the lines it
    prints. *)
Definition listing_event (self : SyncStars.GitHubClient) (ev : event) : Prop :=
  match ev with
  | Request (GET url _) => url = SyncStars.starred_url self
  | Print _ => True
  | _ => False
  end.

(** The submissions of [sync_repos] and the lines it prints. *)
Definition sink_event (ev : event) : Prop :=
  match ev with
  | Request (POST _ _) => True
  | Print _ => True
  | _ => False
  end.


(** The text of a record field that holds a str, and the topics of a
    record whose [topics] is a list of strs. *)
Definition str_field (r : dict) (k : string) : string :=
  match Py.lookup r k with
  | Some (JStr s) => s
  | _ => ""
  end.

Definition topics_of (r : dict) : list string :=
  match Py.lookup r "topics" with
  | Some (JArr l) =>
      flat_map (fun t => match t with JStr s => [s] | _ => [] end) l
  | _ => []
  end.

(** A record with the types the data model gives its searched fields:
    [name] and [language] a str, [description] a str or null, [topics] a
    list of strs. *)
Definition typed_record (r : dict) : Prop :=
  (exists s, Py.lookup r "name" = Some (JStr s)) /\
  (Py.lookup r "description" = Some JNull \/
   exists s, Py.lookup r "description" = Some (JStr s)) /\
  (exists s, Py.lookup r "language" = Some (JStr s)) /\
  (exists ts, Py.lookup r "topics" = Some (JArr (map JStr ts))).

(** [q] occurs in the lowered name, description or language of [r], or
    in one of its lowered topics. *)
Definition found (lower : string -> string) (q : string) (r : dict) : bool :=
  Py.is_substring q (lower (str_field r "name"))
  || Py.is_substring q (lower (str_field r "description"))
  || Py.is_substring q (lower (str_field r "language"))
  || existsb (fun t => Py.is_substring q (lower t)) (topics_of r).

(** [q] occurs in one of the lowered topics of [r]. *)
Definition tagged (lower : string -> string) (q : string) (r : dict) : bool :=
  existsb (fun t => Py.is_substring q (lower t)) (topics_of r).

(** The two lines [commit_to_github] prints. *)
Definition committing_line (isoformat : nat -> string) (w : world) : string :=
  "[" +++ isoformat (clock w) +++ "] Committing to GitHub...".

Definition committed_line (owner repo branch : string) : string :=
  "✅ Committed to " +++ owner +++ "/" +++ repo +++ "/" +++ branch +++ "/"
  +++ SyncStars.file_path.

(** A record with the six fields the renderer reads. *)
Definition has_rendered_fields (r : dict) : Prop :=
  forall k, In k ["topics"; "language"; "name"; "url"; "description"; "stars"] ->
            exists v, Py.lookup r k = Some v.

(** The line [add_memory] prints for a submission that was not
    accepted. *)
Definition warning_line (exn_str : exn -> string) (answer : result response)
  : string :=
  "  ⚠️ Supermemory error: " +++ exn_str (failure_of answer).

(** The submissions to the sink among the events. *)
Definition is_submission (ev : event) : Prop :=
  match ev with
  | Request (POST _ _) => True
  | _ => False
  end.

(** [w'] has the log of [w] followed by events that satisfy [P]. *)
Definition extends_log (P : event -> Prop) (w w' : world) : Prop :=
  exists evs, log w' = log w ++ evs /\ Forall P evs.

Definition logs_only (P : event -> Prop) {A} (c : M A) : Prop :=
  forall w, extends_log P w (snd (c w)).

(** The client [main] builds from its environment, and the error it
    raises without one. *)
Definition client_of (env : SyncStars.environ) : SyncStars.GitHubClient :=
  SyncStars.mkGitHubClient (opt_str (SyncStars.GITHUB_USERNAME env))
                           (opt_str (SyncStars.GITHUB_TOKEN env)).

Definition missing_configuration : exn :=
  ValueError "GITHUB_USERNAME and GITHUB_TOKEN are required in .env".

(** Base64 decoding with the alphabet of RFC 4648: the value of a
    digit is its position in the alphabet; four digits give three
    bytes, and a last group padded with one or two [=] gives two bytes
    or one. *)
Definition b64_alphabet : string :=
  "ABCDEFGHIJKLMNOPQRSTUVWXYZabcdefghijklmnopqrstuvwxyz0123456789+/".

Fixpoint b64_position (c : ascii) (alphabet : string) : option N :=
  match alphabet with
  | EmptyString => None
  | String a rest =>
      if Ascii.eqb c a then Some 0%N
      else option_map N.succ (b64_position c rest)
  end.

Definition b64_value (c : ascii) : option N := b64_position c b64_alphabet.

Fixpoint b64decode_groups (l : list ascii) : option (list N) :=
  match l with
  | [] => Some []
  | c1 :: c2 :: c3 :: c4 :: rest =>
      match b64_value c1, b64_value c2 with
      | Some v1, Some v2 =>
          if Ascii.eqb c4 "=" then
            match rest with
            | [] =>
                if Ascii.eqb c3 "=" then Some [v1 * 4 + v2 / 16]%N
                else
                  match b64_value c3 with
                  | Some v3 =>
                      Some [v1 * 4 + v2 / 16; v2 mod 16 * 16 + v3 / 4]%N
                  | None => None
                  end
            | _ :: _ => None
            end
          else
            match b64_value c3, b64_value c4, b64decode_groups rest with
            | Some v3, Some v4, Some bytes =>
                Some (v1 * 4 + v2 / 16 :: v2 mod 16 * 16 + v3 / 4
                      :: v3 mod 4 * 64 + v4 :: bytes)%N
            | _, _, _ => None
            end
      | _, _ => None
      end
  | _ => None
  end.

Definition b64decode (s : string) : option string :=
  option_map (fun bytes => string_of_list_ascii (map ascii_of_N bytes))
             (b64decode_groups (list_ascii_of_string s)).

(** ** Scenarios for the examples *)

Definition star_record (name : string) (stars : Z) (starred_at : string)
  : dict :=
  [("name", JStr name); ("description", JStr "");
   ("url", JStr ("https://github.com/" +++ name));
   ("language", JStr "Python"); ("topics", JArr [JStr "cli"]);
   ("stars", JNum stars); ("starred_at", JStr starred_at)].

(** The records of the ranking example: stars 5, 90, 3, 90. *)
Definition four_repos : list dict :=
  [star_record "a/one" 5 "2024-01-01T00:00:00Z";
   star_record "b/two" 90 "";
   star_record "c/three" 3 "2023-06-01T00:00:00Z";
   star_record "d/four" 90 "2022-03-05T10:00:00Z"].

Definition one_entry : json :=
  JObj [("starred_at", JStr "2024-01-01T00:00:00Z");
        ("repo", JObj [("full_name", JStr "octocat/hello");
                       ("stargazers_count", JNum 90)])].

(** A listing of 101 stars: a full first page, one entry on the second. *)
Definition listing_101 : list request -> request -> result response :=
  fun _ r =>
    match r with
    | GET _ (("page", JNum p) :: _) =>
        if p =? 1 then Ok (mkResponse 200 (Some (JArr (repeat one_entry 100))))
        else Ok (mkResponse 200 (Some (JArr [one_entry])))
    | _ => Err RequestException
    end.

Definition world_101 : world := mkWorld listing_101 true [] 0 [].

(** A listing that answers every request with status 500. *)
Definition failing_listing : list request -> request -> result response :=
  fun _ _ => Ok (mkResponse 500 None).

Definition failing_world : world := mkWorld failing_listing true [] 0 [].

(** A sink that accepts the first submission, refuses the second with
    status 500 and accepts the others. *)
Definition flaky_sink : list request -> request -> result response :=
  fun history _ =>
    if (List.length history =? 1)%nat then Ok (mkResponse 500 None)
    else Ok (mkResponse 200 (Some (JObj []))).

(** The token read is ["T0"]; when the write arrives the document has
    token ["T1"]. *)
Definition stale_world : world :=
  mkWorld (store_network (fun c => c)
                         (Some (mkDocument "T0" "b2xk"))
                         (Some (mkDocument "T1" "bmV3ZXI=")))
          true [] 0 [].

(** The document does not exist and the write is refused with status
    403. *)
Definition forbidden_world : world :=
  mkWorld (fun _ r =>
             match r with
             | PUT _ _ => Ok (mkResponse 403 None)
             | _ => Ok (store_get None)
             end)
          true [] 0 [].

(** A sync run: one starred repository, no sink configured, the
    document absent when read, and every write refused as a conflict. *)
Definition conflicting_remote : list request -> request -> result response :=
  fun _ r =>
    match r with
    | GET _ (("page", JNum p) :: _) =>
        if p =? 1 then Ok (mkResponse 200 (Some (JArr [one_entry])))
        else Ok (mkResponse 200 (Some (JArr [])))
    | GET _ _ => Ok (store_get None)
    | PUT _ _ => Ok conflict
    | POST _ _ => Ok (mkResponse 200 (Some (JObj [])))
    end.

Definition conflicting_world : world :=
  mkWorld conflicting_remote true [] 0 [].

Definition octocat_env : SyncStars.environ :=
  SyncStars.mkEnviron (Some "octocat") (Some "secret") None None None None
                      None.

(** The first page of the listing is full; the second request is
    answered with status 503. *)
Definition interrupted_listing : list request -> request -> result response :=
  fun _ r =>
    match r with
    | GET _ (("page", JNum p) :: _) =>
        if p =? 1 then Ok (mkResponse 200 (Some (JArr (repeat one_entry 100))))
        else Ok (mkResponse 503 None)
    | _ => Err RequestException
    end.

Definition interrupted_world : world :=
  mkWorld interrupted_listing true [] 0 [].

(** A listing whose second page holds a JSON null among its entries. *)
Definition malformed_listing : list request -> request -> result response :=
  fun _ r =>
    match r with
    | GET _ (("page", JNum p) :: _) =>
        if p =? 1 then Ok (mkResponse 200 (Some (JArr (repeat one_entry 100))))
        else Ok (mkResponse 200 (Some (JArr [one_entry; JNull; one_entry])))
    | _ => Err RequestException
    end.

Definition malformed_world : world := mkWorld malformed_listing true [] 0 [].

(** A listing that answers every page with the same 100 entries. *)
Definition endless_listing : list request -> request -> result response :=
  fun _ _ => Ok (mkResponse 200 (Some (JArr (repeat one_entry 100)))).

Definition endless_world : world := mkWorld endless_listing true [] 0 [].

(** A listing of two stars; the second repository has no detected
    language, which the listing reports as null. *)
Definition unclassified_entry : json :=
  JObj [("starred_at", JStr "2023-05-05T00:00:00Z");
        ("repo", JObj [("full_name", JStr "octocat/notes");
                       ("language", JNull)])].

Definition unclassified_listing : list request -> request -> result response :=
  fun _ r =>
    match r with
    | GET _ (("page", JNum p) :: _) =>
        Ok (mkResponse 200 (Some (JArr [one_entry; unclassified_entry])))
    | _ => Err RequestException
    end.

Definition unclassified_world : world :=
  mkWorld unclassified_listing true [] 0 [].

(** The read of the version token is answered with status 200 and a
    body that is not JSON; writes are accepted. *)
Definition garbled_read_world : world :=
  mkWorld (fun _ r =>
             match r with
             | PUT _ _ => Ok (mkResponse 201 (Some (JObj [])))
             | _ => Ok (mkResponse 200 None)
             end)
          true [] 0 [].

(** A record whose [topics] holds a number. *)
Definition mistagged_record : dict :=
  Py.dict_set (star_record "e/five" 7 "") "topics" (JArr [JNum 1]).

(** The two records of the unclassified listing, as the script
    normalizes them. *)
Definition unclassified_records : list dict :=
  match mapM SyncStars.normalize [one_entry; unclassified_entry] with
  | Ok records => records
  | Err _ => []
  end.

(** No star at all: the first page of the listing is empty. *)
Definition empty_world : world :=
  mkWorld (fun _ _ => Ok (mkResponse 200 (Some (JArr [])))) true [] 0 [].

(** Two stars, listed with the older one first; the sink and the store
    accept everything and the document does not exist yet. *)
Definition older_entry : json :=
  JObj [("starred_at", JStr "2022-03-05T10:00:00Z");
        ("repo", JObj [("full_name", JStr "octocat/older")])].

Definition newer_entry : json :=
  JObj [("starred_at", JStr "2024-01-01T00:00:00Z");
        ("repo", JObj [("full_name", JStr "octocat/newer")])].

Definition two_star_world : world :=
  mkWorld (fun _ r =>
             match r with
             | GET _ (("page", JNum p) :: _) =>
                 Ok (mkResponse 200 (Some (JArr [older_entry; newer_entry])))
             | GET _ _ => Ok (store_get None)
             | PUT _ _ => Ok (mkResponse 201 (Some (JObj [])))
             | POST _ _ => Ok (mkResponse 200 (Some (JObj [])))
             end)
          true [] 0 [].

(** The conflicting scenario with a sink configured. *)
Definition mirrored_env : SyncStars.environ :=
  SyncStars.mkEnviron (Some "octocat") (Some "secret") (Some "key") None None
                      None None.

(** One star whose topics hold a number; the sink and the store accept
    everything. *)
Definition mistagged_entry : json :=
  JObj [("full_name", JStr "e/five"); ("topics", JArr [JNum 1]);
        ("language", JStr "Python")].

Definition mistagged_world : world :=
  mkWorld (fun _ r =>
             match r with
             | GET _ (("page", JNum p) :: _) =>
                 Ok (mkResponse 200 (Some (JArr [mistagged_entry])))
             | _ => Ok (mkResponse 200 (Some (JObj [])))
             end)
          true [] 0 [].

(** ** Running the monad *)

Lemma requests_app (l1 l2 : list event) :
  requests (l1 ++ l2) = requests l1 ++ requests l2.
Proof.
  induction l1 as [|ev l1 IH]; simpl; [reflexivity|].
  destruct ev; simpl; rewrite IH; reflexivity.
Qed.

Lemma sent_record_request (r : request) (w : world) :
  sent (record (Request r) w) = sent w ++ [r].
Proof. unfold sent, record; simpl. rewrite requests_app. reflexivity. Qed.

Lemma sent_record_print (line : string) (w : world) :
  sent (record (Print line) w) = sent w.
Proof.
  unfold sent, record; simpl. rewrite requests_app. simpl.
  apply app_nil_r.
Qed.

Lemma http_answered (r : request) (resp : response) (w : world) :
  remote w (sent w) r = Ok resp ->
  http r w = (Returns resp, record (Request r) w).
Proof. intros H. unfold http. rewrite H. reflexivity. Qed.

Lemma mapM_app {A B} (f : A -> result B) (l1 l2 : list A) :
  mapM f (l1 ++ l2)
  = (x <~ mapM f l1 ;; y <~ mapM f l2 ;; Ok (x ++ y)).
Proof.
  induction l1 as [|a l1 IH]; simpl.
  - destruct (mapM f l2); reflexivity.
  - destruct (f a); simpl; [|reflexivity].
    rewrite IH. destruct (mapM f l1); simpl; [|reflexivity].
    destruct (mapM f l2); reflexivity.
Qed.

Lemma mapM_length {A B} (f : A -> result B) (l : list A) (r : list B) :
  mapM f l = Ok r -> List.length r = List.length l.
Proof.
  revert r. induction l as [|a l IH]; simpl; intros r H.
  - injection H as <-. reflexivity.
  - destruct (f a); simpl in H; [|discriminate].
    destruct (mapM f l); simpl in H; [|discriminate].
    injection H as <-. simpl. f_equal. apply IH. reflexivity.
Qed.

Lemma mapM_total {A B} (f : A -> result B) (l : list A) :
  Forall (fun x => exists y, f x = Ok y) l ->
  exists r, mapM f l = Ok r.
Proof.
  induction 1 as [|a l [y Hy] _ [r Hr]]; simpl.
  - eexists. reflexivity.
  - rewrite Hy, Hr. simpl. eexists. reflexivity.
Qed.

(** ** The record normalizer *)

Lemma sync_normalize_mapping (fields r : dict) :
  repository_of (JObj fields) = Some r ->
  SyncStars.normalize (JObj fields)
  = Ok [("name", Py.dict_get r "full_name" (JStr ""));
        ("description", Py.dict_get r "description" (JStr ""));
        ("url", Py.dict_get r "html_url" (JStr ""));
        ("language", Py.dict_get r "language" (JStr "Unknown"));
        ("topics", Py.dict_get r "topics" (JArr []));
        ("stars", Py.dict_get r "stargazers_count" (JNum 0));
        ("last_updated", Py.dict_get r "updated_at" (JStr ""));
        ("starred_at", Py.dict_get fields "starred_at" (JStr ""));
        ("homepage", Py.dict_get r "homepage" (JStr ""))].
Proof.
  unfold repository_of, SyncStars.normalize, Py.contains, Py.index, Py.get,
    Py.is_dict, Py.dict_get.
  destruct (Py.lookup fields "repo") as [[| | | | |rf]|];
    intros H; try discriminate H; injection H as <-; simpl;
    destruct (Py.lookup fields "starred_at"); reflexivity.
Qed.

Lemma mcp_normalize_mapping (fields r : dict) :
  repository_of (JObj fields) = Some r ->
  McpServer.normalize (JObj fields)
  = Ok [("name", Py.dict_get r "full_name" (JStr ""));
        ("description", Py.dict_get r "description" (JStr ""));
        ("url", Py.dict_get r "html_url" (JStr ""));
        ("language", Py.dict_get r "language" (JStr "Unknown"));
        ("topics", Py.dict_get r "topics" (JArr []));
        ("stars", Py.dict_get r "stargazers_count" (JNum 0));
        ("starred_at", Py.dict_get fields "starred_at" (JStr ""))].
Proof.
  unfold repository_of, McpServer.normalize, Py.contains, Py.index, Py.get,
    Py.dict_get.
  destruct (Py.lookup fields "repo") as [[| | | | |rf]|];
    intros H; try discriminate H; injection H as <-; simpl;
    destruct (Py.lookup fields "starred_at"); reflexivity.
Qed.

(** C2, as stated, fails: a field that is present but malformed is not
    replaced by its default.  An entry whose [language] is [null] yields
    a record whose [language] is [None], not ["Unknown"], in both
    scripts; and a wrapper entry whose [repo] is [null] makes the
    normalizer raise [AttributeError]. *)
Lemma normalize_keeps_malformed_field :
  let item := JObj [("full_name", JStr "octocat/hello");
                    ("language", JNull)] in
  (exists rec, SyncStars.normalize item = Ok rec /\
               Py.lookup rec "language" = Some JNull /\
               Py.lookup rec "language" <> Some (JStr "Unknown")) /\
  (exists rec, McpServer.normalize item = Ok rec /\
               Py.lookup rec "language" = Some JNull /\
               Py.lookup rec "language" <> Some (JStr "Unknown")) /\
  SyncStars.normalize (JObj [("repo", JNull)]) = Err AttributeError /\
  McpServer.normalize (JObj [("repo", JNull)]) = Err AttributeError.
Proof.
  simpl. repeat split; try (eexists; repeat split; discriminate).
Qed.

(** C2 (amended): for every raw entry that is a mapping and whose
    repository object (the entry itself, or the value under [repo]) is a
    mapping, each normalizer returns exactly one record and does not
    raise.  A field whose key is absent takes its default; a field whose
    key is present is copied as the source gives it.  [starred_at] is
    read from the entry, the other fields from the repository object. *)
Theorem normalize_missing_fields_default (fields r : dict) :
  repository_of (JObj fields) = Some r ->
  (exists rec,
      SyncStars.normalize (JObj fields) = Ok rec /\
      (forall f k d, In (f, k, d) sync_fields ->
         (Py.lookup r k = None -> Py.lookup rec f = Some d) /\
         (forall v, Py.lookup r k = Some v -> Py.lookup rec f = Some v)) /\
      (Py.lookup fields "starred_at" = None ->
         Py.lookup rec "starred_at" = Some (JStr "")) /\
      (forall v, Py.lookup fields "starred_at" = Some v ->
         Py.lookup rec "starred_at" = Some v)) /\
  (exists rec,
      McpServer.normalize (JObj fields) = Ok rec /\
      (forall f k d, In (f, k, d) mcp_fields ->
         (Py.lookup r k = None -> Py.lookup rec f = Some d) /\
         (forall v, Py.lookup r k = Some v -> Py.lookup rec f = Some v)) /\
      (Py.lookup fields "starred_at" = None ->
         Py.lookup rec "starred_at" = Some (JStr "")) /\
      (forall v, Py.lookup fields "starred_at" = Some v ->
         Py.lookup rec "starred_at" = Some v)).
Proof.
  intros Hrepo. split.
  - rewrite (sync_normalize_mapping _ _ Hrepo).
    eexists. split; [reflexivity|]. unfold Py.dict_get. repeat split.
    + simpl in H.
      repeat (destruct H as [H|H];
              [injection H as <- <- <-; intros ->; reflexivity|]).
      contradiction.
    + simpl in H.
      repeat (destruct H as [H|H];
              [injection H as <- <- <-; intros v ->; reflexivity|]).
      contradiction.
    + intros ->. reflexivity.
    + intros v ->. reflexivity.
  - rewrite (mcp_normalize_mapping _ _ Hrepo).
    eexists. split; [reflexivity|]. unfold Py.dict_get. repeat split.
    + simpl in H.
      repeat (destruct H as [H|H];
              [injection H as <- <- <-; intros ->; reflexivity|]).
      contradiction.
    + simpl in H.
      repeat (destruct H as [H|H];
              [injection H as <- <- <-; intros v ->; reflexivity|]).
      contradiction.
    + intros ->. reflexivity.
    + intros v ->. reflexivity.
Qed.

Lemma normalize_missing_fields_default_witness :
  exists rec,
    SyncStars.normalize
      (JObj [("starred_at", JStr "2024-01-01T00:00:00Z");
             ("repo", JObj [("full_name", JStr "octocat/hello");
                            ("stargazers_count", JNum 90)])]) = Ok rec /\
    Py.lookup rec "language" = Some (JStr "Unknown") /\
    Py.lookup rec "stars" = Some (JNum 90) /\
    Py.lookup rec "starred_at" = Some (JStr "2024-01-01T00:00:00Z").
Proof.
  destruct (normalize_missing_fields_default
              [("starred_at", JStr "2024-01-01T00:00:00Z");
               ("repo", JObj [("full_name", JStr "octocat/hello");
                              ("stargazers_count", JNum 90)])]
              [("full_name", JStr "octocat/hello");
               ("stargazers_count", JNum 90)]
              eq_refl) as [[rec [Hrec [Hfields [_ Hstarred]]]] _].
  exists rec. split; [exact Hrec|]. repeat split.
  - assert (Hin : In ("language", "language", JStr "Unknown") sync_fields)
      by (simpl; tauto).
    apply (proj1 (Hfields _ _ _ Hin)). reflexivity.
  - assert (Hin : In ("stars", "stargazers_count", JNum 0) sync_fields)
      by (simpl; tauto).
    apply (proj2 (Hfields _ _ _ Hin)). reflexivity.
  - apply Hstarred. reflexivity.
Defined.

Lemma serves_head net url first page pages h :
  serves net url first (page :: pages) ->
  net h (page_request url first) = Ok (mkResponse 200 (Some (JArr page))).
Proof.
  intros Hs. specialize (Hs 0%nat page h eq_refl).
  simpl in Hs. rewrite Z.add_0_r in Hs. exact Hs.
Qed.

Lemma serves_tail net url first page pages :
  serves net url first (page :: pages) ->
  serves net url (first + 1) pages.
Proof.
  intros Hs i p h Hi. specialize (Hs (S i) p h Hi).
  replace (first + 1 + Z.of_nat i) with (first + Z.of_nat (S i)) by lia.
  exact Hs.
Qed.

(** ** The paginated ingestor *)

Lemma mcp_fetch_loop_step fuel username page acc w items :
  remote w (sent w) (page_request (McpServer.starred_url username) page)
  = Ok (mkResponse 200 (Some (JArr items))) ->
  McpServer.fetch_loop (S fuel) username page acc w
  = let w1 := record (Request (page_request (McpServer.starred_url username)
                                            page)) w in
    match items with
    | [] => (Returns acc, w1)
    | _ :: _ =>
        match mapM McpServer.normalize items with
        | Err e => (Raises e, w1)
        | Ok records =>
            if Z.of_nat (List.length items) <? 100
            then (Returns (acc ++ records), w1)
            else McpServer.fetch_loop fuel username (page + 1)
                                      (acc ++ records) w1
        end
    end.
Proof.
  intros H. simpl McpServer.fetch_loop. unfold bind at 1.
  fold (page_request (McpServer.starred_url username) page).
  rewrite (http_answered _ _ _ H).
  destruct items as [|item items]; [reflexivity|].
  cbn -[mapM Z.of_nat Z.ltb List.length McpServer.fetch_loop record
        McpServer.starred_url].
  destruct (mapM McpServer.normalize (item :: items)); [|reflexivity].
  cbn -[mapM Z.of_nat Z.ltb List.length McpServer.fetch_loop record
        McpServer.starred_url].
  destruct (Z.of_nat (List.length (item :: items)) <? 100); reflexivity.
Qed.

Lemma mcp_fetch_loop_pages (username : option string) (last : list json) :
  forall pages first acc w fuel records,
    serves (remote w) (McpServer.starred_url username) first
           (pages ++ [last]) ->
    Forall (fun p => List.length p = 100%nat) pages ->
    (List.length last < 100)%nat ->
    mapM McpServer.normalize (List.concat pages ++ last) = Ok records ->
    (List.length pages < fuel)%nat ->
    exists w',
      McpServer.fetch_loop fuel username first acc w
      = (Returns (acc ++ records), w') /\
      remote w' = remote w /\
      sent w' = sent w ++ map (page_request (McpServer.starred_url username))
                              (page_numbers first (S (List.length pages))).
Proof.
  induction pages as [|p ps IH];
    intros first acc w fuel records Hs Hfull Hlast Hm Hfuel;
    (destruct fuel as [|fuel]; [simpl in Hfuel; lia|]).
  - rewrite (mcp_fetch_loop_step _ _ _ _ _ _
               (serves_head _ _ _ _ _ (sent w) Hs)).
    simpl in Hm. cbv zeta. destruct last as [|item last].
    + injection Hm as <-. eexists. rewrite app_nil_r.
      split; [reflexivity|]. split; [reflexivity|].
      apply sent_record_request.
    + rewrite Hm.
      replace (Z.of_nat (List.length (item :: last)) <? 100) with true
        by (symmetry; apply Z.ltb_lt; lia).
      eexists. split; [reflexivity|]. split; [reflexivity|].
      apply sent_record_request.
  - rewrite (mcp_fetch_loop_step _ _ _ _ _ _
               (serves_head _ _ _ _ _ (sent w) Hs)).
    cbv zeta. inversion Hfull as [|? ? Hp Hps]; subst.
    simpl List.concat in Hm. rewrite <- app_assoc, mapM_app in Hm.
    destruct (mapM McpServer.normalize p) as [r1|] eqn:Hr1;
      [|discriminate Hm].
    simpl in Hm.
    destruct (mapM McpServer.normalize (List.concat ps ++ last))
      as [r2|] eqn:Hr2; [|discriminate Hm].
    injection Hm as <-.
    destruct p as [|item p]; [discriminate Hp|].
    replace (Z.of_nat (List.length (item :: p)) <? 100) with false
      by (symmetry; apply Z.ltb_ge; lia).
    destruct (IH (first + 1) (acc ++ r1)
                 (record (Request (page_request
                                     (McpServer.starred_url username) first)) w)
                 fuel r2) as [w' [Hrun [Hrem Hsent]]].
    + apply (serves_tail _ _ _ _ _ Hs).
    + exact Hps.
    + exact Hlast.
    + reflexivity.
    + simpl in Hfuel. lia.
    + exists w'. rewrite Hrun, app_assoc. split; [reflexivity|].
      split; [exact Hrem|].
      rewrite Hsent, sent_record_request, <- app_assoc. reflexivity.
Qed.

Lemma sync_fetch_loop_step fuel self page acc w items :
  remote w (sent w) (page_request (SyncStars.starred_url self) page)
  = Ok (mkResponse 200 (Some (JArr items))) ->
  SyncStars.fetch_loop (S fuel) self page acc w
  = let w1 := record (Request (page_request (SyncStars.starred_url self)
                                            page)) w in
    match items with
    | [] => (Returns acc, w1)
    | _ :: _ =>
        match mapM SyncStars.normalize items with
        | Err e => (Raises e, w1)
        | Ok records =>
            let n := Z.of_nat (List.length items) in
            let w2 := record (Print ("  Fetched page " +++ int_str page
                                     +++ " (" +++ int_str n
                                     +++ " repos)...")) w1 in
            if n <? 100 then (Returns (acc ++ records), w2)
            else SyncStars.fetch_loop fuel self (page + 1)
                                      (acc ++ records) w2
        end
    end.
Proof.
  intros H. simpl SyncStars.fetch_loop. unfold bind at 1.
  unfold SyncStars.per_page.
  fold (page_request (SyncStars.starred_url self) page).
  rewrite (http_answered _ _ _ H).
  destruct items as [|item items]; [reflexivity|].
  cbn -[mapM Z.of_nat Z.ltb List.length SyncStars.fetch_loop record
        SyncStars.starred_url int_str String.append].
  destruct (mapM SyncStars.normalize (item :: items)); [|reflexivity].
  cbn -[mapM Z.of_nat Z.ltb List.length SyncStars.fetch_loop record
        SyncStars.starred_url int_str String.append].
  destruct (Z.of_nat (List.length (item :: items)) <? 100); reflexivity.
Qed.

Lemma sync_fetch_loop_pages (self : SyncStars.GitHubClient) (last : list json) :
  forall pages first acc w fuel records,
    serves (remote w) (SyncStars.starred_url self) first
           (pages ++ [last]) ->
    Forall (fun p => List.length p = 100%nat) pages ->
    (List.length last < 100)%nat ->
    mapM SyncStars.normalize (List.concat pages ++ last) = Ok records ->
    (List.length pages < fuel)%nat ->
    exists w',
      SyncStars.fetch_loop fuel self first acc w
      = (Returns (acc ++ records), w') /\
      remote w' = remote w /\
      sent w' = sent w ++ map (page_request (SyncStars.starred_url self))
                              (page_numbers first (S (List.length pages))).
Proof.
  induction pages as [|p ps IH];
    intros first acc w fuel records Hs Hfull Hlast Hm Hfuel;
    (destruct fuel as [|fuel]; [simpl in Hfuel; lia|]).
  - rewrite (sync_fetch_loop_step _ _ _ _ _ _
               (serves_head _ _ _ _ _ (sent w) Hs)).
    simpl in Hm. cbv zeta. destruct last as [|item last].
    + injection Hm as <-. eexists. rewrite app_nil_r.
      split; [reflexivity|]. split; [reflexivity|].
      apply sent_record_request.
    + rewrite Hm.
      replace (Z.of_nat (List.length (item :: last)) <? 100) with true
        by (symmetry; apply Z.ltb_lt; lia).
      eexists. split; [reflexivity|]. split; [reflexivity|].
      rewrite sent_record_print. apply sent_record_request.
  - rewrite (sync_fetch_loop_step _ _ _ _ _ _
               (serves_head _ _ _ _ _ (sent w) Hs)).
    cbv zeta. inversion Hfull as [|? ? Hp Hps]; subst.
    simpl List.concat in Hm. rewrite <- app_assoc, mapM_app in Hm.
    destruct (mapM SyncStars.normalize p) as [r1|] eqn:Hr1;
      [|discriminate Hm].
    simpl in Hm.
    destruct (mapM SyncStars.normalize (List.concat ps ++ last))
      as [r2|] eqn:Hr2; [|discriminate Hm].
    injection Hm as <-.
    destruct p as [|item p]; [discriminate Hp|].
    replace (Z.of_nat (List.length (item :: p)) <? 100) with false
      by (symmetry; apply Z.ltb_ge; lia).
    match goal with
    | |- context [SyncStars.fetch_loop fuel self (first + 1) (acc ++ r1) ?w1] =>
        destruct (IH (first + 1) (acc ++ r1) w1 fuel r2)
          as [w' [Hrun [Hrem Hsent]]]
    end.
    + apply (serves_tail _ _ _ _ _ Hs).
    + exact Hps.
    + exact Hlast.
    + reflexivity.
    + simpl in Hfuel. lia.
    + exists w'. rewrite Hrun, app_assoc. split; [reflexivity|].
      split; [exact Hrem|].
      rewrite Hsent, sent_record_print, sent_record_request, <- app_assoc.
      reflexivity.
Qed.

Lemma length_concat_full (pages : list (list json)) :
  Forall (fun p => List.length p = 100%nat) pages ->
  List.length (List.concat pages) = (100 * List.length pages)%nat.
Proof.
  induction 1 as [|p ps Hp _ IH]; [reflexivity|].
  simpl List.concat. rewrite length_app, Hp, IH. simpl List.length. lia.
Qed.

Lemma page_numbers_length (first : Z) (n : nat) :
  List.length (page_numbers first n) = n.
Proof.
  revert first. induction n as [|n IH]; intros first; simpl;
    [reflexivity|]. rewrite IH. reflexivity.
Qed.

Lemma normalize_entries_total (entries : list json) :
  Forall (fun item => repository_of item <> None) entries ->
  (exists records, mapM McpServer.normalize entries = Ok records) /\
  (exists records, mapM SyncStars.normalize entries = Ok records).
Proof.
  intros H. split; apply mapM_total; (eapply Forall_impl; [|exact H]);
    intros item Hitem;
    destruct (repository_of item) as [r|] eqn:Hr; try congruence;
    (destruct item; try discriminate Hr).
  - rewrite (mcp_normalize_mapping _ _ Hr). eexists. reflexivity.
  - rewrite (sync_normalize_mapping _ _ Hr). eexists. reflexivity.
Qed.

Section Pagination.
Variable isoformat : nat -> string.

(** C1: a listing source that answers pages [1..k] with 100 entries each
    and page [k+1] with [m < 100] entries makes both ingestors return,
    given [k+1] units of fuel or more, the [100k + m] normalized records
    in the order of the source, after exactly the [k+1] page requests
    [1, 2, ..., k+1].  With [m = 0] the last of these requests is the
    extra one answered by the empty page.  [k] is arbitrary: the loop
    stops on the short or empty page and on nothing else. *)
Theorem pagination_terminates_on_short_page
    (pages : list (list json)) (last : list json) (fuel : nat) (w : world) :
  Forall (fun p => List.length p = 100%nat) pages ->
  (List.length last < 100)%nat ->
  Forall (fun item => repository_of item <> None) (List.concat pages ++ last) ->
  (List.length pages < fuel)%nat ->
  (forall username,
      serves (remote w) (McpServer.starred_url username) 1 (pages ++ [last]) ->
      exists records w',
        McpServer.fetch_starred_repos fuel username w = (Returns records, w') /\
        mapM McpServer.normalize (List.concat pages ++ last) = Ok records /\
        List.length records
        = (100 * List.length pages + List.length last)%nat /\
        sent w' = sent w ++ map (page_request (McpServer.starred_url username))
                                (page_numbers 1 (S (List.length pages))) /\
        List.length (sent w')
        = (List.length (sent w) + (List.length pages + 1))%nat) /\
  (forall self,
      serves (remote w) (SyncStars.starred_url self) 1 (pages ++ [last]) ->
      exists records w',
        SyncStars.fetch_starred_repos isoformat fuel self w
        = (Returns records, w') /\
        mapM SyncStars.normalize (List.concat pages ++ last) = Ok records /\
        List.length records
        = (100 * List.length pages + List.length last)%nat /\
        sent w' = sent w ++ map (page_request (SyncStars.starred_url self))
                                (page_numbers 1 (S (List.length pages))) /\
        List.length (sent w')
        = (List.length (sent w) + (List.length pages + 1))%nat).
Proof.
  intros Hfull Hlast Hentries Hfuel.
  destruct (normalize_entries_total _ Hentries) as [[rm Hrm] [rs Hrs]].
  assert (Hlen : forall A (f : json -> result A) records,
             mapM f (List.concat pages ++ last) = Ok records ->
             List.length records
             = (100 * List.length pages + List.length last)%nat).
  { intros A f records H. rewrite (mapM_length _ _ _ H), length_app.
    rewrite (length_concat_full _ Hfull). reflexivity. }
  split.
  - intros username Hs.
    destruct (mcp_fetch_loop_pages username last pages 1 [] w fuel rm
                Hs Hfull Hlast Hrm Hfuel) as [w' [Hrun [_ Hsent]]].
    exists rm, w'. unfold McpServer.fetch_starred_repos.
    rewrite Hrun. split; [reflexivity|]. split; [exact Hrm|].
    split; [exact (Hlen _ _ _ Hrm)|]. split; [exact Hsent|].
    rewrite Hsent, length_app, length_map, page_numbers_length. lia.
  - intros self Hs.
    set (w0 := record (Print ("[" +++ isoformat (clock w)
                              +++ "] Fetching starred repos for @"
                              +++ SyncStars.username self +++ "..."))
                      (mkWorld (remote w) (writable w) (files w)
                               (S (clock w)) (log w))).
    destruct (sync_fetch_loop_pages self last pages 1 [] w0 fuel rs
                Hs Hfull Hlast Hrs Hfuel) as [w' [Hrun [_ Hsent]]].
    assert (Hsent0 : sent w0 = sent w)
      by (unfold w0; rewrite sent_record_print; reflexivity).
    eexists rs, _. unfold SyncStars.fetch_starred_repos.
    unfold bind at 1. unfold utcnow. unfold bind at 1. unfold print at 1.
    fold w0. unfold bind at 1. rewrite Hrun. change ([] ++ rs) with rs.
    unfold bind at 1. unfold print. unfold ret.
    split; [reflexivity|]. split; [exact Hrs|].
    split; [exact (Hlen _ _ _ Hrs)|].
    rewrite sent_record_print, Hsent, Hsent0. split; [reflexivity|].
    rewrite length_app, length_map, page_numbers_length. lia.
Qed.
End Pagination.

Lemma pagination_terminates_on_short_page_witness :
  exists records w',
    McpServer.fetch_starred_repos 2 (Some "octocat") world_101
    = (Returns records, w') /\
    List.length records = 101%nat /\
    List.length (sent w') = 2%nat.
Proof.
  assert (Hfull : Forall (fun p : list json => List.length p = 100%nat)
                         [repeat one_entry 100])
    by (constructor; [reflexivity|constructor]).
  assert (Hlast : (List.length [one_entry] < 100)%nat) by (simpl; lia).
  assert (Hentries : Forall (fun item => repository_of item <> None)
                            (List.concat [repeat one_entry 100]
                             ++ [one_entry])).
  { apply Forall_forall. intros x Hx.
    assert (x = one_entry) as ->.
    { apply in_app_or in Hx. destruct Hx as [Hx|[Hx|[]]]; [|congruence].
      change (List.concat [repeat one_entry 100])
        with (repeat one_entry 100 ++ []) in Hx.
      rewrite app_nil_r in Hx. apply (repeat_spec _ _ _ Hx). }
    discriminate. }
  assert (Hfuel : (List.length [repeat one_entry 100] < 2)%nat)
    by (simpl; lia).
  destruct (pagination_terminates_on_short_page
              (fun _ => EmptyString) [repeat one_entry 100] [one_entry] 2
              world_101 Hfull Hlast Hentries Hfuel) as [Hmcp _].
  destruct (Hmcp (Some "octocat"))
    as [records [w' [Hrun [_ [Hlen [_ Hreqs]]]]]].
  { intros i page h Hi. destruct i as [|[|i]]; simpl in Hi.
    - injection Hi as <-. reflexivity.
    - injection Hi as <-. reflexivity.
    - destruct i; discriminate Hi. }
  exists records, w'. split; [exact Hrun|]. split; [exact Hlen|exact Hreqs].
Defined.

(** ** Stable sorting *)

Lemma StronglySorted_weaken {B} (R R' : B -> B -> Prop) (l : list B) :
  (forall a b, R a b -> R' a b) ->
  StronglySorted R l -> StronglySorted R' l.
Proof.
  intros HR. induction 1 as [|x l Hl IH Hx]; constructor; [exact IH|].
  eapply Forall_impl; [|exact Hx]. intros b. apply HR.
Qed.

Lemma StronglySorted_snoc {B} (R : B -> B -> Prop) (l : list B) (x : B) :
  StronglySorted R l -> Forall (fun y => R y x) l ->
  StronglySorted R (l ++ [x]).
Proof.
  induction 1 as [|y l Hl IH Hy]; intros Hx; simpl.
  - constructor; constructor.
  - inversion Hx as [|? ? Hyx Hlx]; subst.
    constructor; [apply IH; exact Hlx|].
    apply Forall_app. split; [exact Hy|]. constructor; [exact Hyx|constructor].
Qed.

Lemma StronglySorted_rev {B} (R : B -> B -> Prop) (l : list B) :
  StronglySorted R l -> StronglySorted (fun a b => R b a) (rev l).
Proof.
  induction 1 as [|x l Hl IH Hx]; simpl; [constructor|].
  apply StronglySorted_snoc; [exact IH|]. apply Forall_rev. exact Hx.
Qed.

Section TypedSortFacts.
Context {T A : Type}.
Variable tlt : T -> T -> bool.
Hypothesis tlt_asym : forall a b, tlt a b = true -> tlt b a = false.
Hypothesis tle_trans :
  forall a b c, tlt b a = false -> tlt c b = false -> tlt c a = false.

Lemma insert_by_perm (x : T * A) (l : list (T * A)) :
  Permutation (insert_by tlt x l) (x :: l).
Proof.
  induction l as [|y l IH]; simpl; [reflexivity|].
  destruct (tlt (fst y) (fst x)); [|reflexivity].
  rewrite IH. apply perm_swap.
Qed.

Lemma sort_by_perm (l : list (T * A)) : Permutation (sort_by tlt l) l.
Proof.
  induction l as [|x l IH]; simpl; [reflexivity|].
  rewrite insert_by_perm. constructor. exact IH.
Qed.

Lemma insert_by_sorted (x : T * A) (l : list (T * A)) :
  StronglySorted (ascending tlt) l ->
  StronglySorted (ascending tlt) (insert_by tlt x l).
Proof.
  induction 1 as [|y l Hl IH Hy]; simpl.
  - constructor; constructor.
  - destruct (tlt (fst y) (fst x)) eqn:Hyx.
    + constructor; [exact IH|].
      apply (Permutation_Forall (Permutation_sym (insert_by_perm x l))).
      constructor; [|exact Hy]. apply tlt_asym. exact Hyx.
    + constructor; [constructor; assumption|].
      constructor; [exact Hyx|].
      eapply Forall_impl; [|exact Hy]. intros z Hz.
      unfold ascending in *. eapply tle_trans; eassumption.
Qed.

Lemma sort_by_sorted (l : list (T * A)) :
  StronglySorted (ascending tlt) (sort_by tlt l).
Proof.
  induction l as [|x l IH]; simpl; [constructor|].
  apply insert_by_sorted. exact IH.
Qed.

(** Elements that [tlt] does not separate keep their relative order. *)
Lemma insert_by_filter (p : T * A -> bool) (x : T * A) (l : list (T * A)) :
  (forall a b, In a (x :: l) -> In b (x :: l) ->
               p a = true -> p b = true -> tlt (fst a) (fst b) = false) ->
  filter p (insert_by tlt x l) = filter p (x :: l).
Proof.
  induction l as [|y l IH]; intros Hp; [reflexivity|].
  simpl insert_by. destruct (tlt (fst y) (fst x)) eqn:Hyx; [|reflexivity].
  simpl filter at 1. rewrite IH.
  - simpl. destruct (p x) eqn:Hx, (p y) eqn:Hy; try reflexivity.
    rewrite (Hp y x) in Hyx; simpl; auto. discriminate.
  - intros a b Ha Hb. apply Hp; simpl in *; tauto.
Qed.

Lemma sort_by_filter (p : T * A -> bool) (l : list (T * A)) :
  (forall a b, In a l -> In b l ->
               p a = true -> p b = true -> tlt (fst a) (fst b) = false) ->
  filter p (sort_by tlt l) = filter p l.
Proof.
  induction l as [|x l IH]; intros Hp; [reflexivity|].
  simpl sort_by. rewrite insert_by_filter.
  - simpl. rewrite IH; [reflexivity|].
    intros a b Ha Hb. apply Hp; simpl; auto.
  - intros a b Ha Hb. apply Hp.
    + apply (Permutation_in _ (perm_skip x (sort_by_perm l)) Ha).
    + apply (Permutation_in _ (perm_skip x (sort_by_perm l)) Hb).
Qed.

Variable tkey : A -> T.

Lemma sorted_desc_by_perm (l : list A) :
  Permutation (sorted_desc_by tlt tkey l) l.
Proof.
  unfold sorted_desc_by.
  rewrite <- Permutation_rev, sort_by_perm, <- Permutation_rev, map_map.
  simpl. rewrite map_id. reflexivity.
Qed.

Lemma keyed_sort_by (l : list A) :
  exists s, sort_by tlt (rev (map (fun x => (tkey x, x)) l))
            = map (fun x => (tkey x, x)) s.
Proof.
  assert (H : Forall (fun p => fst p = tkey (snd p))
                     (sort_by tlt (rev (map (fun x => (tkey x, x)) l)))).
  { apply (Permutation_Forall
             (Permutation_sym (sort_by_perm _))).
    apply Forall_rev. apply Forall_map. apply Forall_forall.
    intros; reflexivity. }
  exists (map snd (sort_by tlt (rev (map (fun x => (tkey x, x)) l)))).
  rewrite map_map. induction H as [|[t a] s Hp _ IH]; [reflexivity|].
  simpl in *. rewrite <- IH, Hp. reflexivity.
Qed.

Lemma sorted_desc_by_sorted (l : list A) :
  StronglySorted (fun a b => tlt (tkey a) (tkey b) = false)
                 (sorted_desc_by tlt tkey l).
Proof.
  unfold sorted_desc_by. destruct (keyed_sort_by l) as [s Hs].
  pose proof (sort_by_sorted (rev (map (fun x => (tkey x, x)) l))) as H.
  rewrite Hs in *. rewrite <- map_rev, map_map. simpl. rewrite map_id.
  apply StronglySorted_rev in H. rewrite <- map_rev in H.
  induction (rev s) as [|a r IH]; [constructor|].
  simpl in H. inversion H as [|? ? Hr Ha]; subst.
  constructor; [apply IH; exact Hr|].
  rewrite Forall_map in Ha. exact Ha.
Qed.

Lemma sorted_desc_by_stable (q : A -> bool) (l : list A) :
  (forall a b, q a = true -> q b = true -> tlt (tkey a) (tkey b) = false) ->
  filter q (sorted_desc_by tlt tkey l) = filter q l.
Proof.
  intros Hq. unfold sorted_desc_by. destruct (keyed_sort_by l) as [s Hs].
  pose proof (sort_by_filter (fun p => q (snd p))
                             (rev (map (fun x => (tkey x, x)) l))) as H.
  rewrite Hs in *.
  assert (Hmap : forall r, filter (fun p : T * A => q (snd p))
                                  (map (fun x => (tkey x, x)) r)
                           = map (fun x => (tkey x, x)) (filter q r)).
  { induction r as [|a r IH]; [reflexivity|].
    simpl. destruct (q a); simpl; rewrite IH; reflexivity. }
  rewrite <- map_rev, Hmap in H. rewrite Hmap in H.
  rewrite <- map_rev, map_map. simpl. rewrite map_id.
  assert (Hs' : filter q s = filter q (rev l)).
  { apply (f_equal (map snd)) in H.
    - rewrite !map_map in H. simpl in H. rewrite !map_id in H. exact H.
    - intros a b Ha Hb. apply in_map_iff in Ha, Hb.
      destruct Ha as [x [<- _]], Hb as [y [<- _]]. simpl. apply Hq. }
  rewrite filter_rev, Hs', filter_rev, rev_involutive. reflexivity.
Qed.
End TypedSortFacts.

Lemma mapM_pure {A B} (f : A -> result B) (g : A -> B) (l : list A) :
  Forall (fun x => f x = Ok (g x)) l -> mapM f l = Ok (map g l).
Proof.
  induction 1 as [|x l Hx _ IH]; simpl; [reflexivity|].
  rewrite Hx, IH. reflexivity.
Qed.

Lemma combine_map_self {A B} (f : A -> B) (l : list A) :
  combine (map f l) l = map (fun x => (f x, x)) l.
Proof. induction l as [|x l IH]; simpl; [|rewrite IH]; reflexivity. Qed.

Section EncodedKeys.
Context {T A : Type}.
Variable enc : T -> json.
Variable tlt : T -> T -> bool.
Hypothesis lt_enc : forall a b, Py.lt (enc a) (enc b) = Ok (tlt a b).

Lemma insert_asc_encoded (x : T * A) (l : list (T * A)) :
  Py.insert_asc ((encode_key enc) x) (map (encode_key enc) l)
  = Ok (map (encode_key enc) (insert_by tlt x l)).
Proof.
  induction l as [|y l IH]; [reflexivity|].
  simpl. rewrite lt_enc. simpl. destruct (tlt (fst y) (fst x)).
  - rewrite IH. reflexivity.
  - reflexivity.
Qed.

Lemma sort_asc_encoded (l : list (T * A)) :
  Py.sort_asc (map (encode_key enc) l)
  = Ok (map (encode_key enc) (sort_by tlt l)).
Proof.
  induction l as [|x l IH]; [reflexivity|].
  simpl. rewrite IH. simpl. apply insert_asc_encoded.
Qed.

(** [sorted(l, key=key, reverse=True)] when every key is an encoded
    [T]. *)
Lemma sorted_reverse_encoded (key : A -> result json) (tkey : A -> T)
    (l : list A) :
  Forall (fun x => key x = Ok (enc (tkey x))) l ->
  Py.sorted key true l = Ok (sorted_desc_by tlt tkey l).
Proof.
  intros Hkey. unfold Py.sorted, sorted_desc_by.
  rewrite (mapM_pure _ _ _ Hkey). simpl rbind.
  rewrite combine_map_self, <- !map_rev.
  rewrite <- (map_map (fun x => (tkey x, x)) (encode_key enc)).
  rewrite sort_asc_encoded. simpl rbind.
  rewrite <- map_rev, map_map. reflexivity.
Qed.
End EncodedKeys.

Lemma slice_to_count {A} (limit : Z) (l : list A) :
  0 <= limit -> Py.slice_to (JNum limit) l = Ok (firstn (Z.to_nat limit) l).
Proof.
  intros H. unfold Py.slice_to. simpl.
  destruct (limit <? 0) eqn:E; [apply Z.ltb_lt in E; lia|reflexivity].
Qed.

(** *** The order of [str] *)

Lemma string_ltb_asym (a b : string) :
  String.ltb a b = true -> String.ltb b a = false.
Proof.
  unfold String.ltb. rewrite (String.compare_antisym b a).
  destruct (String.compare a b); simpl; congruence.
Qed.

Lemma string_ltb_leb (a b : string) :
  String.ltb a b = false <-> String.leb b a = true.
Proof.
  unfold String.ltb, String.leb. rewrite (String.compare_antisym b a).
  destruct (String.compare a b); simpl; split; congruence.
Qed.

Lemma string_le_trans (a b c : string) :
  String.ltb b a = false -> String.ltb c b = false -> String.ltb c a = false.
Proof.
  unfold String.ltb. intros Hba Hcb.
  destruct (String.compare c a) eqn:Hca; try reflexivity.
  destruct (String.compare c b) eqn:Hcb'; try discriminate.
  - apply String.compare_eq_iff in Hcb'. subst c.
    rewrite Hca in Hba. discriminate.
  - destruct (String.compare b a) eqn:Hba'; try discriminate.
    + apply String.compare_eq_iff in Hba'. subst b.
      rewrite Hca in Hcb'. discriminate.
    + rewrite String.compare_antisym in Hcb'.
      destruct (String.compare b c) eqn:Hbc; try discriminate.
      apply String_as_OT.cmp_lt in Hbc, Hca.
      pose proof (String_as_OT.lt_trans _ _ _ Hbc Hca) as Hlt.
      apply String_as_OT.cmp_lt in Hlt. unfold String_as_OT.cmp in Hlt.
      congruence.
Qed.

Lemma string_leb_empty (s : string) : String.leb s "" = true -> s = "".
Proof. destruct s; [reflexivity|discriminate]. Qed.

(** ** The ranking queries and the order of the rendered sections *)

Lemma top_stars_ranked (repos : list dict) :
  Forall (fun r => exists n, Py.lookup r "stars" = Some (JNum n)) repos ->
  Py.sorted (fun x => Py.index (JObj x) "stars") true repos
  = Ok (sorted_desc_by Z.ltb stars_of repos).
Proof.
  intros H. apply (sorted_reverse_encoded JNum Z.ltb); [reflexivity|].
  eapply Forall_impl; [|exact H]. intros r [n Hn].
  unfold Py.index, stars_of. rewrite Hn. reflexivity.
Qed.

Lemma starred_at_ordered (repos : list dict) :
  Forall (fun r => exists s,
              Py.dict_get r "starred_at" (JStr "") = JStr s) repos ->
  Py.sorted (fun x => Py.get (JObj x) "starred_at" (JStr "")) true repos
  = Ok (sorted_desc_by String.ltb starred_at_of repos).
Proof.
  intros H. apply (sorted_reverse_encoded JStr String.ltb); [reflexivity|].
  eapply Forall_impl; [|exact H]. intros r [s Hs].
  unfold Py.get, starred_at_of. rewrite Hs. reflexivity.
Qed.

Lemma undated_last (l : list dict) :
  StronglySorted
    (fun a b => String.leb (starred_at_of b) (starred_at_of a) = true) l ->
  exists dated undated,
    l = dated ++ undated /\
    Forall (fun r => starred_at_of r <> "") dated /\
    Forall (fun r => starred_at_of r = "") undated.
Proof.
  induction 1 as [|x l Hl [dated [undated [-> [Hd Hu]]]] Hx].
  - exists [], []. repeat split; constructor.
  - destruct (String.eqb (starred_at_of x) "") eqn:E.
    + apply String.eqb_eq in E. exists [], (x :: dated ++ undated).
      split; [reflexivity|]. split; [constructor|].
      constructor; [exact E|].
      eapply Forall_impl; [|exact Hx]. intros r Hr. rewrite E in Hr.
      apply string_leb_empty. exact Hr.
    + apply String.eqb_neq in E. exists (x :: dated), undated.
      split; [reflexivity|]. split; [constructor; assumption|exact Hu].
Qed.

(** C5: on records whose [stars] is an integer, [get_top_stars] sorts
    the list by [stars], largest first, records with the same star count
    keeping the order they had in the input, and returns the slice
    [[:limit]] of it: its first [limit] records for a limit that is a
    count.  For stars [5, 90, 3, 90] and limit 2 these are the second
    and the fourth record, in this order. *)
Theorem top_stars_stable_descending (repos : list dict) (limit : Z) :
  Forall (fun r => exists n, Py.lookup r "stars" = Some (JNum n)) repos ->
  exists ranked,
    Permutation ranked repos /\
    StronglySorted (fun a b => stars_of b <= stars_of a) ranked /\
    (forall n, filter (fun r => stars_of r =? n) ranked
               = filter (fun r => stars_of r =? n) repos) /\
    McpServer.top_stars repos (JNum limit) = Py.slice_to (JNum limit) ranked /\
    (0 <= limit ->
     McpServer.top_stars repos (JNum limit)
     = Ok (firstn (Z.to_nat limit) ranked)) /\
    (forall lower dumps fuel username arguments w w',
        McpServer.fetch_starred_repos fuel username w = (Returns repos, w') ->
        Py.dict_get arguments "limit" (JNum 10) = JNum limit ->
        0 <= limit ->
        McpServer.call_tool lower dumps fuel username "get_top_stars"
                            (JObj arguments) w
        = (Returns (McpServer.text_result dumps
                      (firstn (Z.to_nat limit) ranked)), w')) /\
    (map stars_of repos = [5; 90; 3; 90] -> limit = 2 ->
     McpServer.top_stars repos (JNum limit)
     = Ok [nth 1 repos []; nth 3 repos []]).
Proof.
  intros Hstars. exists (sorted_desc_by Z.ltb stars_of repos).
  assert (Hslice : McpServer.top_stars repos (JNum limit)
                   = Py.slice_to (JNum limit)
                                 (sorted_desc_by Z.ltb stars_of repos)).
  { unfold McpServer.top_stars. rewrite (top_stars_ranked _ Hstars).
    reflexivity. }
  assert (Hrun : 0 <= limit ->
                 McpServer.top_stars repos (JNum limit)
                 = Ok (firstn (Z.to_nat limit)
                              (sorted_desc_by Z.ltb stars_of repos))).
  { intros Hlimit. rewrite Hslice. apply slice_to_count. exact Hlimit. }
  split; [apply sorted_desc_by_perm|].
  split; [|split; [|split; [exact Hslice|split; [exact Hrun|split]]]].
  - eapply StronglySorted_weaken; [|apply sorted_desc_by_sorted].
    + intros a b Hab. simpl in Hab. apply Z.ltb_ge. exact Hab.
    + intros a b Hab. apply Z.ltb_lt in Hab. apply Z.ltb_ge. lia.
    + intros a b c Hba Hcb. apply Z.ltb_ge in Hba, Hcb. apply Z.ltb_ge. lia.
  - intros n. apply sorted_desc_by_stable.
    intros a b Ha Hb. apply Z.eqb_eq in Ha, Hb. apply Z.ltb_ge. lia.
  - intros lower dumps fuel username arguments w w' Hfetch Harg Hlimit.
    assert (Htool : McpServer.get_top_stars dumps repos (JObj arguments)
                    = Ok (McpServer.text_result dumps
                            (firstn (Z.to_nat limit)
                               (sorted_desc_by Z.ltb stars_of repos)))).
    { unfold McpServer.get_top_stars, Py.get.
      rewrite Harg. simpl rbind. rewrite (Hrun Hlimit). reflexivity. }
    unfold McpServer.call_tool, bind. rewrite Hfetch. simpl String.eqb.
    cbv iota. rewrite Htool. reflexivity.
  - intros Hex ->. rewrite Hrun by lia.
    destruct repos as [|r1 [|r2 [|r3 [|r4 [|r5 repos]]]]];
      try discriminate Hex.
    injection Hex as H1 H2 H3 H4.
    unfold sorted_desc_by. simpl. rewrite H1, H2, H3, H4. reflexivity.
Qed.

(** C4: on records whose [starred_at] is a str (or is absent),
    [get_recent_stars] sorts the list by [starred_at] compared as
    strings, greatest first, so that the records with an empty
    [starred_at] come after all the others, and returns the slice
    [[:limit]] of it: its first [limit] records for a limit that is a
    count.  [generate_markdown] puts the caller's list in the same
    order and renders one section per record in that order. *)
Theorem recent_stars_newest_first (repos : list dict) (limit : Z) :
  Forall (fun r => exists s,
              Py.dict_get r "starred_at" (JStr "") = JStr s) repos ->
  exists ordered,
    Permutation ordered repos /\
    StronglySorted
      (fun a b => String.leb (starred_at_of b) (starred_at_of a) = true)
      ordered /\
    (exists dated undated,
        ordered = dated ++ undated /\
        Forall (fun r => starred_at_of r <> "") dated /\
        Forall (fun r => starred_at_of r = "") undated) /\
    McpServer.recent_stars repos (JNum limit)
    = Py.slice_to (JNum limit) ordered /\
    (0 <= limit ->
     McpServer.recent_stars repos (JNum limit)
     = Ok (firstn (Z.to_nat limit) ordered)) /\
    (forall lower dumps fuel username arguments w w',
        McpServer.fetch_starred_repos fuel username w = (Returns repos, w') ->
        Py.dict_get arguments "limit" (JNum 10) = JNum limit ->
        0 <= limit ->
        McpServer.call_tool lower dumps fuel username "get_recent_stars"
                            (JObj arguments) w
        = (Returns (McpServer.text_result dumps
                      (firstn (Z.to_nat limit) ordered)), w')) /\
    SyncStars.sort_by_starred_at repos = Ok ordered /\
    (forall strftime repr w sections,
        mapM (SyncStars.section_of repr) ordered = Ok sections ->
        exists header w',
          SyncStars.generate_markdown strftime repr repos w
          = (Returns (ordered, header +++ String.concat "" sections), w')).
Proof.
  intros Hkeys.
  exists (sorted_desc_by String.ltb starred_at_of repos).
  assert (Hslice : McpServer.recent_stars repos (JNum limit)
                   = Py.slice_to (JNum limit)
                       (sorted_desc_by String.ltb starred_at_of repos)).
  { unfold McpServer.recent_stars. rewrite (starred_at_ordered _ Hkeys).
    reflexivity. }
  assert (Hrun : 0 <= limit ->
                 McpServer.recent_stars repos (JNum limit)
                 = Ok (firstn (Z.to_nat limit)
                         (sorted_desc_by String.ltb starred_at_of repos))).
  { intros Hlimit. rewrite Hslice. apply slice_to_count. exact Hlimit. }
  assert (Hsorted : StronglySorted
            (fun a b => String.leb (starred_at_of b) (starred_at_of a) = true)
            (sorted_desc_by String.ltb starred_at_of repos)).
  { eapply StronglySorted_weaken;
      [|apply sorted_desc_by_sorted;
        [exact string_ltb_asym|exact string_le_trans]].
    intros a b Hab. simpl in Hab. apply string_ltb_leb. exact Hab. }
  split; [apply sorted_desc_by_perm|].
  split; [exact Hsorted|]. split; [exact (undated_last _ Hsorted)|].
  split; [exact Hslice|]. split; [exact Hrun|].
  split; [|split].
  - intros lower dumps fuel username arguments w w' Hfetch Harg Hlimit.
    assert (Htool : McpServer.get_recent_stars dumps repos (JObj arguments)
                    = Ok (McpServer.text_result dumps
                            (firstn (Z.to_nat limit)
                               (sorted_desc_by String.ltb starred_at_of
                                               repos)))).
    { unfold McpServer.get_recent_stars, Py.get.
      rewrite Harg. simpl rbind. rewrite (Hrun Hlimit). reflexivity. }
    unfold McpServer.call_tool, bind. rewrite Hfetch. simpl String.eqb.
    cbv iota. rewrite Htool. reflexivity.
  - exact (starred_at_ordered _ Hkeys).
  - intros strftime repr w sections Hsections.
    unfold SyncStars.generate_markdown, SyncStars.sort_by_starred_at.
    rewrite (starred_at_ordered _ Hkeys).
    cbn -[mapM String.append String.concat int_str sorted_desc_by].
    rewrite Hsections. eexists _, _. reflexivity.
Qed.

Lemma top_stars_stable_descending_witness :
  McpServer.top_stars four_repos (JNum 2)
  = Ok [star_record "b/two" 90 "";
        star_record "d/four" 90 "2022-03-05T10:00:00Z"].
Proof.
  assert (Hstars : Forall (fun r => exists n,
                               Py.lookup r "stars" = Some (JNum n))
                          four_repos)
    by (repeat constructor; eexists; reflexivity).
  destruct (top_stars_stable_descending four_repos 2 Hstars)
    as [ranked [_ [_ [_ [_ [_ [_ Hexample]]]]]]].
  apply Hexample; reflexivity.
Defined.

Lemma recent_stars_newest_first_witness :
  exists ordered,
    McpServer.recent_stars four_repos (JNum 3)
    = Ok (firstn 3 ordered) /\
    Permutation ordered four_repos /\
    SyncStars.sort_by_starred_at four_repos = Ok ordered.
Proof.
  assert (Hkeys : Forall (fun r => exists s,
                              Py.dict_get r "starred_at" (JStr "") = JStr s)
                         four_repos)
    by (repeat constructor; eexists; reflexivity).
  destruct (recent_stars_newest_first four_repos 3 Hkeys)
    as [ordered [Hperm [_ [_ [_ [Hrun [_ [Hsort _]]]]]]]].
  exists ordered. split; [apply Hrun; lia|].
  split; [exact Hperm|exact Hsort].
Defined.

(** The recency example of the specification: the undated record comes
    last. *)
Example recent_stars_undated_last :
  McpServer.recent_stars
    [star_record "a/one" 5 "2024-01-01T00:00:00Z";
     star_record "b/two" 90 "";
     star_record "c/three" 3 "2023-06-01T00:00:00Z"] (JNum 10)
  = Ok [star_record "a/one" 5 "2024-01-01T00:00:00Z";
        star_record "c/three" 3 "2023-06-01T00:00:00Z";
        star_record "b/two" 90 ""].
Proof. reflexivity. Qed.

(** ** The tool-call handler *)

Lemma call_tool_dispatches (lower : string -> string)
    (dumps : json -> string) (fuel : nat) (username : option string)
    (name : string) (arguments : json) (w w' : world) (repos : list dict)
    (f : list dict -> json -> result (list McpServer.TextContent)) :
  McpServer.fetch_starred_repos fuel username w = (Returns repos, w') ->
  In (name, f) (tool_table lower dumps) ->
  McpServer.call_tool lower dumps fuel username name arguments w
  = lift (f repos arguments) w'.
Proof.
  intros Hfetch Hin. unfold McpServer.call_tool, bind. rewrite Hfetch.
  destruct Hin as [H|[H|[H|[H|[H|[]]]]]]; injection H as <- <-;
    reflexivity.
Qed.

(** C6: a failure while a tool-call request is handled does not leave
    the handler that [@app.call_tool()] registers.  The function
    [call_tool] itself has no exception handler, but the registered
    handler calls it inside a guard: it never raises; when the
    ingestion raises (a refused or unanswered listing request, a
    malformed entry) or the query of any of the five tools raises, it
    returns an error result whose one text is the text of the
    exception; what [call_tool] returns is passed on as a result that is
    not an error, also the text ["Unknown tool"] for a name that is none
    of the five tools. *)
Theorem tool_call_failures_become_error_text
    (lower : string -> string) (dumps : json -> string)
    (exn_str : exn -> string) (fuel : nat) (username : option string)
    (name : string) (arguments : json) (w : world) :
  let handle :=
    McpServer.call_tool_handler lower dumps exn_str fuel username name
                                arguments in
  (forall e w', handle w <> (Raises e, w')) /\
  (forall e w',
      McpServer.fetch_starred_repos fuel username w = (Raises e, w') ->
      handle w = (Returns (error_result exn_str e), w')) /\
  (forall repos w' f e,
      McpServer.fetch_starred_repos fuel username w = (Returns repos, w') ->
      In (name, f) (tool_table lower dumps) ->
      f repos (passed_arguments arguments) = Err e ->
      handle w = (Returns (error_result exn_str e), w')) /\
  (forall repos w' f results,
      McpServer.fetch_starred_repos fuel username w = (Returns repos, w') ->
      In (name, f) (tool_table lower dumps) ->
      f repos (passed_arguments arguments) = Ok results ->
      handle w = (Returns (McpServer.mkCallToolResult results false), w')) /\
  (forall repos w',
      McpServer.fetch_starred_repos fuel username w = (Returns repos, w') ->
      ~ In name tool_names ->
      handle w
      = (Returns (McpServer.mkCallToolResult
                    [McpServer.mkTextContent "text" "Unknown tool"] false),
         w')).
Proof.
  cbv zeta. unfold McpServer.call_tool_handler, try_except.
  fold (passed_arguments arguments).
  split; [|split; [|split; [|split]]].
  - intros e w'. unfold bind at 1.
    destruct (McpServer.call_tool lower dumps fuel username name
                                  (passed_arguments arguments) w)
      as [[results|e'|] w1]; discriminate.
  - intros e w' Hfetch. unfold bind at 1.
    unfold McpServer.call_tool, bind. rewrite Hfetch. reflexivity.
  - intros repos w' f e Hfetch Hin Hf. unfold bind at 1.
    rewrite (call_tool_dispatches _ _ _ _ _ _ _ _ _ _ Hfetch Hin), Hf.
    reflexivity.
  - intros repos w' f results Hfetch Hin Hf. unfold bind at 1.
    rewrite (call_tool_dispatches _ _ _ _ _ _ _ _ _ _ Hfetch Hin), Hf.
    reflexivity.
  - intros repos w' Hfetch Hname. unfold bind at 1.
    unfold McpServer.call_tool, bind. rewrite Hfetch.
    repeat match goal with
           | |- context [String.eqb name ?s] =>
               destruct (String.eqb_spec name s) as [->|_];
               [exfalso; apply Hname; simpl; tauto|]
           end.
    reflexivity.
Qed.

Lemma tool_call_failures_become_error_text_witness :
  exists w',
    McpServer.call_tool_handler (fun s => s) (fun _ => "") exn_class 1
                                (Some "octocat") "search_stars"
                                (JObj [("query", JStr "cli")]) failing_world
    = (Returns (McpServer.mkCallToolResult
                  [McpServer.mkTextContent "text" "HTTPError"] true), w').
Proof.
  eexists.
  apply (proj1 (proj2 (tool_call_failures_become_error_text
                         (fun s => s) (fun _ => "") exn_class 1
                         (Some "octocat") "search_stars"
                         (JObj [("query", JStr "cli")]) failing_world))
               (HTTPError 500)).
  reflexivity.
Defined.

(** A query that raises: a [limit] that is a str cannot slice the
    ranked list, and the caller is answered with the error text. *)
Example tool_call_reports_a_query_failure :
  fst (McpServer.call_tool_handler (fun s => s) (fun _ => "") exn_class 1
         (Some "octocat") "get_top_stars" (JObj [("limit", JStr "3")])
         (mkWorld conflicting_remote true [] 0 []))
  = Returns (McpServer.mkCallToolResult
               [McpServer.mkTextContent "text" "TypeError"] true).
Proof. reflexivity. Qed.

(** ** The index mirror *)

Lemma successes_bounds net (posts : list request) : forall history,
  0 <= successes net history posts <= Z.of_nat (List.length posts).
Proof.
  induction posts as [|p posts IH]; intros history; simpl successes.
  - simpl. lia.
  - specialize (IH (history ++ [p])).
    change (List.length (p :: posts)) with (S (List.length posts)).
    destruct (accepted (net history p)); lia.
Qed.

Lemma has_mirror_fields_memory (repr : json -> string) (r : dict) :
  has_mirror_fields r -> exists m, SyncStars.memory_of repr r = Ok m.
Proof.
  intros [[name Hn] [[d Hd] [[l Hl] [[ts Ht] [[s Hs] [u Hu]]]]]].
  unfold SyncStars.memory_of, Py.index.
  rewrite Hn, Hd, Hl, Ht, Hs, Hu.
  assert (Hjoin : exists t, Py.join ", " (JArr (map JStr ts)) = Ok t).
  { unfold Py.join, Py.iter, rbind.
    rewrite (mapM_pure _ (fun x => match x with JStr s => s | _ => "" end))
      by (apply Forall_map, Forall_forall; intros; reflexivity).
    eexists. reflexivity. }
  destruct Hjoin as [t Hjoin]. unfold rbind. rewrite Hjoin.
  destruct (Py.truthy (JArr (map JStr ts))); eexists; reflexivity.
Qed.

Section Mirror.
Variable isoformat : nat -> string.
Variable repr : json -> string.
Variable exn_str : exn -> string.
Variable self : SyncStars.SupermemoryClient.

Lemma add_memory_submits (content : string) (metadata : dict) (w : world) :
  exists w',
    SyncStars.add_memory exn_str self content metadata w
    = (Returns (accepted (remote w (sent w)
                            (submission self (content, metadata)))), w') /\
    remote w' = remote w /\
    sent w' = sent w ++ [submission self (content, metadata)].
Proof.
  unfold SyncStars.add_memory, try_except, bind, http.
  change (POST (SyncStars.api_url self +++ "/memories")
               [("content", JStr content); ("metadata", JObj metadata)])
    with (submission self (content, metadata)).
  destruct (remote w (sent w) (submission self (content, metadata)))
    as [resp|e]; simpl accepted.
  - unfold raise_for_status.
    destruct ((400 <=? status_code resp) && (status_code resp <? 600));
      cbn -[String.append record submission];
      eexists; (split; [reflexivity|]); (split; [reflexivity|]).
    + rewrite sent_record_print. apply sent_record_request.
    + apply sent_record_request.
  - cbn -[String.append record submission].
    eexists. split; [reflexivity|]. split; [reflexivity|].
    rewrite sent_record_print. apply sent_record_request.
Qed.

Lemma sync_loop_submits (repos : list dict) :
  forall ms count w,
    mapM (SyncStars.memory_of repr) repos = Ok ms ->
    exists w',
      SyncStars.sync_loop repr exn_str self repos count w
      = (Returns (count + successes (remote w) (sent w)
                                    (map (submission self) ms)), w') /\
      remote w' = remote w /\
      sent w' = sent w ++ map (submission self) ms.
Proof.
  induction repos as [|r repos IH]; intros ms count w Hms.
  - injection Hms as <-. exists w. simpl. rewrite Z.add_0_r, app_nil_r.
    repeat split.
  - simpl in Hms.
    destruct (SyncStars.memory_of repr r) as [m|] eqn:Hm; [|discriminate].
    destruct (mapM (SyncStars.memory_of repr) repos) as [ms'|] eqn:Hms';
      [|discriminate].
    injection Hms as <-. simpl SyncStars.sync_loop. rewrite Hm.
    unfold lift at 1. unfold bind at 1. unfold ret at 1. unfold bind at 1.
    destruct (add_memory_submits (fst m) (snd m) w)
      as [w1 [Hadd [Hrem1 Hsent1]]].
    rewrite Hadd. rewrite <- surjective_pairing in *.
    destruct (IH ms' (if accepted (remote w (sent w) (submission self m))
                      then count + 1 else count) w1 eq_refl)
      as [w' [Hrun [Hrem Hsent]]].
    exists w'. rewrite Hrun, Hrem1, Hsent1. split.
    + simpl successes.
      destruct (accepted (remote w (sent w) (submission self m)));
        f_equal; f_equal; lia.
    + split; [congruence|]. rewrite Hsent, Hsent1, <- app_assoc. reflexivity.
Qed.

Lemma sync_repos_returns (repos : list dict) (w : world) :
  Forall has_mirror_fields repos ->
  exists n w',
    SyncStars.sync_repos isoformat repr exn_str self repos w
    = (Returns n, w').
Proof.
  intros Hfields.
  destruct (mapM_total (SyncStars.memory_of repr) repos) as [ms Hms].
  { eapply Forall_impl; [|exact Hfields].
    intros r. apply has_mirror_fields_memory. }
  unfold SyncStars.sync_repos.
  destruct (opt_truthy (SyncStars.api_key self));
    cbn [negb]; cbv beta iota; [|eexists _, _; reflexivity].
  unfold bind at 1. unfold utcnow. unfold bind at 1. unfold print at 1.
  unfold bind at 1.
  match goal with
  | |- context [SyncStars.sync_loop repr exn_str self repos 0 ?w0] =>
      destruct (sync_loop_submits repos ms 0 w0 Hms) as [w' [Hrun _]]
  end.
  rewrite Hrun. eexists _, _. reflexivity.
Qed.

(** C9: on records that have the fields the mirror reads, [sync_repos]
    returns a count between 0 and the number of records.  With a
    credential, every record is submitted once, in order, whatever the
    sink answered to the submissions before it, and the count is the
    number of submissions the sink accepted.  Without a credential (none
    or an empty one) it returns 0 and submits nothing. *)
Theorem mirror_counts_successes (repos : list dict) (w : world) :
  Forall has_mirror_fields repos ->
  exists n w' ms,
    mapM (SyncStars.memory_of repr) repos = Ok ms /\
    SyncStars.sync_repos isoformat repr exn_str self repos w
    = (Returns n, w') /\
    0 <= n <= Z.of_nat (List.length repos) /\
    (opt_truthy (SyncStars.api_key self) = false ->
     n = 0 /\ sent w' = sent w) /\
    (opt_truthy (SyncStars.api_key self) = true ->
     sent w' = sent w ++ map (submission self) ms /\
     n = successes (remote w) (sent w) (map (submission self) ms)).
Proof.
  intros Hfields.
  destruct (mapM_total (SyncStars.memory_of repr) repos) as [ms Hms].
  { eapply Forall_impl; [|exact Hfields].
    intros r. apply has_mirror_fields_memory. }
  unfold SyncStars.sync_repos.
  destruct (opt_truthy (SyncStars.api_key self)) eqn:Hkey;
    cbn [negb]; cbv beta iota.
  - unfold bind at 1. unfold utcnow. unfold bind at 1. unfold print at 1.
    unfold bind at 1.
    match goal with
    | |- context [SyncStars.sync_loop repr exn_str self repos 0 ?w0] =>
        destruct (sync_loop_submits repos ms 0 w0 Hms)
          as [w' [Hrun [Hrem Hsent]]];
        assert (Hsent0 : sent w0 = sent w)
          by (rewrite sent_record_print; reflexivity);
        change (remote w0) with (remote w) in Hrun
    end.
    rewrite Hsent0 in Hrun, Hsent. rewrite Z.add_0_l in Hrun.
    rewrite Hrun. unfold bind at 1. unfold print. unfold ret.
    eexists _, _, ms. split; [exact Hms|]. split; [reflexivity|].
    pose proof (successes_bounds (remote w) (map (submission self) ms)
                                 (sent w)) as Hb.
    rewrite length_map, (mapM_length _ _ _ Hms) in Hb.
    split; [exact Hb|]. split; [discriminate|]. intros _.
    rewrite sent_record_print. split; [exact Hsent|reflexivity].
  - eexists _, _, ms. split; [exact Hms|].
    unfold bind, print, ret. split; [reflexivity|].
    split; [lia|]. split; [|discriminate]. intros _.
    split; [reflexivity|]. apply sent_record_print.
Qed.
End Mirror.

Lemma star_record_has_mirror_fields (name : string) (stars : Z)
    (starred_at : string) :
  has_mirror_fields (star_record name stars starred_at).
Proof.
  unfold has_mirror_fields, star_record. simpl.
  repeat split; try (eexists; reflexivity).
  exists ["cli"]. reflexivity.
Qed.

Lemma mirror_counts_successes_witness :
  exists n w',
    SyncStars.sync_repos (fun _ => "") (fun _ => "") (fun _ => "")
      (SyncStars.mkSupermemoryClient (Some "key") "https://sink.example")
      four_repos (mkWorld flaky_sink true [] 0 [])
    = (Returns n, w') /\
    0 <= n <= 4.
Proof.
  destruct (mirror_counts_successes
              (fun _ => "") (fun _ => "") (fun _ => "")
              (SyncStars.mkSupermemoryClient (Some "key")
                                             "https://sink.example")
              four_repos (mkWorld flaky_sink true [] 0 []))
    as [n [w' [ms [_ [Hrun [Hbounds _]]]]]].
  - repeat constructor; apply star_record_has_mirror_fields.
  - exists n, w'. split; [exact Hrun|exact Hbounds].
Defined.

(** One refused submission out of four: the other three are still made
    and counted. *)
Example mirror_survives_a_failure :
  let run := SyncStars.sync_repos (fun _ => "") (fun _ => "") (fun _ => "")
               (SyncStars.mkSupermemoryClient (Some "key")
                                              "https://sink.example")
               four_repos (mkWorld flaky_sink true [] 0 []) in
  fst run = Returns 3 /\ List.length (sent (snd run)) = 4%nat.
Proof. vm_compute. split; reflexivity. Qed.

(** ** The publisher *)

(** The test vectors of RFC 4648. *)
Example b64encode_rfc4648 :
  map SyncStars.b64encode ["f"; "fo"; "foo"; "foob"; "fooba"; "foobar"]
  = ["Zg=="; "Zm8="; "Zm9v"; "Zm9vYg=="; "Zm9vYmE="; "Zm9vYmFy"].
Proof. reflexivity. Qed.

(** The text the dict literal first puts under ["content"], and the
    text that is there when the payload is sent. *)
Example url_quoted_content_is_replaced :
  SyncStars.replace_char "%" "" (SyncStars.quote "# My GitHub Stars")
  = "2320My20GitHub20Stars" /\
  Py.lookup (SyncStars.build_payload "Update" "main" "# My GitHub Stars"
                                     JNull) "content"
  = Some (JStr "IyBNeSBHaXRIdWIgU3RhcnM=").
Proof. split; reflexivity. Qed.

Lemma read_sha_returns (url branch : string) (w : world) :
  SyncStars.read_sha url branch w
  = (Returns (sha_read (remote w (sent w) (GET url [("ref", JStr branch)]))),
     record (Request (GET url [("ref", JStr branch)])) w).
Proof.
  unfold SyncStars.read_sha, try_except, bind, http, sha_read.
  destruct (remote w (sent w) (GET url [("ref", JStr branch)]))
    as [resp|e]; [|reflexivity].
  destruct (status_code resp =? 200); [|reflexivity].
  unfold response_json. destruct (body resp) as [v|]; [|reflexivity].
  destruct v; reflexivity.
Qed.

(** The URL-quoted text put under ["content"] by the dict literal is
    replaced before the payload is used. *)
Lemma build_payload_overwrites (message branch markdown_content : string)
    (sha : json) :
  SyncStars.build_payload message branch markdown_content sha
  = create_payload message branch markdown_content
    ++ (if Py.truthy sha then [("sha", sha)] else []).
Proof.
  unfold SyncStars.build_payload, create_payload.
  destruct (Py.truthy sha); reflexivity.
Qed.

(** *** Base64 *)

Lemma b64_digit_value (n : N) :
  (n < 64)%N ->
  b64_value (SyncStars.b64_digit n) = Some n /\
  Ascii.eqb (SyncStars.b64_digit n) "=" = false.
Proof.
  intros Hn.
  assert (Hall : forallb
                   (fun m => match b64_value (SyncStars.b64_digit m) with
                             | Some v => N.eqb v m
                             | None => false
                             end
                             && negb (Ascii.eqb (SyncStars.b64_digit m) "="))
                   (map N.of_nat (seq 0 64)) = true)
    by (vm_compute; reflexivity).
  rewrite forallb_forall in Hall. specialize (Hall n).
  assert (Hin : In n (map N.of_nat (seq 0 64))).
  { rewrite <- (N2Nat.id n). apply in_map. apply in_seq. lia. }
  specialize (Hall Hin). apply andb_true_iff in Hall.
  destruct Hall as [Hv He].
  destruct (b64_value (SyncStars.b64_digit n)) as [v|]; [|discriminate Hv].
  apply N.eqb_eq in Hv. subst v. apply negb_true_iff in He.
  split; [reflexivity|exact He].
Qed.

Lemma list_ind3 {A} (P : list A -> Prop) :
  P [] -> (forall a, P [a]) -> (forall a b, P [a; b]) ->
  (forall a b c l, P l -> P (a :: b :: c :: l)) ->
  forall l, P l.
Proof.
  intros H0 H1 H2 H3.
  fix IH 1. intros [|a [|b [|c l]]];
    [exact H0|apply H1|apply H2|apply H3; apply IH].
Qed.

Lemma b64decode_groups_encoded (l : list N) :
  Forall (fun b => (b < 256)%N) l ->
  b64decode_groups (list_ascii_of_string (SyncStars.b64_groups l)) = Some l.
Proof.
  induction l as [|a|a b|a b c l IH] using list_ind3; intros Hl.
  - reflexivity.
  - inversion Hl as [|? ? Ha _]; subst.
    cbn [SyncStars.b64_groups list_ascii_of_string b64decode_groups].
    destruct (b64_digit_value (a / 4)) as [-> _];
      [zify; Z.to_euclidean_division_equations; lia|].
    destruct (b64_digit_value (a mod 4 * 16)) as [-> _];
      [zify; Z.to_euclidean_division_equations; lia|].
    cbn [Ascii.eqb Bool.eqb andb]. do 2 f_equal.
    zify; Z.to_euclidean_division_equations; lia.
  - inversion Hl as [|? ? Ha Hl']; subst.
    inversion Hl' as [|? ? Hb _]; subst.
    cbn [SyncStars.b64_groups list_ascii_of_string b64decode_groups].
    destruct (b64_digit_value (a / 4)) as [-> _];
      [zify; Z.to_euclidean_division_equations; lia|].
    destruct (b64_digit_value (a mod 4 * 16 + b / 16)) as [-> _];
      [zify; Z.to_euclidean_division_equations; lia|].
    destruct (b64_digit_value (b mod 16 * 4)) as [-> ->];
      [zify; Z.to_euclidean_division_equations; lia|].
    cbn [Ascii.eqb Bool.eqb andb]. do 2 f_equal; [|f_equal];
      zify; Z.to_euclidean_division_equations; lia.
  - inversion Hl as [|? ? Ha Hl']; subst.
    inversion Hl' as [|? ? Hb Hl'']; subst.
    inversion Hl'' as [|? ? Hc Hl3]; subst.
    cbn [SyncStars.b64_groups list_ascii_of_string b64decode_groups].
    destruct (b64_digit_value (a / 4)) as [-> _];
      [zify; Z.to_euclidean_division_equations; lia|].
    destruct (b64_digit_value (a mod 4 * 16 + b / 16)) as [-> _];
      [zify; Z.to_euclidean_division_equations; lia|].
    destruct (b64_digit_value (b mod 16 * 4 + c / 64)) as [-> _];
      [zify; Z.to_euclidean_division_equations; lia|].
    destruct (b64_digit_value (c mod 64)) as [-> ->];
      [zify; Z.to_euclidean_division_equations; lia|].
    rewrite (IH Hl3). do 2 f_equal; [|f_equal; [|f_equal]];
      zify; Z.to_euclidean_division_equations; lia.
Qed.

Lemma b64_groups_length (l : list N) :
  String.length (SyncStars.b64_groups l)
  = (4 * ((List.length l + 2) / 3))%nat.
Proof.
  induction l as [|a|a b|a b c l IH] using list_ind3; try reflexivity.
  cbn [SyncStars.b64_groups String.length List.length]. rewrite IH.
  replace (S (S (S (List.length l))) + 2)%nat
    with (List.length l + 2 + 1 * 3)%nat by lia.
  rewrite Nat.div_add by lia. lia.
Qed.

(** [base64.b64decode(base64.b64encode(s)) == s], and the length of the
    encoded text. *)
Lemma b64decode_b64encode (s : string) :
  b64decode (SyncStars.b64encode s) = Some s /\
  String.length (SyncStars.b64encode s)
  = (4 * ((String.length s + 2) / 3))%nat.
Proof.
  unfold b64decode, SyncStars.b64encode. split.
  - rewrite b64decode_groups_encoded.
    + cbn [option_map]. rewrite map_map. f_equal.
      rewrite <- (string_of_list_ascii_of_string s) at 2. f_equal.
      rewrite <- (map_id (list_ascii_of_string s)) at 2.
      apply map_ext. intros c. apply ascii_N_embedding.
    + apply Forall_map, Forall_forall. intros c _. apply N_ascii_bounded.
  - rewrite b64_groups_length, length_map. f_equal. f_equal. f_equal.
    clear. induction s as [|c s IH]; [reflexivity|].
    simpl. rewrite IH. reflexivity.
Qed.

Section Publisher.
Variable isoformat : nat -> string.
Variable strftime : nat -> string.
Variables owner repo branch token markdown_content : string.

Local Abbreviation message := (commit_message strftime).
Local Abbreviation token_at := (token_read owner repo branch).
Local Abbreviation write :=
  (write_request strftime owner repo branch markdown_content).

Lemma commit_to_github_runs (w : world) :
  exists w1,
    sent w1 = sent w ++ [get_sha_request owner repo branch] /\
    remote w1 = remote w /\ files w1 = files w /\
    SyncStars.commit_to_github isoformat strftime owner repo branch token
                               markdown_content w
    = match remote w1 (sent w1) (write w) with
      | Err e => (Raises e, record (Request (write w)) w1)
      | Ok resp =>
          if (400 <=? status_code resp) && (status_code resp <? 600)
          then (Raises (HTTPError (status_code resp)),
                record (Request (write w)) w1)
          else (Returns tt,
                record (Print ("✅ Committed to " +++ owner +++ "/" +++ repo
                               +++ "/" +++ branch +++ "/"
                               +++ SyncStars.file_path))
                       (record (Request (write w)) w1))
      end.
Proof.
  unfold SyncStars.commit_to_github.
  unfold bind at 1. unfold utcnow at 1. unfold bind at 1. unfold print at 1.
  unfold bind at 1. rewrite read_sha_returns.
  match goal with
  | |- context [sha_read (remote ?wp (sent ?wp) _)] =>
      assert (Hp : sent wp = sent w)
        by (rewrite sent_record_print; reflexivity);
      change (remote wp) with (remote w); rewrite Hp
  end.
  fold (get_sha_request owner repo branch). fold (token_at w).
  unfold bind at 1. unfold utcnow at 1. unfold bind at 1.
  cbn [clock record]. fold (message w). fold (write w).
  match goal with
  | |- context [http (write w) ?w1] => exists w1
  end.
  split; [|split; [reflexivity|split; [reflexivity|]]].
  - unfold sent. simpl log. rewrite !requests_app. simpl.
    rewrite app_nil_r. reflexivity.
  - unfold http.
    match goal with
    | |- context [remote ?w1 (sent ?w1) (write w)] =>
        destruct (remote w1 (sent w1) (write w)) as [resp|e]
    end; [|reflexivity].
    unfold bind at 1. unfold raise_for_status.
    destruct ((400 <=? status_code resp) && (status_code resp <? 600));
      reflexivity.
Qed.

Lemma sent_after_write (w w1 : world) :
  sent w1 = sent w ++ [get_sha_request owner repo branch] ->
  sent (record (Request (write w)) w1)
  = sent w ++ [get_sha_request owner repo branch; write w].
Proof.
  intros H. rewrite sent_record_request, H, <- app_assoc. reflexivity.
Qed.

Lemma commit_to_github_sends (w : world) :
  sent (snd (SyncStars.commit_to_github isoformat strftime owner repo branch
                                        token markdown_content w))
  = sent w ++ [get_sha_request owner repo branch; write w].
Proof.
  destruct (commit_to_github_runs w) as [w1 [Hsent [_ [_ ->]]]].
  destruct (remote w1 (sent w1) (write w)) as [resp|e].
  - destruct ((400 <=? status_code resp) && (status_code resp <? 600));
      simpl snd; [|rewrite sent_record_print];
      apply sent_after_write; exact Hsent.
  - apply sent_after_write. exact Hsent.
Qed.

(** C7: the write request carries, under ["content"], the base64 text of
    the document's UTF-8 bytes, whatever the answers of the store: a
    text of [4 * ceil(n / 3)] characters for a document of [n] bytes,
    from which base64 decoding gives the document back, produced by an
    encoder that agrees with RFC 4648 on its test vectors.  The payload
    is the one the function would build without its URL-quoting step:
    message, content, branch, and the token when one was read. *)
Theorem written_content_is_base64 (w : world) :
  exists msg token_read,
    let payload :=
      create_payload msg branch markdown_content
      ++ (if Py.truthy token_read then [("sha", token_read)] else []) in
    sent (snd (SyncStars.commit_to_github isoformat strftime owner repo
                                          branch token markdown_content w))
    = sent w ++ [get_sha_request owner repo branch;
                 PUT (SyncStars.contents_url owner repo) payload] /\
    Py.lookup payload "content"
    = Some (JStr (SyncStars.b64encode markdown_content)) /\
    SyncStars.build_payload msg branch markdown_content token_read = payload /\
    (exists content,
        Py.lookup payload "content" = Some (JStr content) /\
        b64decode content = Some markdown_content /\
        String.length content
        = (4 * ((String.length markdown_content + 2) / 3))%nat) /\
    map SyncStars.b64encode ["f"; "fo"; "foo"; "foob"; "fooba"; "foobar"]
    = ["Zg=="; "Zm8="; "Zm9v"; "Zm9vYg=="; "Zm9vYmE="; "Zm9vYmFy"].
Proof.
  exists (message w), (token_at w). cbv zeta.
  rewrite commit_to_github_sends. unfold write_request.
  rewrite build_payload_overwrites.
  split; [reflexivity|]. split; [reflexivity|]. split; [reflexivity|].
  split; [|reflexivity].
  exists (SyncStars.b64encode markdown_content).
  split; [reflexivity|]. apply b64decode_b64encode.
Qed.

(** C10: when the read of the version token raises, or is answered with
    a status other than 200, the write that follows carries no token:
    its payload is message, content and branch, as for a document that
    does not exist. *)
Theorem failed_read_is_treated_as_absent (w : world) :
  (forall resp,
      remote w (sent w) (get_sha_request owner repo branch) = Ok resp ->
      status_code resp <> 200) ->
  exists msg,
    sent (snd (SyncStars.commit_to_github isoformat strftime owner repo
                                          branch token markdown_content w))
    = sent w ++ [get_sha_request owner repo branch;
                 PUT (SyncStars.contents_url owner repo)
                     (create_payload msg branch markdown_content)] /\
    Py.lookup (create_payload msg branch markdown_content) "sha" = None.
Proof.
  intros Hread. exists (message w).
  rewrite commit_to_github_sends. unfold write_request.
  rewrite build_payload_overwrites.
  assert (Hsha : token_at w = JNull).
  { unfold token_read, sha_read.
    destruct (remote w (sent w) (get_sha_request owner repo branch))
      as [resp|e]; [|reflexivity].
    specialize (Hread resp eq_refl).
    destruct (Z.eqb_spec (status_code resp) 200); [contradiction|reflexivity]. }
  rewrite Hsha. simpl Py.truthy. cbv iota. rewrite app_nil_r.
  split; reflexivity.
Qed.

Lemma rejected_write_raises (w : world) (status : Z) :
  400 <= status < 600 ->
  (forall h, exists b, remote w h (write w) = Ok (mkResponse status b)) ->
  exists w',
    SyncStars.commit_to_github isoformat strftime owner repo branch token
                               markdown_content w
    = (Raises (HTTPError status), w') /\
    sent w' = sent w ++ [get_sha_request owner repo branch; write w] /\
    files w' = files w.
Proof.
  intros Hstatus Hput.
  destruct (commit_to_github_runs w) as [w1 [Hsent [Hrem [Hfiles ->]]]].
  rewrite Hrem. destruct (Hput (sent w1)) as [b ->].
  simpl status_code.
  replace ((400 <=? status) && (status <? 600)) with true
    by (symmetry; apply andb_true_iff; split;
        [apply Z.leb_le|apply Z.ltb_lt]; lia).
  eexists. split; [reflexivity|]. split.
  - apply sent_after_write. exact Hsent.
  - exact Hfiles.
Qed.

(** C3 (amended): a write conditioned on a stale token is refused by the
    store, which keeps its document unchanged, and [commit_to_github]
    then raises [HTTPError] with the status of the answer, after that
    single write request.  It is the exception [raise_for_status] raises
    for a write answered with any status from 400 to 599: the publisher
    has no outcome of its own for a conflict. *)
Theorem stale_token_write_raises_http_error
    (new_token : string -> string) (t0 t1 c0 c1 : string) (w : world) :
  t0 <> t1 -> t0 <> "" ->
  remote w = store_network new_token (Some (mkDocument t0 c0))
                                     (Some (mkDocument t1 c1)) ->
  (exists w' msg,
      let payload := create_payload msg branch markdown_content
                     ++ [("sha", JStr t0)] in
      SyncStars.commit_to_github isoformat strftime owner repo branch token
                                 markdown_content w
      = (Raises (HTTPError 409), w') /\
      sent w' = sent w ++ [get_sha_request owner repo branch;
                           PUT (SyncStars.contents_url owner repo) payload] /\
      files w' = files w /\
      fst (store_put new_token (Some (mkDocument t1 c1)) payload)
      = Some (mkDocument t1 c1)) /\
  (forall w2 status,
      400 <= status < 600 ->
      (forall h payload, exists b,
          remote w2 h (PUT (SyncStars.contents_url owner repo) payload)
          = Ok (mkResponse status b)) ->
      exists w2',
        SyncStars.commit_to_github isoformat strftime owner repo branch token
                                   markdown_content w2
        = (Raises (HTTPError status), w2')).
Proof.
  intros Hstale Hnonempty Hstore. split.
  - assert (Hsha : token_at w = JStr t0).
    { unfold token_read. rewrite Hstore. reflexivity. }
    assert (Htruthy : Py.truthy (JStr t0) = true).
    { simpl. destruct (String.eqb_spec t0 ""); [contradiction|reflexivity]. }
    assert (Hpayload : SyncStars.build_payload (message w) branch
                         markdown_content (token_at w)
                       = create_payload (message w) branch markdown_content
                         ++ [("sha", JStr t0)]).
    { rewrite build_payload_overwrites, Hsha, Htruthy. reflexivity. }
    assert (Hrefused : store_put new_token (Some (mkDocument t1 c1))
                         (create_payload (message w) branch markdown_content
                          ++ [("sha", JStr t0)])
                       = (Some (mkDocument t1 c1), conflict)).
    { unfold store_put. simpl Py.lookup. simpl doc_token.
      cbv iota beta.
      rewrite (proj2 (String.eqb_neq t0 t1) Hstale). reflexivity. }
    destruct (rejected_write_raises w 409) as [w' [Hrun [Hsent Hfiles]]].
    + lia.
    + intros h. unfold write_request. rewrite Hstore, Hpayload.
      unfold store_network. rewrite Hrefused. eexists. reflexivity.
    + exists w', (message w). cbv zeta. rewrite <- Hpayload.
      split; [exact Hrun|]. split; [exact Hsent|]. split; [exact Hfiles|].
      rewrite Hpayload, Hrefused. reflexivity.
  - intros w2 status Hstatus Hput.
    destruct (rejected_write_raises w2 status Hstatus) as [w2' [Hrun _]].
    + intros h. apply Hput.
    + exists w2'. exact Hrun.
Qed.
End Publisher.

(** C3, as stated, fails: the write on the stale token ["T0"] and a
    write refused with status 403 both end in an [HTTPError]; the two
    exceptions are of one class and differ in the status they carry. *)
Lemma conflict_has_no_outcome_of_its_own :
  exists e1 e2 w1 w2,
    SyncStars.commit_to_github (fun _ => "") (fun _ => "") "octocat"
      "starmap" "main" "secret" "# My GitHub Stars" stale_world
    = (Raises e1, w1) /\
    SyncStars.commit_to_github (fun _ => "") (fun _ => "") "octocat"
      "starmap" "main" "secret" "# My GitHub Stars" forbidden_world
    = (Raises e2, w2) /\
    e1 = HTTPError 409 /\ e2 = HTTPError 403 /\
    exn_class e1 = exn_class e2.
Proof.
  do 4 eexists. split; [vm_compute; reflexivity|].
  split; [vm_compute; reflexivity|]. repeat split.
Qed.

Lemma stale_token_write_raises_http_error_witness :
  exists w',
    SyncStars.commit_to_github (fun _ => "") (fun _ => "") "octocat"
      "starmap" "main" "secret" "# My GitHub Stars" stale_world
    = (Raises (HTTPError 409), w').
Proof.
  assert (Hstale : "T0" <> "T1") by discriminate.
  assert (Hnonempty : "T0" <> "") by discriminate.
  destruct (stale_token_write_raises_http_error
              (fun _ => "") (fun _ => "") "octocat" "starmap" "main" "secret"
              "# My GitHub Stars" (fun c => c) "T0" "T1" "b2xk" "bmV3ZXI="
              stale_world Hstale Hnonempty eq_refl)
    as [[w' [msg [Hrun _]]] _].
  exists w'. exact Hrun.
Defined.

Lemma failed_read_is_treated_as_absent_witness :
  exists msg,
    sent (snd (SyncStars.commit_to_github (fun _ => "") (fun _ => "")
                 "octocat" "starmap" "main" "secret" "# My GitHub Stars"
                 forbidden_world))
    = [get_sha_request "octocat" "starmap" "main";
       PUT (SyncStars.contents_url "octocat" "starmap")
           (create_payload msg "main" "# My GitHub Stars")].
Proof.
  destruct (failed_read_is_treated_as_absent
              (fun _ => "") (fun _ => "") "octocat" "starmap" "main" "secret"
              "# My GitHub Stars" forbidden_world) as [msg [Hsent _]].
  - intros resp Hresp. injection Hresp as <-. discriminate.
  - exists msg. exact Hsent.
Defined.

(** ** The sync run *)

Lemma adds_only_refl (P : event -> Prop) (w : world) : adds_only P w w.
Proof.
  repeat split. exists []. rewrite app_nil_r. split; [reflexivity|constructor].
Qed.

Lemma adds_only_trans (P : event -> Prop) (w1 w2 w3 : world) :
  adds_only P w1 w2 -> adds_only P w2 w3 -> adds_only P w1 w3.
Proof.
  intros [Hr1 [Hw1 [Hf1 [evs1 [Hl1 Hp1]]]]] [Hr2 [Hw2 [Hf2 [evs2 [Hl2 Hp2]]]]].
  repeat split; try congruence.
  exists (evs1 ++ evs2). rewrite Hl2, Hl1, app_assoc.
  split; [reflexivity|]. apply Forall_app. split; assumption.
Qed.

Lemma adds_only_weaken (P Q : event -> Prop) (w w' : world) :
  (forall ev, P ev -> Q ev) -> adds_only P w w' -> adds_only Q w w'.
Proof.
  intros HPQ [Hr [Hw [Hf [evs [Hl Hp]]]]]. repeat split; try assumption.
  exists evs. split; [exact Hl|]. eapply Forall_impl; [|exact Hp]. exact HPQ.
Qed.

Lemma adds_only_record (P : event -> Prop) (ev : event) (w : world) :
  P ev -> adds_only P w (record ev w).
Proof.
  intros Hev. repeat split. exists [ev]. split; [reflexivity|].
  constructor; [exact Hev|constructor].
Qed.

Section Respects.
Variable P : event -> Prop.

Lemma respects_ret {A} (a : A) : respects P (ret a).
Proof. intros w. apply adds_only_refl. Qed.

Lemma respects_raise {A} (e : exn) : respects P (@raise A e).
Proof. intros w. apply adds_only_refl. Qed.

Lemma respects_out_of_fuel {A} : respects P (@out_of_fuel A).
Proof. intros w. apply adds_only_refl. Qed.

Lemma respects_lift {A} (r : result A) : respects P (lift r).
Proof. destruct r; [apply respects_ret|apply respects_raise]. Qed.

Lemma respects_bind {A B} (c : M A) (k : A -> M B) :
  respects P c -> (forall a, respects P (k a)) -> respects P (bind c k).
Proof.
  intros Hc Hk w. unfold bind. specialize (Hc w).
  destruct (c w) as [[a|e|] w1]; simpl in *; try exact Hc.
  eapply adds_only_trans; [exact Hc|apply Hk].
Qed.

Lemma respects_try_except {A} (c : M A) (handler : exn -> M A) :
  respects P c -> (forall e, respects P (handler e)) ->
  respects P (try_except c handler).
Proof.
  intros Hc Hh w. unfold try_except. specialize (Hc w).
  destruct (c w) as [[a|e|] w1]; simpl in *; try exact Hc.
  eapply adds_only_trans; [exact Hc|apply Hh].
Qed.

Lemma respects_print (line : string) :
  P (Print line) -> respects P (print line).
Proof. intros H w. apply adds_only_record. exact H. Qed.

Lemma respects_utcnow : respects P utcnow.
Proof.
  intros w. repeat split. exists []. simpl. rewrite app_nil_r.
  split; [reflexivity|constructor].
Qed.

Lemma respects_http (r : request) : P (Request r) -> respects P (http r).
Proof.
  intros H w. unfold http.
  destruct (remote w (sent w) r); apply adds_only_record; exact H.
Qed.

Lemma respects_raise_for_status (r : response) :
  respects P (raise_for_status r).
Proof.
  unfold raise_for_status.
  destruct ((400 <=? status_code r) && (status_code r <? 600));
    [apply respects_raise|apply respects_ret].
Qed.

Lemma respects_response_json (r : response) : respects P (response_json r).
Proof.
  unfold response_json.
  destruct (body r); [apply respects_ret|apply respects_raise].
Qed.
End Respects.

Lemma respects_weaken (P Q : event -> Prop) {A} (c : M A) :
  (forall ev, P ev -> Q ev) -> respects P c -> respects Q c.
Proof. intros HPQ Hc w. eapply adds_only_weaken; [exact HPQ|apply Hc]. Qed.

Ltac respects_step :=
  first [ apply respects_bind; [|intros ?]
        | apply respects_ret | apply respects_raise
        | apply respects_out_of_fuel | apply respects_lift
        | apply respects_utcnow | apply respects_raise_for_status
        | apply respects_response_json
        | apply respects_print
        | apply respects_http
        | apply respects_try_except; [|intros ?] ].

Ltac respects_if :=
  match goal with
  | |- respects _ (if ?b then _ else _) => destruct b
  | |- respects _ (match ?x with _ => _ end) => destruct x
  end.

Lemma fetch_loop_respects (self : SyncStars.GitHubClient) (fuel : nat) :
  forall page all_repos,
    respects (listing_event self)
             (SyncStars.fetch_loop fuel self page all_repos).
Proof.
  induction fuel as [|fuel IH]; intros page all_repos; simpl.
  - apply respects_out_of_fuel.
  - repeat first [ respects_step | respects_if | apply IH ];
      try exact I; reflexivity.
Qed.

Section SyncRun.
Variable isoformat : nat -> string.
Variable strftime : nat -> string.
Variable repr : json -> string.
Variable exn_str : exn -> string.

Lemma fetch_starred_repos_respects (fuel : nat)
    (self : SyncStars.GitHubClient) :
  respects (listing_event self)
           (SyncStars.fetch_starred_repos isoformat fuel self).
Proof.
  unfold SyncStars.fetch_starred_repos.
  repeat first [ respects_step | apply fetch_loop_respects ]; exact I.
Qed.

Lemma generate_markdown_respects (repos : list dict) :
  respects (fun _ => False)
           (SyncStars.generate_markdown strftime repr repos).
Proof.
  unfold SyncStars.generate_markdown. repeat respects_step.
Qed.

Lemma sync_loop_respects (self : SyncStars.SupermemoryClient)
    (repos : list dict) :
  forall count,
    respects sink_event (SyncStars.sync_loop repr exn_str self repos count).
Proof.
  induction repos as [|r repos IH]; intros count; simpl.
  - apply respects_ret.
  - unfold SyncStars.add_memory.
    repeat first [ respects_step | apply IH ]; exact I.
Qed.

Lemma sync_repos_respects (self : SyncStars.SupermemoryClient)
    (repos : list dict) :
  respects sink_event
           (SyncStars.sync_repos isoformat repr exn_str self repos).
Proof.
  unfold SyncStars.sync_repos.
  repeat first [ respects_step | respects_if | apply sync_loop_respects ];
    exact I.
Qed.

Lemma commit_to_github_respects (owner repo branch token md : string) :
  respects (fun _ => True)
           (SyncStars.commit_to_github isoformat strftime owner repo branch
                                       token md).
Proof.
  unfold SyncStars.commit_to_github, SyncStars.read_sha.
  repeat first [ respects_step | respects_if ]; exact I.
Qed.

Lemma listing_event_not_publish (self : SyncStars.GitHubClient)
    (env : SyncStars.environ) (ev : event) :
  listing_event self ev -> ~ is_publish env ev.
Proof.
  destruct ev as [[url params|url payload|url payload]|path text|line];
    simpl; try tauto.
  intros -> H. unfold publish_url, SyncStars.contents_url,
                 SyncStars.starred_url in H.
  simpl in H. discriminate H.
Qed.

(** The part of [main] that follows the local save. *)
Lemma after_save_respects (env : SyncStars.environ) (repos : list dict)
    (owner name branch token md : string) :
  respects (fun _ => True)
    (print "✅ Saved to starred-repos.md" ;;;
     (if opt_truthy (SyncStars.SUPERMEMORY_API_KEY env) then
        SyncStars.sync_repos isoformat repr exn_str
          (SyncStars.mkSupermemoryClient
             (SyncStars.SUPERMEMORY_API_KEY env)
             (SyncStars.getenv (SyncStars.SUPERMEMORY_API_URL env)
                               "https://api.supermemory.ai/v1"))
          repos ;;; ret tt
      else ret tt) ;;;
     try_except
       (SyncStars.commit_to_github isoformat strftime owner name branch
                                   token md)
       (fun e => print ("⚠️ Failed to commit to GitHub: " +++ exn_str e)) ;;;
     print (nl +++ "🎉 Sync complete!") ;;;
     print ("Raw URL: https://raw.githubusercontent.com/"
            +++ owner +++ "/" +++ name +++ "/" +++ branch
            +++ "/starred-repos.md")).
Proof.
  repeat first
    [ respects_step
    | respects_if
    | apply commit_to_github_respects
    | apply (respects_weaken sink_event);
      [intros; exact I|apply sync_repos_respects] ];
    exact I.
Qed.

Lemma main_saves_before_publishing (fuel : nat) (env : SyncStars.environ)
    (w : world) :
  exists pre post,
    log (snd (SyncStars.main isoformat strftime repr exn_str fuel env w))
    = log w ++ pre ++ post /\
    Forall (fun ev => ~ is_publish env ev) pre /\
    (post = [] \/
     exists md rest,
       post = Write "starred-repos.md" md :: rest /\
       read_file
         (files (snd (SyncStars.main isoformat strftime repr exn_str
                                     fuel env w)))
         "starred-repos.md" = Some md).
Proof.
  set (wf := snd (SyncStars.main isoformat strftime repr exn_str fuel env w)).
  assert (Hwf : wf = snd (SyncStars.main isoformat strftime repr exn_str
                                         fuel env w)) by reflexivity.
  clearbody wf. unfold SyncStars.main in Hwf.
  destruct (negb (opt_truthy (SyncStars.GITHUB_USERNAME env))
            || negb (opt_truthy (SyncStars.GITHUB_TOKEN env))).
  { exists [], []. subst wf. simpl. rewrite app_nil_r. auto. }
  cbv zeta in Hwf. unfold bind at 1 in Hwf.
  match type of Hwf with
  | context [SyncStars.fetch_starred_repos isoformat fuel ?c w] =>
      pose proof (fetch_starred_repos_respects fuel c w) as Hfetch;
      destruct (SyncStars.fetch_starred_repos isoformat fuel c w)
        as [[repos|e|] w1];
      destruct Hfetch as [_ [_ [_ [evs1 [Hlog1 Hevs1]]]]];
      simpl snd in Hlog1;
      assert (Hpre : Forall (fun ev => ~ is_publish env ev) evs1)
        by (eapply Forall_impl; [|exact Hevs1];
            intros ev; apply listing_event_not_publish)
  end.
  2, 3: exists evs1, []; subst wf; simpl snd; rewrite app_nil_r; auto.
  destruct repos as [|r repos].
  { exists (evs1 ++ [Print "⚠️ No starred repositories found"]), [].
    subst wf. simpl. rewrite Hlog1, !app_nil_r, <- app_assoc.
    split; [reflexivity|]. split; [|auto].
    apply Forall_app. split; [exact Hpre|]. constructor; [|constructor].
    simpl. tauto. }
  unfold bind at 1 in Hwf.
  pose proof (generate_markdown_respects (r :: repos) w1) as Hgen.
  destruct (SyncStars.generate_markdown strftime repr (r :: repos) w1)
    as [[rendered|e|] w2];
    destruct Hgen as [_ [_ [_ [evs2 [Hlog2 Hevs2]]]]]; simpl snd in Hlog2;
    (assert (evs2 = []) as -> by (destruct Hevs2; tauto));
    rewrite app_nil_r in Hlog2.
  2, 3: exists evs1, []; subst wf; simpl snd; rewrite Hlog2, app_nil_r; auto.
  unfold bind at 1 in Hwf. unfold write_file at 1 in Hwf.
  destruct (writable w2) eqn:Hwritable.
  2: { exists evs1, []. subst wf. simpl snd. rewrite Hlog2, app_nil_r. auto. }
  cbv beta iota in Hwf.
  match type of Hwf with
  | _ = snd (?c ?w3) =>
      assert (Hrest : adds_only (fun _ => True) w3 wf)
        by (rewrite Hwf; apply after_save_respects);
      destruct Hrest as [_ [_ [Hfiles [evs3 [Hlog3 _]]]]];
      exists evs1, (Write "starred-repos.md" (snd rendered) :: evs3);
      rewrite Hlog3, Hfiles
  end.
  simpl log. simpl files. rewrite Hlog2, Hlog1, <- !app_assoc.
  split; [reflexivity|]. split; [exact Hpre|]. right.
  exists (snd rendered), evs3. split; reflexivity.
Qed.

Lemma commit_to_github_fails (owner name branch token md : string)
    (answer : result response) (w : world) :
  accepted answer = false ->
  (forall h payload,
      remote w h (PUT (SyncStars.contents_url owner name) payload) = answer) ->
  exists w',
    SyncStars.commit_to_github isoformat strftime owner name branch token md w
    = (Raises (failure_of answer), w').
Proof.
  intros Hrefused Hput.
  destruct (commit_to_github_runs isoformat strftime owner name branch token
                                  md w) as [w1 [_ [Hrem [_ Hrun]]]].
  rewrite Hrun, Hrem. unfold write_request. rewrite Hput.
  destruct answer as [resp|e]; simpl in *.
  - apply negb_false_iff in Hrefused. rewrite Hrefused.
    eexists. reflexivity.
  - eexists. reflexivity.
Qed.

Lemma run_adds_only {A} (P : event -> Prop) (c : M A) (w w' : world)
    (o : outcome A) :
  respects P c -> c w = (o, w') -> adds_only P w w'.
Proof. intros Hc Hrun. specialize (Hc w). rewrite Hrun in Hc. exact Hc. Qed.

(** C8: in every run of [main], the events up to the local save contain
    no request to the published document: whatever is sent to it is
    sent after [starred-repos.md] was written with the rendered text.
    When the run has rendered the document, the disk accepts the write,
    the mirror can summarise the records and the store answers the
    publishing write with a refusal (or not at all), [main] still
    returns normally: the file holds the rendered text and the failure
    is printed. *)
Theorem local_save_precedes_publish (fuel : nat) (env : SyncStars.environ)
    (w : world) :
  (exists pre post,
      log (snd (SyncStars.main isoformat strftime repr exn_str fuel env w))
      = log w ++ pre ++ post /\
      Forall (fun ev => ~ is_publish env ev) pre /\
      (post = [] \/
       exists md rest,
         post = Write "starred-repos.md" md :: rest /\
         read_file
           (files (snd (SyncStars.main isoformat strftime repr exn_str
                                       fuel env w)))
           "starred-repos.md" = Some md)) /\
  (forall w1 w2 repos ordered md answer,
      opt_truthy (SyncStars.GITHUB_USERNAME env) = true ->
      opt_truthy (SyncStars.GITHUB_TOKEN env) = true ->
      SyncStars.fetch_starred_repos isoformat fuel
        (SyncStars.mkGitHubClient (opt_str (SyncStars.GITHUB_USERNAME env))
                                  (opt_str (SyncStars.GITHUB_TOKEN env))) w
      = (Returns repos, w1) ->
      repos <> [] ->
      SyncStars.generate_markdown strftime repr repos w1
      = (Returns (ordered, md), w2) ->
      writable w = true ->
      (opt_truthy (SyncStars.SUPERMEMORY_API_KEY env) = true ->
       Forall has_mirror_fields ordered) ->
      accepted answer = false ->
      (forall h payload,
          remote w h (PUT (publish_url env) payload) = answer) ->
      exists w',
        SyncStars.main isoformat strftime repr exn_str fuel env w
        = (Returns tt, w') /\
        read_file (files w') "starred-repos.md" = Some md /\
        In (Write "starred-repos.md" md) (log w') /\
        In (Print ("⚠️ Failed to commit to GitHub: "
                   +++ exn_str (failure_of answer))) (log w')).
Proof.
  split; [apply main_saves_before_publishing|].
  intros w1 w2 repos ordered md answer.
  intros Huser Htoken Hfetch Hrepos Hgen Hwritable Hfields Hrefused Hput.
  destruct (run_adds_only _ _ _ _ _ (fetch_starred_repos_respects fuel _)
                          Hfetch) as [Hrem1 [Hwr1 _]].
  destruct (run_adds_only _ _ _ _ _ (generate_markdown_respects repos)
                          Hgen) as [Hrem2 [Hwr2 _]].
  unfold SyncStars.main. rewrite Huser, Htoken.
  change (negb true || negb true) with false. cbv beta iota zeta.
  unfold bind at 1. rewrite Hfetch.
  destruct repos as [|r repos]; [contradiction|].
  unfold bind at 1. rewrite Hgen. simpl fst. simpl snd.
  unfold bind at 1. unfold write_file at 1.
  rewrite Hwr2, Hwr1, Hwritable.
  unfold bind at 1. unfold print at 1. unfold bind at 1.
  match goal with
  | |- context [(if opt_truthy ?key then ?mirror else ret tt) ?w3] =>
      assert (Hmirror : exists w4,
                 (if opt_truthy key then mirror else ret tt) w3
                 = (Returns tt, w4) /\
                 adds_only (fun _ => True) w3 w4)
  end.
  { destruct (opt_truthy (SyncStars.SUPERMEMORY_API_KEY env)).
    - specialize (Hfields eq_refl).
      match goal with
      | |- exists w4, (bind (SyncStars.sync_repos _ _ _ ?self ordered) _ ?w3
                       = _) /\ _ =>
          destruct (sync_repos_returns isoformat repr exn_str self
                                       ordered w3 Hfields)
            as [n [w4 Hsync]];
          exists w4; unfold bind; rewrite Hsync; split; [reflexivity|];
          apply (adds_only_weaken sink_event); [intros; exact I|];
          apply (run_adds_only _ _ _ _ _ (sync_repos_respects _ _) Hsync)
      end.
    - eexists. split; [reflexivity|]. apply adds_only_refl. }
  destruct Hmirror as [w4 [Hmirror [Hrem4 [_ [Hfiles4 [evs4 [Hlog4 _]]]]]]].
  rewrite Hmirror. unfold bind at 1. unfold try_except.
  destruct (commit_to_github_fails
              (SyncStars.getenv (SyncStars.TARGET_REPO_OWNER env)
                                (opt_str (SyncStars.GITHUB_USERNAME env)))
              (SyncStars.getenv (SyncStars.TARGET_REPO_NAME env) "starmap")
              (SyncStars.getenv (SyncStars.TARGET_BRANCH env) "main")
              (opt_str (SyncStars.GITHUB_TOKEN env)) md answer w4 Hrefused)
    as [w5 Hcommit].
  { intros h payload. rewrite Hrem4. simpl remote. rewrite Hrem2, Hrem1.
    apply Hput. }
  destruct (run_adds_only _ _ _ _ _ (commit_to_github_respects _ _ _ _ _)
                          Hcommit) as [_ [_ [Hfiles5 [evs5 [Hlog5 _]]]]].
  rewrite Hcommit. unfold print, bind, ret. eexists. split; [reflexivity|].
  simpl files. simpl log. rewrite Hfiles5, Hfiles4, Hlog5, Hlog4.
  simpl files. simpl log. split; [reflexivity|]. split.
  - rewrite !in_app_iff. simpl. tauto.
  - rewrite !in_app_iff. simpl. tauto.
Qed.
End SyncRun.

Lemma local_save_precedes_publish_witness :
  exists w' md,
    SyncStars.main (fun _ => "") (fun _ => "") (fun _ => "")
                   (fun _ => "error") 2 octocat_env conflicting_world
    = (Returns tt, w') /\
    read_file (files w') "starred-repos.md" = Some md /\
    In (Print ("⚠️ Failed to commit to GitHub: " +++ "error")) (log w').
Proof.
  pose (client := SyncStars.mkGitHubClient "octocat" "secret").
  pose (fetched := SyncStars.fetch_starred_repos (fun _ => "") 2 client
                                                 conflicting_world).
  pose (repos := match fst fetched with Returns r => r | _ => [] end).
  pose (rendered := SyncStars.generate_markdown (fun _ => "") (fun _ => "")
                                                repos (snd fetched)).
  pose (ordered := match fst rendered with
                   | Returns r => fst r
                   | _ => []
                   end).
  pose (md := match fst rendered with
              | Returns r => snd r
              | _ => ""
              end).
  assert (Hfetch : fetched = (Returns repos, snd fetched))
    by (vm_compute; reflexivity).
  assert (Hrepos : repos <> []) by (vm_compute; discriminate).
  assert (Hrender : rendered = (Returns (ordered, md), snd rendered))
    by (vm_compute; reflexivity).
  assert (Hfields : Forall has_mirror_fields ordered).
  { vm_compute. constructor; [|constructor].
    repeat split; try (eexists; reflexivity). exists []. reflexivity. }
  destruct (proj2 (local_save_precedes_publish
                     (fun _ => "") (fun _ => "") (fun _ => "")
                     (fun _ => "error") 2 octocat_env conflicting_world)
                  (snd fetched) (snd rendered) repos ordered md (Ok conflict)
                  eq_refl eq_refl Hfetch Hrepos Hrender eq_refl
                  (fun _ => Hfields) eq_refl (fun _ _ => eq_refl))
    as [w' [Hrun [Hfile [_ Hreport]]]].
  exists w', md. split; [exact Hrun|]. split; [exact Hfile|exact Hreport].
Defined.

(** * Further properties *)

(** ** Entries the normalizers refuse *)

Lemma sync_normalize_refuses (item : json) :
  repository_of item = None -> SyncStars.normalize item = Err AttributeError.
Proof.
  destruct item as [| | | | |fields]; try reflexivity.
  unfold repository_of, SyncStars.normalize, Py.contains, Py.index, Py.is_dict.
  simpl negb. cbv iota.
  destruct (Py.lookup fields "repo") as [[| | | | |r]|]; try discriminate;
    intros _; simpl; destruct (Py.lookup fields "starred_at"); reflexivity.
Qed.

Lemma mcp_normalize_refuses (item : json) :
  repository_of item = None ->
  McpServer.normalize item = Err AttributeError \/
  McpServer.normalize item = Err TypeError.
Proof.
  destruct item as [| | |s|l|fields]; intros H; try (right; reflexivity).
  - unfold McpServer.normalize, Py.contains, rbind.
    destruct (Py.is_substring "repo" s); cbn [negb Py.index];
      [right; reflexivity|].
    destruct (Py.is_substring "starred_at" s); left; reflexivity.
  - unfold McpServer.normalize, Py.contains, rbind.
    destruct (existsb (Py.eq (JStr "repo")) l); cbn [negb Py.index];
      [right; reflexivity|].
    destruct (existsb (Py.eq (JStr "starred_at")) l); left; reflexivity.
  - left. revert H.
    unfold repository_of, McpServer.normalize, Py.contains, Py.index.
    destruct (Py.lookup fields "repo") as [[| | | | |r]|]; try discriminate;
      intros _; simpl; destruct (Py.lookup fields "starred_at"); reflexivity.
Qed.

(** X1: an entry that is not a mapping, or whose [repo] is not a
    mapping, makes the normalizer raise: [AttributeError] in the sync
    script, whose [isinstance] test lets the entry through to
    [repo.get], and [AttributeError] or [TypeError] in the server.
    These are the only entries on which the normalizers raise. *)
Theorem normalize_raises_on_non_mappings (item : json) :
  (repository_of item = None ->
   SyncStars.normalize item = Err AttributeError /\
   (McpServer.normalize item = Err AttributeError \/
    McpServer.normalize item = Err TypeError)) /\
  (repository_of item <> None ->
   (exists rec, SyncStars.normalize item = Ok rec) /\
   (exists rec, McpServer.normalize item = Ok rec)).
Proof.
  split.
  - intros H. split; [apply sync_normalize_refuses|apply mcp_normalize_refuses];
      exact H.
  - intros H. destruct (repository_of item) as [r|] eqn:Hr; [|congruence].
    destruct item; try discriminate Hr.
    rewrite (sync_normalize_mapping _ _ Hr), (mcp_normalize_mapping _ _ Hr).
    split; eexists; reflexivity.
Qed.

Lemma normalize_raises_on_non_mappings_witness :
  SyncStars.normalize (JArr [JStr "octocat/hello"]) = Err AttributeError /\
  (exists rec, McpServer.normalize one_entry = Ok rec).
Proof.
  split.
  - apply (proj1 (normalize_raises_on_non_mappings
                    (JArr [JStr "octocat/hello"]))). reflexivity.
  - apply (proj2 (normalize_raises_on_non_mappings one_entry)). discriminate.
Defined.

(** X2: every record a normalizer returns has the same keys in the same
    order, so that the queries, the renderer and the mirror never meet a
    missing key on an ingested record. *)
Theorem normalized_record_keys (item : json) (rec : dict) :
  (SyncStars.normalize item = Ok rec ->
   map fst rec = ["name"; "description"; "url"; "language"; "topics";
                  "stars"; "last_updated"; "starred_at"; "homepage"]) /\
  (McpServer.normalize item = Ok rec ->
   map fst rec = ["name"; "description"; "url"; "language"; "topics";
                  "stars"; "starred_at"]).
Proof.
  destruct (repository_of item) as [r|] eqn:Hr.
  - destruct item; try discriminate Hr.
    rewrite (sync_normalize_mapping _ _ Hr), (mcp_normalize_mapping _ _ Hr).
    split; intros [= <-]; reflexivity.
  - split; intros H.
    + rewrite (sync_normalize_refuses _ Hr) in H. discriminate.
    + destruct (mcp_normalize_refuses _ Hr) as [E|E]; rewrite E in H;
        discriminate.
Qed.

Lemma normalized_record_keys_witness :
  exists rec,
    McpServer.normalize one_entry = Ok rec /\
    map fst rec = ["name"; "description"; "url"; "language"; "topics";
                   "stars"; "starred_at"].
Proof.
  eexists. split; [reflexivity|].
  apply (proj2 (normalized_record_keys one_entry _)). reflexivity.
Defined.

(** ** Ingestions that do not return *)

Lemma mapM_raises {A B} (f : A -> result B) (E : exn -> Prop) (l : list A) :
  Forall (fun x => (exists y, f x = Ok y) \/ exists e, f x = Err e /\ E e) l ->
  Exists (fun x => exists e, f x = Err e) l ->
  exists e, mapM f l = Err e /\ E e.
Proof.
  induction 1 as [|x l Hx Hl IH]; intros Hex; [inversion Hex|].
  simpl. destruct Hx as [[y Hy]|[e [He HE]]].
  - rewrite Hy. simpl.
    inversion Hex as [? ? [e He]|? ? Hex']; subst; [congruence|].
    destruct (IH Hex') as [e [-> HE]]. exists e. split; [reflexivity|exact HE].
  - rewrite He. exists e. split; [reflexivity|exact HE].
Qed.

Lemma page_numbers_snoc (n : nat) : forall first,
  page_numbers first (S n)
  = page_numbers first n ++ [first + Z.of_nat n].
Proof.
  induction n as [|n IH]; intros first.
  - simpl. rewrite Z.add_0_r. reflexivity.
  - change (page_numbers first (S (S n)))
      with (first :: page_numbers (first + 1) (S n)).
    rewrite IH. simpl page_numbers. simpl app.
    replace (first + 1 + Z.of_nat n) with (first + Z.of_nat (S n)) by lia.
    reflexivity.
Qed.

Lemma mcp_fetch_loop_full_pages (username : option string) :
  forall pages first acc w fuel records,
    serves (remote w) (McpServer.starred_url username) first pages ->
    Forall (fun p => List.length p = 100%nat) pages ->
    mapM McpServer.normalize (List.concat pages) = Ok records ->
    exists w',
      McpServer.fetch_loop (List.length pages + fuel) username first acc w
      = McpServer.fetch_loop fuel username
          (first + Z.of_nat (List.length pages)) (acc ++ records) w' /\
      remote w' = remote w /\
      sent w' = sent w ++ map (page_request (McpServer.starred_url username))
                              (page_numbers first (List.length pages)).
Proof.
  induction pages as [|p ps IH]; intros first acc w fuel records Hs Hfull Hm.
  - injection Hm as <-. exists w. simpl. rewrite Z.add_0_r, !app_nil_r.
    repeat split.
  - simpl List.length. simpl Nat.add.
    rewrite (mcp_fetch_loop_step _ _ _ _ _ _
               (serves_head _ _ _ _ _ (sent w) Hs)).
    cbv zeta. inversion Hfull as [|? ? Hp Hps]; subst.
    simpl List.concat in Hm. rewrite mapM_app in Hm.
    destruct (mapM McpServer.normalize p) as [r1|] eqn:Hr1;
      [|discriminate Hm].
    simpl in Hm.
    destruct (mapM McpServer.normalize (List.concat ps)) as [r2|] eqn:Hr2;
      [|discriminate Hm].
    injection Hm as <-.
    destruct p as [|item p]; [discriminate Hp|].
    replace (Z.of_nat (List.length (item :: p)) <? 100) with false
      by (symmetry; apply Z.ltb_ge; lia).
    destruct (IH (first + 1) (acc ++ r1)
                 (record (Request (page_request
                                     (McpServer.starred_url username) first)) w)
                 fuel r2 (serves_tail _ _ _ _ _ Hs) Hps eq_refl)
      as [w' [Hrun [Hrem Hsent]]].
    exists w'. rewrite Hrun, app_assoc.
    replace (first + 1 + Z.of_nat (List.length ps))
      with (first + Z.of_nat (S (List.length ps))) by lia.
    split; [reflexivity|]. split; [exact Hrem|].
    rewrite Hsent, sent_record_request, <- app_assoc. reflexivity.
Qed.

Lemma sync_fetch_loop_full_pages (self : SyncStars.GitHubClient) :
  forall pages first acc w fuel records,
    serves (remote w) (SyncStars.starred_url self) first pages ->
    Forall (fun p => List.length p = 100%nat) pages ->
    mapM SyncStars.normalize (List.concat pages) = Ok records ->
    exists w',
      SyncStars.fetch_loop (List.length pages + fuel) self first acc w
      = SyncStars.fetch_loop fuel self
          (first + Z.of_nat (List.length pages)) (acc ++ records) w' /\
      remote w' = remote w /\
      sent w' = sent w ++ map (page_request (SyncStars.starred_url self))
                              (page_numbers first (List.length pages)).
Proof.
  induction pages as [|p ps IH]; intros first acc w fuel records Hs Hfull Hm.
  - injection Hm as <-. exists w. simpl. rewrite Z.add_0_r, !app_nil_r.
    repeat split.
  - simpl List.length. simpl Nat.add.
    rewrite (sync_fetch_loop_step _ _ _ _ _ _
               (serves_head _ _ _ _ _ (sent w) Hs)).
    cbv zeta. inversion Hfull as [|? ? Hp Hps]; subst.
    simpl List.concat in Hm. rewrite mapM_app in Hm.
    destruct (mapM SyncStars.normalize p) as [r1|] eqn:Hr1;
      [|discriminate Hm].
    simpl in Hm.
    destruct (mapM SyncStars.normalize (List.concat ps)) as [r2|] eqn:Hr2;
      [|discriminate Hm].
    injection Hm as <-.
    destruct p as [|item p]; [discriminate Hp|].
    replace (Z.of_nat (List.length (item :: p)) <? 100) with false
      by (symmetry; apply Z.ltb_ge; lia).
    match goal with
    | |- context [SyncStars.fetch_loop (List.length ps + fuel) self
                    (first + 1) (acc ++ r1) ?w1] =>
        destruct (IH (first + 1) (acc ++ r1) w1 fuel r2
                     (serves_tail _ _ _ _ _ Hs) Hps eq_refl)
          as [w' [Hrun [Hrem Hsent]]]
    end.
    exists w'. rewrite Hrun, app_assoc.
    replace (first + 1 + Z.of_nat (List.length ps))
      with (first + Z.of_nat (S (List.length ps))) by lia.
    split; [reflexivity|]. split; [exact Hrem|].
    rewrite Hsent, sent_record_print, sent_record_request, <- app_assoc.
    reflexivity.
Qed.

(** A page request that is answered with a refusal, or not answered. *)
Lemma mcp_fetch_loop_refused fuel username page acc w answer :
  remote w (sent w) (page_request (McpServer.starred_url username) page)
  = answer ->
  accepted answer = false ->
  McpServer.fetch_loop (S fuel) username page acc w
  = (Raises (failure_of answer),
     record (Request (page_request (McpServer.starred_url username) page)) w).
Proof.
  intros H Hrefused. simpl McpServer.fetch_loop. unfold bind at 1.
  fold (page_request (McpServer.starred_url username) page).
  unfold http. rewrite H. destruct answer as [resp|e]; [|reflexivity].
  simpl in Hrefused. apply negb_false_iff in Hrefused.
  unfold bind, raise_for_status. rewrite Hrefused. reflexivity.
Qed.

Lemma sync_fetch_loop_refused fuel self page acc w answer :
  remote w (sent w) (page_request (SyncStars.starred_url self) page)
  = answer ->
  accepted answer = false ->
  SyncStars.fetch_loop (S fuel) self page acc w
  = (Raises (failure_of answer),
     record (Request (page_request (SyncStars.starred_url self) page)) w).
Proof.
  intros H Hrefused. simpl SyncStars.fetch_loop. unfold bind at 1.
  unfold SyncStars.per_page.
  fold (page_request (SyncStars.starred_url self) page).
  unfold http. rewrite H. destruct answer as [resp|e]; [|reflexivity].
  simpl in Hrefused. apply negb_false_iff in Hrefused.
  unfold bind, raise_for_status. rewrite Hrefused. reflexivity.
Qed.

(** What [GitHubClient.fetch_starred_repos] adds around its loop. *)
Lemma sync_fetch_starred_repos_runs (isoformat : nat -> string) (fuel : nat)
    (self : SyncStars.GitHubClient) (w : world) :
  exists w0,
    remote w0 = remote w /\ sent w0 = sent w /\
    SyncStars.fetch_starred_repos isoformat fuel self w
    = match SyncStars.fetch_loop fuel self 1 [] w0 with
      | (Returns all_repos, w1) =>
          (Returns all_repos,
           record (Print ("✅ Total starred repos: "
                          +++ int_str (Z.of_nat (List.length all_repos)))) w1)
      | (Raises e, w1) => (Raises e, w1)
      | (OutOfFuel, w1) => (OutOfFuel, w1)
      end.
Proof.
  unfold SyncStars.fetch_starred_repos.
  unfold bind at 1. unfold utcnow. unfold bind at 1. unfold print at 1.
  unfold bind at 1.
  match goal with
  | |- context [SyncStars.fetch_loop fuel self 1 [] ?w0] => exists w0
  end.
  split; [reflexivity|]. split; [rewrite sent_record_print; reflexivity|].
  destruct (SyncStars.fetch_loop fuel self 1 []) as [[r|e|] w1]; reflexivity.
Qed.

Lemma normalize_entries_raise (entries : list json) :
  Exists (fun item => repository_of item = None) entries ->
  (exists e, mapM McpServer.normalize entries = Err e /\
             (e = AttributeError \/ e = TypeError)) /\
  mapM SyncStars.normalize entries = Err AttributeError.
Proof.
  intros Hbad. split.
  - apply mapM_raises.
    + apply Forall_forall. intros item _.
      destruct (repository_of item) as [r|] eqn:Hr.
      * left. destruct item; try discriminate Hr.
        rewrite (mcp_normalize_mapping _ _ Hr). eexists. reflexivity.
      * right. destruct (mcp_normalize_refuses item Hr) as [H|H];
          eexists; (split; [exact H|]); [left|right]; reflexivity.
    + eapply Exists_impl; [|exact Hbad]. intros item Hr. cbv beta in Hr.
      destruct (mcp_normalize_refuses item Hr) as [H|H];
        eexists; exact H.
  - destruct (mapM_raises SyncStars.normalize (fun e => e = AttributeError)
                          entries) as [e [He ->]]; [| |exact He].
    + apply Forall_forall. intros item _.
      destruct (repository_of item) as [r|] eqn:Hr.
      * left. destruct item; try discriminate Hr.
        rewrite (sync_normalize_mapping _ _ Hr). eexists. reflexivity.
      * right. exists AttributeError.
        split; [exact (sync_normalize_refuses item Hr)|reflexivity].
    + eapply Exists_impl; [|exact Hbad]. intros item Hr. cbv beta in Hr.
      exists AttributeError. exact (sync_normalize_refuses item Hr).
Qed.

Lemma mcp_fetch_loop_endless (username : option string) (page : list json)
    (records : list dict) :
  List.length page = 100%nat ->
  mapM McpServer.normalize page = Ok records ->
  forall fuel first acc w,
    (forall h p,
        remote w h (page_request (McpServer.starred_url username) p)
        = Ok (mkResponse 200 (Some (JArr page)))) ->
    exists w',
      McpServer.fetch_loop fuel username first acc w = (OutOfFuel, w') /\
      sent w' = sent w ++ map (page_request (McpServer.starred_url username))
                              (page_numbers first fuel).
Proof.
  intros Hlen Hrec.
  induction fuel as [|fuel IH]; intros first acc w Hnet.
  - exists w. split; [reflexivity|]. simpl. rewrite app_nil_r. reflexivity.
  - rewrite (mcp_fetch_loop_step _ _ _ _ _ _ (Hnet (sent w) first)).
    cbv zeta. rewrite Hrec.
    destruct page as [|item page]; [discriminate Hlen|].
    replace (Z.of_nat (List.length (item :: page)) <? 100) with false
      by (symmetry; apply Z.ltb_ge; lia).
    match goal with
    | |- context [McpServer.fetch_loop fuel username (first + 1)
                    (acc ++ records) ?w1] =>
        destruct (IH (first + 1) (acc ++ records) w1 Hnet)
          as [w' [Hrun Hsent]]
    end.
    exists w'. split; [exact Hrun|].
    rewrite Hsent, sent_record_request, <- app_assoc. reflexivity.
Qed.

Lemma sync_fetch_loop_endless (self : SyncStars.GitHubClient)
    (page : list json) (records : list dict) :
  List.length page = 100%nat ->
  mapM SyncStars.normalize page = Ok records ->
  forall fuel first acc w,
    (forall h p,
        remote w h (page_request (SyncStars.starred_url self) p)
        = Ok (mkResponse 200 (Some (JArr page)))) ->
    exists w',
      SyncStars.fetch_loop fuel self first acc w = (OutOfFuel, w') /\
      sent w' = sent w ++ map (page_request (SyncStars.starred_url self))
                              (page_numbers first fuel).
Proof.
  intros Hlen Hrec.
  induction fuel as [|fuel IH]; intros first acc w Hnet.
  - exists w. split; [reflexivity|]. simpl. rewrite app_nil_r. reflexivity.
  - rewrite (sync_fetch_loop_step _ _ _ _ _ _ (Hnet (sent w) first)).
    cbv zeta. rewrite Hrec.
    destruct page as [|item page]; [discriminate Hlen|].
    replace (Z.of_nat (List.length (item :: page)) <? 100) with false
      by (symmetry; apply Z.ltb_ge; lia).
    match goal with
    | |- context [SyncStars.fetch_loop fuel self (first + 1)
                    (acc ++ records) ?w1] =>
        destruct (IH (first + 1) (acc ++ records) w1 Hnet)
          as [w' [Hrun Hsent]]
    end.
    exists w'. split; [exact Hrun|].
    rewrite Hsent, sent_record_print, sent_record_request, <- app_assoc.
    reflexivity.
Qed.

Lemma serves_prefix net url first (pages more : list (list json)) :
  serves net url first (pages ++ more) -> serves net url first pages.
Proof.
  intros Hs i page h Hi. apply Hs.
  rewrite nth_error_app1; [exact Hi|].
  apply nth_error_Some. congruence.
Qed.

Lemma serves_after net url first (pages : list (list json)) last h :
  serves net url first (pages ++ [last]) ->
  net h (page_request url (first + Z.of_nat (List.length pages)))
  = Ok (mkResponse 200 (Some (JArr last))).
Proof.
  intros Hs. apply Hs.
  rewrite nth_error_app2, Nat.sub_diag; [reflexivity|lia].
Qed.

Section Interrupted.
Variable isoformat : nat -> string.

(** X3: when the listing source answers pages [1..k] with 100 well-formed
    entries each and then refuses page [k+1] (a status from 400 to 599) or
    does not answer it (a transport failure), both ingestors raise that
    failure, given [k+1] units of fuel or more: the records of the [k]
    pages already read are not returned, and page [k+1] is the last
    request. *)
Theorem listing_failure_aborts_ingestion
    (pages : list (list json)) (answer : result response) (fuel : nat)
    (w : world) :
  Forall (fun p => List.length p = 100%nat) pages ->
  Forall (fun item => repository_of item <> None) (List.concat pages) ->
  accepted answer = false ->
  (List.length pages < fuel)%nat ->
  (forall username,
      serves (remote w) (McpServer.starred_url username) 1 pages ->
      (forall h, remote w h (page_request (McpServer.starred_url username)
                                          (1 + Z.of_nat (List.length pages)))
                 = answer) ->
      exists w',
        McpServer.fetch_starred_repos fuel username w
        = (Raises (failure_of answer), w') /\
        sent w' = sent w ++ map (page_request (McpServer.starred_url username))
                                (page_numbers 1 (S (List.length pages)))) /\
  (forall self,
      serves (remote w) (SyncStars.starred_url self) 1 pages ->
      (forall h, remote w h (page_request (SyncStars.starred_url self)
                                          (1 + Z.of_nat (List.length pages)))
                 = answer) ->
      exists w',
        SyncStars.fetch_starred_repos isoformat fuel self w
        = (Raises (failure_of answer), w') /\
        sent w' = sent w ++ map (page_request (SyncStars.starred_url self))
                                (page_numbers 1 (S (List.length pages)))).
Proof.
  intros Hfull Hentries Hrefused Hfuel.
  destruct (normalize_entries_total _ Hentries) as [[rm Hrm] [rs Hrs]].
  destruct fuel as [|fuel]; [lia|].
  replace (S fuel)
    with (List.length pages + S (fuel - List.length pages))%nat by lia.
  split.
  - intros username Hs Hnext. unfold McpServer.fetch_starred_repos.
    destruct (mcp_fetch_loop_full_pages username pages 1 [] w
                (S (fuel - List.length pages)) rm Hs Hfull Hrm)
      as [w1 [Hrun [Hrem Hsent]]].
    rewrite Hrun.
    rewrite (mcp_fetch_loop_refused _ _ _ _ _ answer); [|
      rewrite Hrem; apply Hnext | exact Hrefused].
    eexists. split; [reflexivity|].
    rewrite sent_record_request, Hsent, page_numbers_snoc, map_app,
      app_assoc.
    reflexivity.
  - intros self Hs Hnext.
    destruct (sync_fetch_starred_repos_runs isoformat
                (List.length pages + S (fuel - List.length pages)) self w)
      as [w0 [Hrem0 [Hsent0 ->]]].
    rewrite <- Hrem0 in Hs, Hnext.
    destruct (sync_fetch_loop_full_pages self pages 1 [] w0
                (S (fuel - List.length pages)) rs Hs Hfull Hrs)
      as [w1 [Hrun [Hrem Hsent]]].
    rewrite Hrun.
    rewrite (sync_fetch_loop_refused _ _ _ _ _ answer); [|
      rewrite Hrem; apply Hnext | exact Hrefused].
    eexists. split; [reflexivity|].
    rewrite sent_record_request, Hsent, Hsent0, page_numbers_snoc, map_app,
      app_assoc.
    reflexivity.
Qed.

(** X4: one entry that is not a mapping (or whose [repo] value is not
    one) aborts the whole ingestion: when such an entry stands on page
    [k+1] after [k] full well-formed pages, the server's ingestor raises
    [AttributeError] or [TypeError] and the script's raises
    [AttributeError]; no record is returned, also not those of the pages
    and entries before it, and page [k+1] is the last request. *)
Theorem malformed_entry_aborts_ingestion
    (pages : list (list json)) (bad_page : list json) (fuel : nat)
    (w : world) :
  Forall (fun p => List.length p = 100%nat) pages ->
  Forall (fun item => repository_of item <> None) (List.concat pages) ->
  Exists (fun item => repository_of item = None) bad_page ->
  (List.length pages < fuel)%nat ->
  (forall username,
      serves (remote w) (McpServer.starred_url username) 1
             (pages ++ [bad_page]) ->
      exists e w',
        McpServer.fetch_starred_repos fuel username w = (Raises e, w') /\
        (e = AttributeError \/ e = TypeError) /\
        sent w' = sent w ++ map (page_request (McpServer.starred_url username))
                                (page_numbers 1 (S (List.length pages)))) /\
  (forall self,
      serves (remote w) (SyncStars.starred_url self) 1
             (pages ++ [bad_page]) ->
      exists w',
        SyncStars.fetch_starred_repos isoformat fuel self w
        = (Raises AttributeError, w') /\
        sent w' = sent w ++ map (page_request (SyncStars.starred_url self))
                                (page_numbers 1 (S (List.length pages)))).
Proof.
  intros Hfull Hentries Hbad Hfuel.
  destruct (normalize_entries_total _ Hentries) as [[rm Hrm] [rs Hrs]].
  destruct (normalize_entries_raise _ Hbad) as [[e [Hem He]] Hes].
  assert (Hne : bad_page <> []) by (intros ->; inversion Hbad).
  destruct fuel as [|fuel]; [lia|].
  replace (S fuel)
    with (List.length pages + S (fuel - List.length pages))%nat by lia.
  split.
  - intros username Hs. unfold McpServer.fetch_starred_repos.
    destruct (mcp_fetch_loop_full_pages username pages 1 [] w
                (S (fuel - List.length pages)) rm
                (serves_prefix _ _ _ _ _ Hs) Hfull Hrm)
      as [w1 [Hrun [Hrem Hsent]]].
    rewrite Hrun.
    rewrite (mcp_fetch_loop_step _ _ _ _ _ bad_page);
      [|rewrite Hrem; apply (serves_after _ _ _ _ _ _ Hs)].
    cbv zeta. rewrite Hem.
    destruct bad_page as [|item rest]; [congruence|].
    exists e. eexists. split; [reflexivity|]. split; [exact He|].
    rewrite sent_record_request, Hsent, page_numbers_snoc, map_app,
      app_assoc.
    reflexivity.
  - intros self Hs.
    destruct (sync_fetch_starred_repos_runs isoformat
                (List.length pages + S (fuel - List.length pages)) self w)
      as [w0 [Hrem0 [Hsent0 ->]]].
    rewrite <- Hrem0 in Hs.
    destruct (sync_fetch_loop_full_pages self pages 1 [] w0
                (S (fuel - List.length pages)) rs
                (serves_prefix _ _ _ _ _ Hs) Hfull Hrs)
      as [w1 [Hrun [Hrem Hsent]]].
    rewrite Hrun.
    rewrite (sync_fetch_loop_step _ _ _ _ _ bad_page);
      [|rewrite Hrem; apply (serves_after _ _ _ _ _ _ Hs)].
    cbv zeta. rewrite Hes.
    destruct bad_page as [|item rest]; [congruence|].
    eexists. split; [reflexivity|].
    rewrite sent_record_request, Hsent, Hsent0, page_numbers_snoc, map_app,
      app_assoc.
    reflexivity.
Qed.

(** X5: neither ingestor bounds the number of pages it reads.  Against a
    listing source that answers every page with 100 well-formed entries
    the loop never leaves by itself: for every amount of fuel it is still
    running when the fuel is spent, having requested the pages
    [1, 2, ..., fuel] in order. *)
Theorem full_pages_keep_the_loop_running (page : list json) (w : world) :
  List.length page = 100%nat ->
  Forall (fun item => repository_of item <> None) page ->
  (forall username,
      (forall h p,
          remote w h (page_request (McpServer.starred_url username) p)
          = Ok (mkResponse 200 (Some (JArr page)))) ->
      forall fuel, exists w',
        McpServer.fetch_starred_repos fuel username w = (OutOfFuel, w') /\
        sent w' = sent w ++ map (page_request (McpServer.starred_url username))
                                (page_numbers 1 fuel)) /\
  (forall self,
      (forall h p,
          remote w h (page_request (SyncStars.starred_url self) p)
          = Ok (mkResponse 200 (Some (JArr page)))) ->
      forall fuel, exists w',
        SyncStars.fetch_starred_repos isoformat fuel self w
        = (OutOfFuel, w') /\
        sent w' = sent w ++ map (page_request (SyncStars.starred_url self))
                                (page_numbers 1 fuel)).
Proof.
  intros Hlen Hentries.
  destruct (normalize_entries_total _ Hentries) as [[rm Hrm] [rs Hrs]].
  split.
  - intros username Hnet fuel. unfold McpServer.fetch_starred_repos.
    apply (mcp_fetch_loop_endless username page rm Hlen Hrm). exact Hnet.
  - intros self Hnet fuel.
    destruct (sync_fetch_starred_repos_runs isoformat fuel self w)
      as [w0 [Hrem0 [Hsent0 ->]]].
    rewrite <- Hrem0 in Hnet.
    destruct (sync_fetch_loop_endless self page rs Hlen Hrs fuel 1 [] w0 Hnet)
      as [w' [Hrun Hsent]].
    rewrite Hrun. exists w'. split; [reflexivity|].
    rewrite Hsent, Hsent0. reflexivity.
Qed.
End Interrupted.

Lemma repeat_one_entry_well_formed (n : nat) :
  Forall (fun item => repository_of item <> None) (repeat one_entry n).
Proof.
  apply Forall_forall. intros x Hx. rewrite (repeat_spec _ _ _ Hx).
  discriminate.
Qed.

Lemma listing_failure_aborts_ingestion_witness :
  exists w',
    McpServer.fetch_starred_repos 5 (Some "octocat") interrupted_world
    = (Raises (HTTPError 503), w') /\
    List.length (sent w') = 2%nat.
Proof.
  assert (Hfull : Forall (fun p : list json => List.length p = 100%nat)
                         [repeat one_entry 100])
    by (constructor; [reflexivity|constructor]).
  assert (Hentries : Forall (fun item => repository_of item <> None)
                            (List.concat [repeat one_entry 100])).
  { change (List.concat [repeat one_entry 100])
      with (repeat one_entry 100 ++ []).
    rewrite app_nil_r. apply repeat_one_entry_well_formed. }
  destruct (listing_failure_aborts_ingestion
              (fun _ => EmptyString) [repeat one_entry 100]
              (Ok (mkResponse 503 None)) 5 interrupted_world
              Hfull Hentries eq_refl) as [Hmcp _]; [simpl; lia|].
  destruct (Hmcp (Some "octocat")) as [w' [Hrun Hsent]].
  - intros i page h Hi. destruct i as [|i]; simpl in Hi.
    + injection Hi as <-. reflexivity.
    + destruct i; discriminate Hi.
  - intros h. reflexivity.
  - exists w'. split; [exact Hrun|]. rewrite Hsent. reflexivity.
Defined.

Lemma malformed_entry_aborts_ingestion_witness :
  exists w',
    SyncStars.fetch_starred_repos (fun _ => EmptyString) 5
      (SyncStars.mkGitHubClient "octocat" "secret") malformed_world
    = (Raises AttributeError, w') /\
    List.length (sent w') = 2%nat.
Proof.
  assert (Hfull : Forall (fun p : list json => List.length p = 100%nat)
                         [repeat one_entry 100])
    by (constructor; [reflexivity|constructor]).
  assert (Hentries : Forall (fun item => repository_of item <> None)
                            (List.concat [repeat one_entry 100])).
  { change (List.concat [repeat one_entry 100])
      with (repeat one_entry 100 ++ []).
    rewrite app_nil_r. apply repeat_one_entry_well_formed. }
  assert (Hbad : Exists (fun item => repository_of item = None)
                        [one_entry; JNull; one_entry])
    by (apply Exists_cons_tl, Exists_cons_hd; reflexivity).
  destruct (malformed_entry_aborts_ingestion
              (fun _ => EmptyString) [repeat one_entry 100]
              [one_entry; JNull; one_entry] 5 malformed_world
              Hfull Hentries Hbad) as [_ Hsync]; [simpl; lia|].
  destruct (Hsync (SyncStars.mkGitHubClient "octocat" "secret"))
    as [w' [Hrun Hsent]].
  - intros i page h Hi. destruct i as [|[|i]]; simpl in Hi.
    + injection Hi as <-. reflexivity.
    + injection Hi as <-. reflexivity.
    + destruct i; discriminate Hi.
  - exists w'. split; [exact Hrun|]. rewrite Hsent. reflexivity.
Defined.

Lemma full_pages_keep_the_loop_running_witness :
  exists w',
    McpServer.fetch_starred_repos 3 None endless_world = (OutOfFuel, w') /\
    List.length (sent w') = 3%nat.
Proof.
  destruct (full_pages_keep_the_loop_running
              (fun _ => EmptyString) (repeat one_entry 100) endless_world
              eq_refl (repeat_one_entry_well_formed 100)) as [Hmcp _].
  destruct (Hmcp None (fun _ _ => eq_refl) 3%nat) as [w' [Hrun Hsent]].
  exists w'. split; [exact Hrun|]. rewrite Hsent. reflexivity.
Defined.

(** ** What the tools answer *)

Ltac rbind_inv H :=
  repeat match type of H with
         | rbind ?c _ = Ok _ =>
             let E := fresh "E" in
             destruct c eqn:E; [cbn [rbind] in H|discriminate H]
         end.

Lemma filterM_perm (keep : dict -> result bool) (repos kept : list dict) :
  McpServer.filterM keep repos = Ok kept ->
  exists rest, Permutation (kept ++ rest) repos.
Proof.
  revert kept. induction repos as [|r repos IH]; intros kept H.
  - injection H as <-. exists []. constructor.
  - simpl in H.
    destruct (keep r) as [b|]; [cbn [rbind] in H|discriminate H].
    destruct (McpServer.filterM keep repos) as [kept'|];
      [cbn [rbind] in H|discriminate H].
    injection H as <-.
    destruct (IH _ eq_refl) as [rest Hrest].
    destruct b.
    + exists rest. simpl. constructor. exact Hrest.
    + exists (r :: rest). symmetry. apply Permutation_cons_app.
      symmetry. exact Hrest.
Qed.

Lemma slice_to_prefix {A} (limit : json) (l s : list A) :
  Py.slice_to limit l = Ok s ->
  (exists rest, l = s ++ rest) /\
  (forall n, limit = JNum n -> 0 <= n ->
             (List.length s <= Z.to_nat n)%nat).
Proof.
  intros H. split.
  - unfold Py.slice_to in H.
    destruct limit as [|b|n| | |]; try discriminate H; simpl in H.
    + injection H as <-. exists []. symmetry. apply app_nil_r.
    + destruct ((if b then 1 else 0) <? 0); injection H as <-;
        eexists; symmetry; apply firstn_skipn.
    + destruct (n <? 0); injection H as <-;
        eexists; symmetry; apply firstn_skipn.
  - intros n -> Hn. rewrite (slice_to_count _ _ Hn) in H.
    injection H as <-. apply firstn_le_length.
Qed.

Lemma insert_asc_perm {A} (x : json * A) (l r : list (json * A)) :
  Py.insert_asc x l = Ok r -> Permutation r (x :: l).
Proof.
  revert r. induction l as [|y l IH]; intros r H; simpl in H.
  - injection H as <-. reflexivity.
  - destruct (Py.lt (fst y) (fst x)) as [b|];
      [cbn [rbind] in H|discriminate H].
    destruct b.
    + destruct (Py.insert_asc x l) as [r'|];
        [cbn [rbind] in H|discriminate H].
      injection H as <-.
      rewrite (IH _ eq_refl). apply perm_swap.
    + injection H as <-. reflexivity.
Qed.

Lemma sort_asc_perm {A} (l r : list (json * A)) :
  Py.sort_asc l = Ok r -> Permutation r l.
Proof.
  revert r. induction l as [|x l IH]; intros r H; simpl in H.
  - injection H as <-. reflexivity.
  - destruct (Py.sort_asc l) as [s|]; [cbn [rbind] in H|discriminate H].
    rewrite (insert_asc_perm _ _ _ H).
    constructor. apply IH. reflexivity.
Qed.

Lemma map_snd_combine {A B} (ks : list A) (l : list B) :
  List.length ks = List.length l -> map snd (combine ks l) = l.
Proof.
  revert l. induction ks as [|k ks IH]; intros [|x l] H;
    try discriminate H; [reflexivity|].
  simpl. rewrite IH; [reflexivity|]. injection H as H. exact H.
Qed.

Lemma sorted_perm {A} (key : A -> result json) (reverse : bool)
    (l s : list A) :
  Py.sorted key reverse l = Ok s -> Permutation s l.
Proof.
  unfold Py.sorted. intros H.
  destruct (mapM key l) as [ks|] eqn:Hks; [cbn [rbind] in H|discriminate H].
  rewrite <- (map_snd_combine ks l) at 1
    by (apply (mapM_length _ _ _ Hks)).
  destruct reverse.
  - destruct (Py.sort_asc (rev (combine ks l))) as [r|] eqn:Hr;
      [cbn [rbind] in H|discriminate H].
    injection H as <-. apply Permutation_map.
    rewrite <- Permutation_rev, (sort_asc_perm _ _ Hr).
    symmetry. apply Permutation_rev.
  - destruct (Py.sort_asc (combine ks l)) as [r|] eqn:Hr;
      [cbn [rbind] in H|discriminate H].
    injection H as <-. apply Permutation_map.
    apply (sort_asc_perm _ _ Hr).
Qed.

Lemma filtered_answer (keep : dict -> result bool) (limit : json)
    (repos kept filtered : list dict) :
  McpServer.filterM keep repos = Ok kept ->
  Py.slice_to limit kept = Ok filtered ->
  exists rest,
    Permutation (filtered ++ rest) repos /\
    (forall n, limit = JNum n -> 0 <= n ->
               (List.length filtered <= Z.to_nat n)%nat).
Proof.
  intros Hk Hs. destruct (filterM_perm _ _ _ Hk) as [dropped Hd].
  destruct (slice_to_prefix _ _ _ Hs) as [[cut ->] Hn].
  exists (cut ++ dropped). split; [|exact Hn].
  rewrite app_assoc. exact Hd.
Qed.

Lemma ranked_answer (key : dict -> result json) (limit : json)
    (repos s filtered : list dict) :
  Py.sorted key true repos = Ok s ->
  Py.slice_to limit s = Ok filtered ->
  exists rest,
    Permutation (filtered ++ rest) repos /\
    (forall n, limit = JNum n -> 0 <= n ->
               (List.length filtered <= Z.to_nat n)%nat).
Proof.
  intros Hk Hs. destruct (slice_to_prefix _ _ _ Hs) as [[cut ->] Hn].
  exists cut. split; [|exact Hn]. apply (sorted_perm _ _ _ _ Hk).
Qed.

Section Answers.
Variable lower : string -> string.
Variable dumps : json -> string.

(** X6: whatever one of the five tools answers is made of the ingested
    records and of nothing else: the records of the answer, together
    with some that were left out, are a rearrangement of the ingested
    list, so no record is invented or repeated; and when [limit] (10
    when omitted) is a non-negative integer the answer holds at most
    that many.  The handler makes no request of its own after the
    ingestion. *)
Theorem tools_answer_with_ingested_records
    (fuel : nat) (username : option string) (name : string)
    (arguments : json) (w w' w'' : world) (repos : list dict)
    (out : list McpServer.TextContent) :
  McpServer.fetch_starred_repos fuel username w = (Returns repos, w') ->
  McpServer.call_tool lower dumps fuel username name arguments w
  = (Returns out, w'') ->
  In name tool_names ->
  w'' = w' /\
  exists records rest,
    out = McpServer.text_result dumps records /\
    Permutation (records ++ rest) repos /\
    (forall n, Py.get arguments "limit" (JNum 10) = Ok (JNum n) -> 0 <= n ->
               (List.length records <= Z.to_nat n)%nat).
Proof.
  intros Hf Hc Hname. unfold McpServer.call_tool, bind in Hc.
  rewrite Hf in Hc.
  assert (Hlift : forall r : result (list McpServer.TextContent),
             lift r w' = (Returns out, w'') -> r = Ok out /\ w'' = w').
  { intros [a|e] H; [|discriminate H]. injection H as -> ->.
    split; reflexivity. }
  destruct Hname as [<-|[<-|[<-|[<-|[<-|[]]]]]];
    cbn [String.eqb Ascii.eqb Bool.eqb] in Hc;
    apply Hlift in Hc; destruct Hc as [Hc ->]; (split; [reflexivity|]);
    unfold McpServer.search_stars, McpServer.get_stars_by_language,
      McpServer.get_stars_by_topic, McpServer.get_top_stars,
      McpServer.get_recent_stars in Hc;
    rbind_inv Hc; injection Hc as <-;
    repeat match goal with
           | H : McpServer.top_stars _ _ = Ok _ |- _ =>
               unfold McpServer.top_stars in H; rbind_inv H
           | H : McpServer.recent_stars _ _ = Ok _ |- _ =>
               unfold McpServer.recent_stars in H; rbind_inv H
           end;
    match goal with
    | Hk : McpServer.filterM _ repos = Ok ?kept,
      Hs : Py.slice_to _ ?kept = Ok ?filtered |- _ =>
        destruct (filtered_answer _ _ _ _ _ Hk Hs) as [rest [Hp Hn]];
        exists filtered, rest; (split; [reflexivity|]);
        (split; [exact Hp|]);
        intros n Hl'; apply Hn; injection Hl' as ->; reflexivity
    | Hk : Py.sorted _ true repos = Ok ?s,
      Hs : Py.slice_to _ ?s = Ok ?filtered |- _ =>
        destruct (ranked_answer _ _ _ _ _ Hk Hs) as [rest [Hp Hn]];
        exists filtered, rest; (split; [reflexivity|]);
        (split; [exact Hp|]);
        intros n Hl'; apply Hn; injection Hl' as ->; reflexivity
    end.
Qed.
End Answers.

Lemma tools_answer_with_ingested_records_witness :
  exists out w',
    McpServer.call_tool (fun s => s) (fun _ => EmptyString) 1 None
                        "get_recent_stars" (JObj [("limit", JNum 1)])
                        unclassified_world
    = (Returns out, w') /\
    exists records,
      out = McpServer.text_result (fun _ => EmptyString) records /\
      (List.length records <= 1)%nat.
Proof.
  destruct (McpServer.fetch_starred_repos 1 None unclassified_world)
    as [[repos| |] w1] eqn:Hf; try (vm_compute in Hf; discriminate Hf).
  destruct (McpServer.call_tool (fun s => s) (fun _ => EmptyString) 1 None
                                "get_recent_stars" (JObj [("limit", JNum 1)])
                                unclassified_world)
    as [[out| |] w2] eqn:Hc; try (vm_compute in Hc; discriminate Hc).
  destruct (tools_answer_with_ingested_records _ _ _ _ _ _ _ _ _ _ _ Hf Hc)
    as [_ [records [rest [Ho [_ Hn]]]]]; [simpl; tauto|].
  exists out, w2. split; [reflexivity|]. exists records.
  split; [exact Ho|]. apply (Hn 1); [reflexivity|lia].
Defined.

(** ** The filters *)

Lemma mapM_Forall2 {A B} (f : A -> result B) (l : list A) (r : list B) :
  mapM f l = Ok r -> Forall2 (fun x y => f x = Ok y) l r.
Proof.
  revert r. induction l as [|x l IH]; intros r H; simpl in H.
  - injection H as <-. constructor.
  - destruct (f x) as [y|] eqn:Hy; [cbn [rbind] in H|discriminate H].
    destruct (mapM f l) as [r'|]; [cbn [rbind] in H|discriminate H].
    injection H as <-. constructor; [exact Hy|]. apply IH. reflexivity.
Qed.

Lemma Forall2_Forall_r {A B} (R : A -> B -> Prop) (Q : B -> Prop)
    (l : list A) (r : list B) :
  Forall2 R l r -> (forall x y, R x y -> Q y) -> Forall Q r.
Proof.
  intros H HQ. induction H as [|x y l r Hxy _ IH]; constructor;
    [exact (HQ _ _ Hxy)|exact IH].
Qed.

Lemma Forall2_Exists {A B} (R : A -> B -> Prop) (P : A -> Prop)
    (Q : B -> Prop) (l : list A) (r : list B) :
  Forall2 R l r -> (forall x y, R x y -> P x -> Q y) ->
  Exists P l -> Exists Q r.
Proof.
  intros H HQ. induction H as [|x y l r Hxy _ IH]; intros Hex;
    inversion Hex; subst.
  - apply Exists_cons_hd. eapply HQ; eassumption.
  - apply Exists_cons_tl. apply IH. assumption.
Qed.

Lemma mcp_record_language (item : json) (rec : dict) :
  McpServer.normalize item = Ok rec ->
  exists d, repository_of item = Some d /\
            Py.lookup rec "language"
            = Some (Py.dict_get d "language" (JStr "Unknown")).
Proof.
  intros H. destruct (repository_of item) as [d|] eqn:Hr.
  - exists d. split; [reflexivity|].
    destruct item; try discriminate Hr.
    rewrite (mcp_normalize_mapping _ _ Hr) in H. injection H as <-.
    reflexivity.
  - destruct (mcp_normalize_refuses item Hr) as [E|E]; congruence.
Qed.

Section Filters.
Variable lower : string -> string.
Variable dumps : json -> string.

Lemma lower_of_cases (v : json) :
  (exists s, v = JStr s /\ McpServer.lower_of lower v = Ok (lower s)) \/
  ((forall s, v <> JStr s) /\ McpServer.lower_of lower v = Err AttributeError).
Proof.
  destruct v; try (right; split; [discriminate|reflexivity]).
  left. eexists. split; reflexivity.
Qed.

Lemma language_filter_raises (language : json) (repos : list dict) :
  Forall (fun r => exists v, Py.lookup r "language" = Some v) repos ->
  Exists (fun r => exists v, Py.lookup r "language" = Some v /\
                             forall s, v <> JStr s) repos ->
  McpServer.filterM
    (fun r => l <~ Py.index (JObj r) "language" ;;
              a <~ McpServer.lower_of lower l ;;
              b <~ McpServer.lower_of lower language ;;
              Ok (String.eqb a b)) repos
  = Err AttributeError.
Proof.
  set (rb := McpServer.lower_of lower language).
  assert (Hrb : (exists s, rb = Ok s) \/ rb = Err AttributeError).
  { destruct (lower_of_cases language) as [[s [_ H]]|[_ H]];
      [left; eexists; exact H|right; exact H]. }
  clearbody rb.
  induction 1 as [|r repos [v Hv] _ IH]; intros Hbad; [inversion Hbad|].
  cbn [McpServer.filterM]. unfold Py.index at 1. rewrite Hv. cbn [rbind].
  destruct (lower_of_cases v) as [[s [-> ->]]|[Hns ->]]; [|reflexivity].
  cbn [rbind].
  inversion Hbad as [? ? [v' [Hv' Hns]]|? ? Hbad']; subst.
  - rewrite Hv in Hv'. injection Hv' as <-. destruct (Hns s). reflexivity.
  - rewrite (IH Hbad').
    destruct Hrb as [[s' ->]| ->]; reflexivity.
Qed.

Lemma get_stars_by_language_raises (arguments : json) (repos : list dict) :
  Forall (fun r => exists v, Py.lookup r "language" = Some v) repos ->
  Exists (fun r => exists v, Py.lookup r "language" = Some v /\
                             forall s, v <> JStr s) repos ->
  McpServer.get_stars_by_language lower dumps repos arguments
  = Err AttributeError.
Proof.
  intros Hall Hbad. unfold McpServer.get_stars_by_language.
  destruct arguments; try reflexivity.
  unfold Py.get. cbn [rbind].
  rewrite (language_filter_raises _ _ Hall Hbad). reflexivity.
Qed.

(** X7: the listing reports a repository without a detected language
    with [language] null, which the normalizer keeps.  One such star
    anywhere in the listing makes [get_stars_by_language] raise
    [AttributeError] for every argument, whatever language is asked for:
    with [k] full pages and a short last page of well-formed entries the
    ingestion returns, and the filter then fails on that record. *)
Theorem null_language_breaks_language_filter
    (pages : list (list json)) (last : list json) (fuel : nat)
    (username : option string) (arguments : json) (w : world) :
  Forall (fun p => List.length p = 100%nat) pages ->
  (List.length last < 100)%nat ->
  Forall (fun item => repository_of item <> None) (List.concat pages ++ last) ->
  Exists (fun item => exists d v,
              repository_of item = Some d /\
              Py.lookup d "language" = Some v /\
              forall s, v <> JStr s) (List.concat pages ++ last) ->
  (List.length pages < fuel)%nat ->
  serves (remote w) (McpServer.starred_url username) 1 (pages ++ [last]) ->
  exists w',
    McpServer.call_tool lower dumps fuel username "get_stars_by_language"
                        arguments w
    = (Raises AttributeError, w').
Proof.
  intros Hfull Hlast Hentries Hbad Hfuel Hs.
  destruct (normalize_entries_total _ Hentries) as [[records Hrec] _].
  destruct (mcp_fetch_loop_pages username last pages 1 [] w fuel records
              Hs Hfull Hlast Hrec Hfuel) as [w' [Hrun _]].
  exists w'. unfold McpServer.call_tool, McpServer.fetch_starred_repos, bind.
  rewrite Hrun. cbn [String.eqb Ascii.eqb Bool.eqb app].
  apply mapM_Forall2 in Hrec.
  rewrite get_stars_by_language_raises; [reflexivity| |].
  - eapply (Forall2_Forall_r _ _ _ _ Hrec). intros item rec Hn.
    destruct (mcp_record_language _ _ Hn) as [d [_ Hl]]. eexists. exact Hl.
  - eapply (Forall2_Exists _ _ _ _ _ Hrec); [|exact Hbad].
    intros item rec Hn [d [v [Hd [Hv Hns]]]].
    destruct (mcp_record_language _ _ Hn) as [d' [Hd' Hl]].
    rewrite Hd in Hd'. injection Hd' as <-.
    exists v. unfold Py.dict_get in Hl. rewrite Hv in Hl.
    split; [exact Hl|exact Hns].
Qed.

Lemma any_topic_typed (q : string) (ts : list string) :
  McpServer.any_topic lower q (map JStr ts)
  = Ok (existsb (fun t => Py.is_substring q (lower t)) ts).
Proof.
  induction ts as [|t ts IH]; [reflexivity|].
  cbn [map McpServer.any_topic McpServer.lower_of rbind existsb].
  destruct (Py.is_substring q (lower t)); [reflexivity|exact IH].
Qed.

Lemma topics_of_typed (r : dict) (ts : list string) :
  Py.lookup r "topics" = Some (JArr (map JStr ts)) -> topics_of r = ts.
Proof.
  intros H. unfold topics_of. rewrite H. clear H.
  induction ts as [|t ts IH]; [reflexivity|].
  simpl. f_equal. exact IH.
Qed.

Lemma matches_query_typed (q : string) (r : dict) :
  typed_record r ->
  McpServer.matches_query lower q r = Ok (found lower q r).
Proof.
  intros [[n Hn] [Hd [[l Hl] [ts Ht]]]].
  unfold McpServer.matches_query, McpServer.or_else, Py.index, found,
    str_field.
  rewrite (topics_of_typed _ _ Ht), Hn, Hl, Ht.
  assert (Hdesc :
            (description <~ match Py.lookup r "description" with
                            | Some x => Ok x
                            | None => Err (KeyError "description")
                            end ;;
             s <~ McpServer.lower_of lower
                    (if Py.truthy description then description
                     else JStr "") ;;
             Ok (Py.is_substring q s))
            = Ok (Py.is_substring q
                    (lower match Py.lookup r "description" with
                           | Some (JStr s) => s
                           | _ => ""
                           end))).
  { destruct Hd as [->|[d ->]]; [reflexivity|].
    cbn [rbind Py.truthy].
    destruct (String.eqb_spec d "") as [->|_]; reflexivity. }
  rewrite Hdesc.
  cbn [rbind McpServer.lower_of Py.iter]. rewrite any_topic_typed.
  destruct (Py.is_substring q (lower n)); [reflexivity|].
  destruct (Py.is_substring q (lower _)); [reflexivity|].
  destruct (Py.is_substring q (lower l)); reflexivity.
Qed.

Lemma filterM_pure (keep : dict -> result bool) (g : dict -> bool)
    (repos : list dict) :
  Forall (fun r => keep r = Ok (g r)) repos ->
  McpServer.filterM keep repos = Ok (filter g repos).
Proof.
  induction 1 as [|r repos Hr _ IH]; [reflexivity|].
  cbn [McpServer.filterM filter]. rewrite Hr, IH. reflexivity.
Qed.

Lemma is_substring_empty (s : string) : Py.is_substring "" s = true.
Proof. destruct s; reflexivity. Qed.

Lemma filter_all {A} (g : A -> bool) (l : list A) :
  (forall x, g x = true) -> filter g l = l.
Proof.
  intros H. induction l as [|x l IH]; [reflexivity|].
  simpl. rewrite H, IH. reflexivity.
Qed.

(** X8: on records typed as the data model types them, [search_stars]
    does not raise; it answers the first [limit] records, in listing
    order, in which the lowered query occurs in the lowered name,
    description, language or one of the lowered topics, a null
    description counting as the empty text.  A query that lowers to
    the empty text (the query may also be omitted, although the input
    schema requires it) is found in every record: the answer is then
    the first [limit] ingested records. *)
Theorem search_stars_on_typed_records
    (repos : list dict) (args : dict) (q : string) (n : Z) :
  Forall typed_record repos ->
  Py.dict_get args "query" (JStr "") = JStr q ->
  Py.dict_get args "limit" (JNum 10) = JNum n ->
  0 <= n ->
  McpServer.search_stars lower dumps repos (JObj args)
  = Ok (McpServer.text_result dumps
          (firstn (Z.to_nat n) (filter (found lower (lower q)) repos))) /\
  (lower q = "" ->
   McpServer.search_stars lower dumps repos (JObj args)
   = Ok (McpServer.text_result dumps (firstn (Z.to_nat n) repos))).
Proof.
  intros Htyped Hq Hl Hn.
  assert (Hrun : McpServer.search_stars lower dumps repos (JObj args)
                 = Ok (McpServer.text_result dumps
                         (firstn (Z.to_nat n)
                                 (filter (found lower (lower q)) repos)))).
  { unfold McpServer.search_stars, Py.get. rewrite Hq, Hl.
    cbn [rbind McpServer.lower_of].
    rewrite (filterM_pure _ (found lower (lower q))).
    - cbn [rbind]. rewrite (slice_to_count _ _ Hn). reflexivity.
    - eapply Forall_impl; [|exact Htyped]. intros r Hr.
      apply matches_query_typed. exact Hr. }
  split; [exact Hrun|].
  intros Hempty. rewrite Hrun, Hempty, filter_all; [reflexivity|].
  intros r. unfold found. rewrite is_substring_empty. reflexivity.
Qed.

(** X9: when every record's [topics] is a list of strs,
    [get_stars_by_topic] does not raise; it answers the first [limit]
    records, in listing order, one of whose lowered topics contains the
    lowered topic asked for.  A record without topics is never in the
    answer, not even when the topic asked for is empty or omitted. *)
Theorem get_stars_by_topic_on_typed_records
    (repos : list dict) (args : dict) (t : string) (n : Z) :
  Forall (fun r => exists ts,
              Py.lookup r "topics" = Some (JArr (map JStr ts))) repos ->
  Py.dict_get args "topic" (JStr "") = JStr t ->
  Py.dict_get args "limit" (JNum 10) = JNum n ->
  0 <= n ->
  McpServer.get_stars_by_topic lower dumps repos (JObj args)
  = Ok (McpServer.text_result dumps
          (firstn (Z.to_nat n) (filter (tagged lower (lower t)) repos))) /\
  Forall (fun r => topics_of r <> [])
         (firstn (Z.to_nat n) (filter (tagged lower (lower t)) repos)).
Proof.
  intros Htyped Ht Hl Hn. split.
  - unfold McpServer.get_stars_by_topic, Py.get. rewrite Ht, Hl.
    cbn [rbind McpServer.lower_of].
    rewrite (filterM_pure _ (tagged lower (lower t))).
    + cbn [rbind]. rewrite (slice_to_count _ _ Hn). reflexivity.
    + eapply Forall_impl; [|exact Htyped]. intros r [ts Hts].
      unfold Py.index, tagged. rewrite Hts, (topics_of_typed _ _ Hts).
      cbn [rbind Py.iter]. apply any_topic_typed.
  - apply Forall_forall. intros r Hr.
    assert (Hin : In r (filter (tagged lower (lower t)) repos)).
    { rewrite <- (firstn_skipn (Z.to_nat n)). apply in_or_app.
      left. exact Hr. }
    apply filter_In in Hin. clear Hr. rename Hin into Hr. destruct Hr as [_ Hr].
    unfold tagged in Hr. intros E. rewrite E in Hr. discriminate Hr.
Qed.

(** X10: when every record's [language] is a str,
    [get_stars_by_language] does not raise; it answers the first
    [limit] records, in listing order, whose lowered language equals
    the lowered language asked for: the comparison is of whole names
    and ignores case as far as [lower] does. *)
Theorem get_stars_by_language_on_typed_records
    (repos : list dict) (args : dict) (l : string) (n : Z) :
  Forall (fun r => exists s, Py.lookup r "language" = Some (JStr s)) repos ->
  Py.dict_get args "language" (JStr "") = JStr l ->
  Py.dict_get args "limit" (JNum 10) = JNum n ->
  0 <= n ->
  McpServer.get_stars_by_language lower dumps repos (JObj args)
  = Ok (McpServer.text_result dumps
          (firstn (Z.to_nat n)
             (filter (fun r => String.eqb (lower (str_field r "language"))
                                          (lower l)) repos))).
Proof.
  intros Htyped Hlang Hl Hn.
  unfold McpServer.get_stars_by_language, Py.get. rewrite Hlang, Hl.
  cbn [rbind].
  rewrite (filterM_pure _ (fun r => String.eqb (lower (str_field r "language"))
                                               (lower l))).
  - cbn [rbind]. rewrite (slice_to_count _ _ Hn). reflexivity.
  - eapply Forall_impl; [|exact Htyped]. intros r [s Hs].
    unfold Py.index, str_field. rewrite Hs. reflexivity.
Qed.



End Filters.

Lemma star_record_typed (name : string) (stars : Z) (starred_at : string) :
  typed_record (star_record name stars starred_at).
Proof.
  split; [eexists; reflexivity|].
  split; [right; eexists; reflexivity|].
  split; [eexists; reflexivity|].
  exists ["cli"]. reflexivity.
Qed.

Lemma four_repos_typed : Forall typed_record four_repos.
Proof.
  unfold four_repos.
  repeat (apply Forall_cons; [apply star_record_typed|]).
  apply Forall_nil.
Qed.

Lemma null_language_breaks_language_filter_witness :
  exists w',
    McpServer.call_tool (fun s => s) (fun _ => EmptyString) 1 None
                        "get_stars_by_language"
                        (JObj [("language", JStr "Python")])
                        unclassified_world
    = (Raises AttributeError, w').
Proof.
  apply (null_language_breaks_language_filter
           (fun s => s) (fun _ => EmptyString) []
           [one_entry; unclassified_entry]).
  - constructor.
  - simpl. lia.
  - repeat constructor; discriminate.
  - apply Exists_cons_tl, Exists_cons_hd.
    eexists _, JNull. split; [reflexivity|].
    split; [reflexivity|discriminate].
  - simpl. lia.
  - intros i page h Hi. destruct i as [|i]; simpl in Hi.
    + injection Hi as <-. reflexivity.
    + destruct i; discriminate Hi.
Defined.

Lemma search_stars_on_typed_records_witness :
  McpServer.search_stars (fun s => s) (fun _ => EmptyString) four_repos
                         (JObj [("query", JStr "two")])
  = Ok (McpServer.text_result (fun _ => EmptyString)
          [star_record "b/two" 90 ""]).
Proof.
  apply (proj1 (search_stars_on_typed_records
                  (fun s => s) (fun _ => EmptyString) four_repos
                  [("query", JStr "two")] "two" 10
                  four_repos_typed eq_refl eq_refl ltac:(lia))).
Defined.

Lemma get_stars_by_topic_on_typed_records_witness :
  McpServer.get_stars_by_topic (fun s => s) (fun _ => EmptyString) four_repos
                               (JObj [("topic", JStr "cl");
                                      ("limit", JNum 3)])
  = Ok (McpServer.text_result (fun _ => EmptyString) (firstn 3 four_repos)).
Proof.
  apply (proj1 (get_stars_by_topic_on_typed_records
                  (fun s => s) (fun _ => EmptyString) four_repos
                  [("topic", JStr "cl"); ("limit", JNum 3)] "cl" 3
                  (Forall_impl _ (fun r H => proj2 (proj2 (proj2 H)))
                               four_repos_typed)
                  eq_refl eq_refl ltac:(lia))).
Defined.

Lemma get_stars_by_language_on_typed_records_witness :
  McpServer.get_stars_by_language (fun s => s) (fun _ => EmptyString)
                                  four_repos
                                  (JObj [("language", JStr "Go")])
  = Ok (McpServer.text_result (fun _ => EmptyString) []).
Proof.
  apply (get_stars_by_language_on_typed_records
           (fun s => s) (fun _ => EmptyString) four_repos
           [("language", JStr "Go")] "Go" 10
           (Forall_impl _ (fun r H => proj1 (proj2 (proj2 H)))
                        four_repos_typed)
           eq_refl eq_refl ltac:(lia)).
Defined.


(** ** The publisher, read and write *)

Section PublisherTrace.
Variable isoformat : nat -> string.
Variable strftime : nat -> string.
Variables owner repo branch token markdown_content : string.

Local Abbreviation message := (commit_message strftime).
Local Abbreviation token_at := (token_read owner repo branch).
Local Abbreviation write :=
  (write_request strftime owner repo branch markdown_content).
Local Abbreviation publish :=
  (SyncStars.commit_to_github isoformat strftime owner repo branch token
                              markdown_content).

(** X12: [commit_to_github] does the same four things in every world:
    it prints that it is committing, reads the version token, sends the
    write, and then either prints that it has committed and returns,
    when the write is accepted, or raises the failure of the write,
    when it is refused or not answered.  It makes no third request,
    does not retry, writes no file and reads the clock twice. *)
Theorem commit_to_github_trace (w : world) :
  let answer := remote w (sent w ++ [get_sha_request owner repo branch])
                       (write w) in
  fst (publish w)
  = (if accepted answer then Returns tt else Raises (failure_of answer)) /\
  log (snd (publish w))
  = log w
    ++ [Print (committing_line isoformat w);
        Request (get_sha_request owner repo branch);
        Request (write w)]
    ++ (if accepted answer
        then [Print (committed_line owner repo branch)] else []) /\
  files (snd (publish w)) = files w /\
  clock (snd (publish w)) = S (S (clock w)).
Proof.
  cbv zeta.
  set (answer := remote w (sent w ++ [get_sha_request owner repo branch])
                        (write w)).
  assert (H : exists w',
             publish w
             = (if accepted answer then Returns tt
                else Raises (failure_of answer), w') /\
             log w'
             = log w
               ++ [Print (committing_line isoformat w);
                   Request (get_sha_request owner repo branch);
                   Request (write w)]
               ++ (if accepted answer
                   then [Print (committed_line owner repo branch)] else []) /\
             files w' = files w /\
             clock w' = S (S (clock w))).
  { unfold SyncStars.commit_to_github.
    unfold bind at 1. unfold utcnow at 1. unfold bind at 1. unfold print at 1.
    unfold bind at 1. rewrite read_sha_returns.
    match goal with
    | |- context [sha_read (remote ?wp (sent ?wp) _)] =>
        assert (Hp : sent wp = sent w)
          by (rewrite sent_record_print; reflexivity);
        change (remote wp) with (remote w); rewrite Hp
    end.
    fold (get_sha_request owner repo branch). fold (token_at w).
    unfold bind at 1. unfold utcnow at 1. unfold bind at 1.
    cbn [clock record]. fold (message w). fold (write w).
    fold (committing_line isoformat w).
    fold (committed_line owner repo branch).
    unfold http.
    match goal with
    | |- context [remote ?w1 (sent ?w1) (write w)] =>
        assert (Hs : sent w1 = sent w ++ [get_sha_request owner repo branch])
          by (unfold sent; simpl log; rewrite !requests_app; simpl;
              rewrite app_nil_r; reflexivity);
        change (remote w1) with (remote w); rewrite Hs
    end.
    fold answer. clear Hp Hs.
    destruct answer as [resp|e]; cbn [accepted failure_of].
    - unfold bind at 1. unfold raise_for_status.
      destruct ((400 <=? status_code resp) && (status_code resp <? 600));
        cbn [negb]; eexists; (split; [reflexivity|]);
        unfold record; cbn [log files clock]; rewrite <- !app_assoc;
        repeat split.
    - eexists. split; [reflexivity|].
      unfold record; cbn [log files clock]; rewrite <- !app_assoc.
      repeat split. }
  destruct H as [w' [-> H]]. cbn [fst snd]. split; [reflexivity|exact H].
Qed.

(** X13: when the read is answered with status 200 and a JSON object
    whose [sha] is truthy, the write that follows is conditioned on that
    value: its payload is message, content and branch followed by the
    [sha] that was read. *)
Theorem conditional_write_carries_read_token
    (w : world) (d : dict) (sha : json) :
  remote w (sent w) (get_sha_request owner repo branch)
  = Ok (mkResponse 200 (Some (JObj d))) ->
  Py.lookup d "sha" = Some sha ->
  Py.truthy sha = true ->
  sent (snd (publish w))
  = sent w ++ [get_sha_request owner repo branch;
               PUT (SyncStars.contents_url owner repo)
                   (create_payload (message w) branch markdown_content
                    ++ [("sha", sha)])].
Proof.
  intros Hread Hsha Htruthy.
  rewrite commit_to_github_sends. unfold write_request.
  rewrite build_payload_overwrites.
  assert (Htoken : token_at w = sha).
  { unfold token_read, sha_read. rewrite Hread. simpl.
    unfold Py.dict_get. rewrite Hsha. reflexivity. }
  rewrite Htoken, Htruthy. reflexivity.
Qed.

(** X14: a read that is answered with status 200 but yields no usable
    token is treated as a document that does not exist: when the body
    is not JSON, is JSON but not an object, or is an object whose [sha]
    is missing, null or empty, the write carries no token. *)
Theorem unusable_read_is_treated_as_absent (w : world) (resp : response) :
  remote w (sent w) (get_sha_request owner repo branch) = Ok resp ->
  status_code resp = 200 ->
  match body resp with
  | Some (JObj d) => Py.truthy (Py.dict_get d "sha" JNull) = false
  | _ => True
  end ->
  sent (snd (publish w))
  = sent w ++ [get_sha_request owner repo branch;
               PUT (SyncStars.contents_url owner repo)
                   (create_payload (message w) branch markdown_content)] /\
  Py.lookup (create_payload (message w) branch markdown_content) "sha" = None.
Proof.
  intros Hread Hstatus Hbody.
  rewrite commit_to_github_sends. unfold write_request.
  rewrite build_payload_overwrites.
  assert (Htoken : Py.truthy (token_at w) = false).
  { unfold token_read, sha_read. rewrite Hread, Hstatus. simpl.
    destruct (body resp) as [[| | | | |d]|]; try reflexivity.
    exact Hbody. }
  rewrite Htoken, app_nil_r. split; reflexivity.
Qed.
End PublisherTrace.

Lemma conditional_write_carries_read_token_witness :
  sent (snd (SyncStars.commit_to_github (fun _ => EmptyString)
               (fun _ => EmptyString) "octocat" "starmap" "main" "secret"
               "# My GitHub Stars" stale_world))
  = [get_sha_request "octocat" "starmap" "main";
     PUT (SyncStars.contents_url "octocat" "starmap")
         (create_payload "Update starred repos - " "main" "# My GitHub Stars"
          ++ [("sha", JStr "T0")])].
Proof.
  apply (conditional_write_carries_read_token
           (fun _ => EmptyString) (fun _ => EmptyString)
           "octocat" "starmap" "main" "secret" "# My GitHub Stars"
           stale_world
           [("sha", JStr "T0"); ("content", JStr "b2xk")] (JStr "T0")
           eq_refl eq_refl eq_refl).
Defined.

Lemma unusable_read_is_treated_as_absent_witness :
  sent (snd (SyncStars.commit_to_github (fun _ => EmptyString)
               (fun _ => EmptyString) "octocat" "starmap" "main" "secret"
               "# My GitHub Stars" garbled_read_world))
  = [get_sha_request "octocat" "starmap" "main";
     PUT (SyncStars.contents_url "octocat" "starmap")
         (create_payload "Update starred repos - " "main"
                         "# My GitHub Stars")].
Proof.
  apply (proj1 (unusable_read_is_treated_as_absent
                  (fun _ => EmptyString) (fun _ => EmptyString)
                  "octocat" "starmap" "main" "secret" "# My GitHub Stars"
                  garbled_read_world (mkResponse 200 None)
                  eq_refl eq_refl I)).
Defined.

(** ** The mirror, submission by submission *)

Section MirrorTrace.
Variable isoformat : nat -> string.
Variable repr : json -> string.
Variable exn_str : exn -> string.
Variable self : SyncStars.SupermemoryClient.

(** X15: [add_memory] never raises.  It sends the one submission and
    returns whether the sink accepted it; when the sink refuses it or
    does not answer, it prints one warning that carries the text of the
    failure.  It does not retry and touches no file. *)
Theorem add_memory_reports_the_answer
    (content : string) (metadata : dict) (w : world) :
  let post := submission self (content, metadata) in
  let answer := remote w (sent w) post in
  let run := SyncStars.add_memory exn_str self content metadata w in
  fst run = Returns (accepted answer) /\
  log (snd run)
  = log w ++ Request post
             :: (if accepted answer then []
                 else [Print (warning_line exn_str answer)]) /\
  files (snd run) = files w.
Proof.
  cbv zeta. unfold SyncStars.add_memory, try_except, bind, http, warning_line.
  change (POST (SyncStars.api_url self +++ "/memories")
               [("content", JStr content); ("metadata", JObj metadata)])
    with (submission self (content, metadata)).
  destruct (remote w (sent w) (submission self (content, metadata)))
    as [resp|e]; cbn [accepted failure_of].
  - unfold raise_for_status.
    destruct ((400 <=? status_code resp) && (status_code resp <? 600));
      cbn -[String.append record submission];
      unfold record; cbn [log files]; rewrite <- ?app_assoc; repeat split.
  - cbn -[String.append record submission].
    unfold record; cbn [log files]; rewrite <- ?app_assoc. repeat split.
Qed.

Lemma sync_loop_app (good more : list dict) :
  forall ms count w,
    mapM (SyncStars.memory_of repr) good = Ok ms ->
    exists count' w',
      SyncStars.sync_loop repr exn_str self (good ++ more) count w
      = SyncStars.sync_loop repr exn_str self more count' w' /\
      remote w' = remote w /\
      sent w' = sent w ++ map (submission self) ms.
Proof.
  induction good as [|r good IH]; intros ms count w Hms.
  - injection Hms as <-. exists count, w. simpl. rewrite app_nil_r.
    repeat split.
  - simpl in Hms.
    destruct (SyncStars.memory_of repr r) as [m|] eqn:Hm; [|discriminate].
    destruct (mapM (SyncStars.memory_of repr) good) as [ms'|] eqn:Hms';
      [|discriminate].
    injection Hms as <-. simpl app. simpl SyncStars.sync_loop. rewrite Hm.
    unfold lift at 1. unfold bind at 1. unfold ret at 1. unfold bind at 1.
    destruct (add_memory_submits exn_str self (fst m) (snd m) w)
      as [w1 [Hadd [Hrem1 Hsent1]]].
    rewrite Hadd. rewrite <- surjective_pairing in *.
    destruct (IH ms' (if accepted (remote w (sent w) (submission self m))
                      then count + 1 else count) w1 eq_refl)
      as [count' [w' [Hrun [Hrem Hsent]]]].
    exists count', w'. rewrite Hrun. split; [reflexivity|].
    split; [congruence|].
    rewrite Hsent, Hsent1, <- app_assoc. reflexivity.
Qed.

(** X16: a record that cannot be summarised ends the mirror.  The
    failure of a submission is caught, but the summary is built outside
    that guard: when building it raises for one record, [sync_repos]
    raises the same exception, the records before it have been
    submitted, and the records after it are not. *)
Theorem summary_failure_aborts_the_mirror
    (good rest : list dict) (bad : dict) (ms : list (string * dict))
    (e : exn) (w : world) :
  opt_truthy (SyncStars.api_key self) = true ->
  mapM (SyncStars.memory_of repr) good = Ok ms ->
  SyncStars.memory_of repr bad = Err e ->
  exists w',
    SyncStars.sync_repos isoformat repr exn_str self (good ++ bad :: rest) w
    = (Raises e, w') /\
    sent w' = sent w ++ map (submission self) ms.
Proof.
  intros Hkey Hms Hbad. unfold SyncStars.sync_repos. rewrite Hkey.
  cbn [negb]. cbv beta iota.
  unfold bind at 1. unfold utcnow. unfold bind at 1. unfold print at 1.
  unfold bind at 1.
  match goal with
  | |- context [SyncStars.sync_loop repr exn_str self _ 0 ?w0] =>
      destruct (sync_loop_app good (bad :: rest) ms 0 w0 Hms)
        as [count' [w' [Hrun [_ Hsent]]]];
      assert (Hsent0 : sent w0 = sent w)
        by (rewrite sent_record_print; reflexivity)
  end.
  rewrite Hrun. simpl SyncStars.sync_loop. rewrite Hbad.
  exists w'. split; [reflexivity|]. rewrite Hsent, Hsent0. reflexivity.
Qed.
End MirrorTrace.

Lemma summary_failure_aborts_the_mirror_witness :
  exists w',
    SyncStars.sync_repos (fun _ => EmptyString) (fun _ => EmptyString)
      (fun _ => EmptyString)
      (SyncStars.mkSupermemoryClient (Some "key") "https://sink.example")
      ([star_record "a/one" 5 ""] ++ mistagged_record :: four_repos)
      (mkWorld flaky_sink true [] 0 [])
    = (Raises TypeError, w') /\
    List.length (sent w') = 1%nat.
Proof.
  destruct (summary_failure_aborts_the_mirror
              (fun _ => EmptyString) (fun _ => EmptyString)
              (fun _ => EmptyString)
              (SyncStars.mkSupermemoryClient (Some "key")
                                             "https://sink.example")
              [star_record "a/one" 5 ""] four_repos mistagged_record
              _ TypeError (mkWorld flaky_sink true [] 0 [])
              eq_refl eq_refl eq_refl) as [w' [Hrun Hsent]].
  exists w'. split; [exact Hrun|]. rewrite Hsent. reflexivity.
Defined.

(** ** The renderer *)

Section Renderer.
Variable strftime : nat -> string.
Variable repr : json -> string.

Lemma mapM_fails {A B} (f : A -> result B) (l : list A) :
  Exists (fun x => exists e, f x = Err e) l -> exists e, mapM f l = Err e.
Proof.
  induction 1 as [x l [e He]|x l _ [e IH]]; simpl.
  - rewrite He. exists e. reflexivity.
  - destruct (f x) as [y|e']; [|exists e'; reflexivity].
    rewrite IH. exists e. reflexivity.
Qed.

Lemma section_of_outcomes (r : dict) :
  has_rendered_fields r ->
  ((exists v, Py.lookup r "language" = Some v /\ forall s, v <> JStr s) ->
   exists e, SyncStars.section_of repr r = Err e) /\
  ((exists ts, Py.lookup r "topics" = Some (JArr ts)) ->
   (exists s, SyncStars.section_of repr r = Ok s) \/
   SyncStars.section_of repr r = Err AttributeError).
Proof.
  intros Hf.
  destruct (Hf "topics") as [topics Ht]; [simpl; tauto|].
  destruct (Hf "language") as [language Hl]; [simpl; tauto|].
  destruct (Hf "name") as [name Hn]; [simpl; tauto|].
  destruct (Hf "url") as [url Hu]; [simpl; tauto|].
  destruct (Hf "description") as [description Hd]; [simpl; tauto|].
  destruct (Hf "stars") as [stars Hs]; [simpl; tauto|].
  unfold SyncStars.section_of, Py.index.
  rewrite Ht, Hl, Hn, Hu, Hd, Hs. cbn [rbind]. split.
  - intros [v [Hv Hns]]. injection Hv as <-.
    destruct (if Py.truthy topics
              then shown <~ SyncStars.first_five topics ;;
                   Ok (String.concat " · "
                         (map (fun t => "`" +++ Py.str repr t +++ "`")
                              shown))
              else Ok "") as [topics_str|e]; cbn [rbind];
      [|eexists; reflexivity].
    destruct language; cbn [Py.eq negb]; try (eexists; reflexivity).
    destruct (Hns s). reflexivity.
  - intros [ts Hts]. injection Hts as ->.
    assert (Htopics : exists topics_str,
               (if Py.truthy (JArr ts)
                then shown <~ SyncStars.first_five (JArr ts) ;;
                     Ok (String.concat " · "
                           (map (fun t => "`" +++ Py.str repr t +++ "`")
                                shown))
                else Ok "") = Ok topics_str)
      by (destruct (Py.truthy (JArr ts)); eexists; reflexivity).
    destruct Htopics as [topics_str ->]. cbn [rbind].
    destruct language; cbn [Py.eq negb]; try (right; reflexivity).
    destruct (negb (String.eqb s "Unknown")); left; eexists; reflexivity.
Qed.

(** X17: the listing reports a repository without a detected language
    with [language] null, and the badge is built by calling [replace]
    on it.  One record whose [language] is not a str makes
    [generate_markdown] raise, for records that have the rendered
    fields and a str [starred_at]: no document is produced and nothing
    is printed or written.  When every record's [topics] is a list the
    exception is [AttributeError]. *)
Theorem null_language_stops_the_renderer (repos : list dict) (w : world) :
  Forall has_rendered_fields repos ->
  Forall (fun r => exists s,
              Py.dict_get r "starred_at" (JStr "") = JStr s) repos ->
  Exists (fun r => exists v, Py.lookup r "language" = Some v /\
                             forall s, v <> JStr s) repos ->
  exists e w',
    SyncStars.generate_markdown strftime repr repos w = (Raises e, w') /\
    log w' = log w /\ files w' = files w /\
    (Forall (fun r => exists ts, Py.lookup r "topics" = Some (JArr ts))
            repos ->
     e = AttributeError).
Proof.
  intros Hfields Hdated Hbad.
  unfold SyncStars.generate_markdown, SyncStars.sort_by_starred_at.
  rewrite (starred_at_ordered _ Hdated).
  set (ordered := sorted_desc_by String.ltb starred_at_of repos).
  assert (Hperm : Permutation repos ordered)
    by (symmetry; apply sorted_desc_by_perm).
  assert (Hraise : Exists (fun r => exists e,
                               SyncStars.section_of repr r = Err e) ordered).
  { apply (Permutation_Exists Hperm).
    rewrite Forall_forall in Hfields. apply Exists_exists in Hbad.
    destruct Hbad as [r [Hin Hr]]. apply Exists_exists. exists r.
    split; [exact Hin|].
    exact (proj1 (section_of_outcomes r (Hfields r Hin)) Hr). }
  destruct (mapM_fails _ _ Hraise) as [e He].
  exists e. unfold lift at 1. unfold bind at 1. unfold ret at 1.
  unfold bind at 1. unfold utcnow. rewrite He.
  unfold lift, bind, raise. eexists. split; [reflexivity|].
  split; [reflexivity|]. split; [reflexivity|].
  intros Hlists.
  destruct (mapM_raises (SyncStars.section_of repr)
                        (fun e => e = AttributeError) ordered)
    as [e' [He' ->]]; [|exact Hraise|congruence].
  apply (Permutation_Forall Hperm).
  rewrite Forall_forall in Hfields, Hlists. apply Forall_forall.
  intros r Hin.
  destruct (proj2 (section_of_outcomes r (Hfields r Hin)) (Hlists r Hin))
    as [Hok|Herr]; [left; exact Hok|right].
  exists AttributeError. split; [exact Herr|reflexivity].
Qed.
End Renderer.

Lemma null_language_stops_the_renderer_witness :
  exists w',
    SyncStars.generate_markdown (fun _ => EmptyString) (fun _ => EmptyString)
      unclassified_records (mkWorld failing_listing true [] 0 [])
    = (Raises AttributeError, w') /\
    log w' = [].
Proof.
  destruct (null_language_stops_the_renderer
              (fun _ => EmptyString) (fun _ => EmptyString)
              unclassified_records (mkWorld failing_listing true [] 0 []))
    as [e [w' [Hrun [Hlog [_ He]]]]].
  - repeat (apply Forall_cons;
            [intros k Hk; simpl in Hk;
             repeat (destruct Hk as [<-|Hk]; [eexists; reflexivity|]);
             destruct Hk|]).
    apply Forall_nil.
  - repeat (apply Forall_cons; [eexists; reflexivity|]). apply Forall_nil.
  - apply Exists_cons_tl, Exists_cons_hd.
    exists JNull. split; [reflexivity|discriminate].
  - rewrite He in Hrun.
    + exists w'. split; [exact Hrun|exact Hlog].
    + repeat (apply Forall_cons; [eexists; reflexivity|]). apply Forall_nil.
Defined.

(** ** The sync run, step by step *)

Lemma extends_log_refl (P : event -> Prop) (w : world) : extends_log P w w.
Proof. exists []. split; [symmetry; apply app_nil_r|constructor]. Qed.

Lemma extends_log_trans (P : event -> Prop) (w1 w2 w3 : world) :
  extends_log P w1 w2 -> extends_log P w2 w3 -> extends_log P w1 w3.
Proof.
  intros [e1 [H1 F1]] [e2 [H2 F2]]. exists (e1 ++ e2).
  split; [rewrite H2, H1, app_assoc; reflexivity|].
  apply Forall_app. split; assumption.
Qed.

Lemma adds_only_extends_log (P Q : event -> Prop) (w w' : world) :
  (forall ev, P ev -> Q ev) -> adds_only P w w' -> extends_log Q w w'.
Proof.
  intros HPQ [_ [_ [_ [evs [Hlog Hevs]]]]]. exists evs.
  split; [exact Hlog|]. eapply Forall_impl; [|exact Hevs]. exact HPQ.
Qed.

Lemma logs_only_respects (P Q : event -> Prop) {A} (c : M A) :
  (forall ev, P ev -> Q ev) -> respects P c -> logs_only Q c.
Proof.
  intros HPQ Hc w. apply (adds_only_extends_log P Q); [exact HPQ|apply Hc].
Qed.

Lemma logs_only_bind (P : event -> Prop) {A B} (c : M A) (k : A -> M B) :
  logs_only P c -> (forall a, logs_only P (k a)) -> logs_only P (bind c k).
Proof.
  intros Hc Hk w. unfold bind. specialize (Hc w).
  destruct (c w) as [[a|e|] w1]; simpl in *; try exact Hc.
  eapply extends_log_trans; [exact Hc|apply Hk].
Qed.

Lemma logs_only_try_except (P : event -> Prop) {A} (c : M A)
    (handler : exn -> M A) :
  logs_only P c -> (forall e, logs_only P (handler e)) ->
  logs_only P (try_except c handler).
Proof.
  intros Hc Hh w. unfold try_except. specialize (Hc w).
  destruct (c w) as [[a|e|] w1]; simpl in *; try exact Hc.
  eapply extends_log_trans; [exact Hc|apply Hh].
Qed.

Lemma logs_only_print (P : event -> Prop) (line : string) :
  P (Print line) -> logs_only P (print line).
Proof.
  intros H w. exists [Print line]. split; [reflexivity|].
  constructor; [exact H|constructor].
Qed.

Lemma logs_only_write_file (P : event -> Prop) (path text : string) :
  P (Write path text) -> logs_only P (write_file path text).
Proof.
  intros H w. unfold write_file. destruct (writable w); simpl.
  - exists [Write path text]. split; [reflexivity|].
    constructor; [exact H|constructor].
  - apply extends_log_refl.
Qed.

Lemma listing_event_not_submission (self : SyncStars.GitHubClient)
    (ev : event) :
  listing_event self ev -> ~ is_submission ev.
Proof.
  destruct ev as [[url params|url payload|url payload]|path text|line];
    simpl; tauto.
Qed.

Lemma sink_event_not_publish (env : SyncStars.environ) (ev : event) :
  sink_event ev -> ~ is_publish env ev.
Proof.
  destruct ev as [[url params|url payload|url payload]|path text|line];
    simpl; tauto.
Qed.

Section SyncRunSteps.
Variable isoformat : nat -> string.
Variable strftime : nat -> string.
Variable repr : json -> string.
Variable exn_str : exn -> string.

Local Abbreviation run := (SyncStars.main isoformat strftime repr exn_str).

(** X18: without a user name or without a token (unset or empty)
    [main] raises [ValueError] at once: nothing is requested, printed
    or written, whatever the rest of the configuration. *)
Theorem missing_configuration_stops_main
    (fuel : nat) (env : SyncStars.environ) (w : world) :
  opt_truthy (SyncStars.GITHUB_USERNAME env) = false \/
  opt_truthy (SyncStars.GITHUB_TOKEN env) = false ->
  run fuel env w = (Raises missing_configuration, w).
Proof.
  intros H. unfold SyncStars.main.
  replace (negb (opt_truthy (SyncStars.GITHUB_USERNAME env))
           || negb (opt_truthy (SyncStars.GITHUB_TOKEN env))) with true;
    [reflexivity|].
  destruct H as [-> | ->]; [reflexivity|].
  symmetry. apply orb_true_r.
Qed.

(** X19: when the first page of the listing is empty, [main] returns
    after that one request: it has printed the two lines of the
    ingestion and the notice that no star was found; no document is
    rendered or saved, nothing is mirrored and nothing is published. *)
Theorem empty_listing_ends_the_run
    (fuel : nat) (env : SyncStars.environ) (w : world) :
  opt_truthy (SyncStars.GITHUB_USERNAME env) = true ->
  opt_truthy (SyncStars.GITHUB_TOKEN env) = true ->
  (forall h, remote w h (page_request
                           (SyncStars.starred_url (client_of env)) 1)
             = Ok (mkResponse 200 (Some (JArr [])))) ->
  (0 < fuel)%nat ->
  exists w',
    run fuel env w = (Returns tt, w') /\
    log w'
    = log w
      ++ [Print ("[" +++ isoformat (clock w)
                 +++ "] Fetching starred repos for @"
                 +++ opt_str (SyncStars.GITHUB_USERNAME env) +++ "...");
          Request (page_request (SyncStars.starred_url (client_of env)) 1);
          Print "✅ Total starred repos: 0";
          Print "⚠️ No starred repositories found"] /\
    files w' = files w.
Proof.
  intros Huser Htoken Hpage Hfuel.
  destruct fuel as [|fuel]; [lia|].
  unfold SyncStars.main. rewrite Huser, Htoken.
  change (negb true || negb true) with false. cbv beta iota zeta.
  fold (client_of env).
  unfold bind at 1. unfold SyncStars.fetch_starred_repos.
  unfold bind at 1. unfold utcnow. unfold bind at 1. unfold print at 1.
  unfold bind at 1.
  rewrite (sync_fetch_loop_step _ _ _ _ _ []);
    [|cbn [remote record]; apply Hpage].
  cbv zeta. unfold bind at 1. unfold print at 1. unfold ret at 1.
  unfold print. eexists. split; [reflexivity|].
  unfold record; cbn [log files]. rewrite <- !app_assoc.
  split; reflexivity.
Qed.

Lemma commit_to_github_respects_no_submission
    (owner repo branch token md : string) :
  respects (fun ev => ~ is_submission ev)
           (SyncStars.commit_to_github isoformat strftime owner repo branch
                                       token md).
Proof.
  unfold SyncStars.commit_to_github, SyncStars.read_sha.
  repeat first [ respects_step | respects_if ]; simpl; intros H; exact H.
Qed.

(** X20: without a sink credential (unset or empty) no run of [main]
    sends a submission: whatever the listing, the disk and the store
    do, no event that the run adds to the log is a POST. *)
Theorem no_credential_no_submission
    (fuel : nat) (env : SyncStars.environ) (w : world) :
  opt_truthy (SyncStars.SUPERMEMORY_API_KEY env) = false ->
  exists evs,
    log (snd (run fuel env w)) = log w ++ evs /\
    Forall (fun ev => ~ is_submission ev) evs.
Proof.
  intros Hkey.
  assert (H : logs_only (fun ev => ~ is_submission ev) (run fuel env)).
  { unfold SyncStars.main. rewrite Hkey.
    destruct (negb (opt_truthy (SyncStars.GITHUB_USERNAME env))
              || negb (opt_truthy (SyncStars.GITHUB_TOKEN env))).
    { intros w0. apply extends_log_refl. }
    cbv zeta. apply logs_only_bind.
    { eapply logs_only_respects;
        [|apply (fetch_starred_repos_respects isoformat)].
      intros ev. apply listing_event_not_submission. }
    intros [|r repos].
    { apply logs_only_print. simpl. intros H. exact H. }
    apply logs_only_bind.
    { eapply logs_only_respects;
        [|apply (generate_markdown_respects strftime repr)].
      intros ev []. }
    intros rendered.
    repeat first
      [ apply (logs_only_respects (fun ev => ~ is_submission ev));
        [intros ev Hev; exact Hev
        |apply commit_to_github_respects_no_submission]
      | apply (logs_only_respects (fun _ => False));
        [intros ev []|apply respects_ret]
      | apply logs_only_write_file
      | apply logs_only_print
      | apply logs_only_try_except; [|intros ?]
      | apply logs_only_bind; [|intros ?] ];
      simpl; intros H; exact H. }
  exact (H w).
Qed.

(** What [main] does once the ingestion has returned records: it
    renders them and goes on with the save, the mirror and the
    publisher. *)
Lemma main_renders (fuel : nat) (env : SyncStars.environ) (w w1 w2 : world)
    (repos : list dict) (o : outcome (list dict * string)) :
  opt_truthy (SyncStars.GITHUB_USERNAME env) = true ->
  opt_truthy (SyncStars.GITHUB_TOKEN env) = true ->
  SyncStars.fetch_starred_repos isoformat fuel (client_of env) w
  = (Returns repos, w1) ->
  repos <> [] ->
  SyncStars.generate_markdown strftime repr repos w1 = (o, w2) ->
  adds_only (listing_event (client_of env)) w w2 /\
  run fuel env w
  = match o with
    | Returns rendered =>
        (write_file "starred-repos.md" (snd rendered) ;;;
         print "✅ Saved to starred-repos.md" ;;;
         (if opt_truthy (SyncStars.SUPERMEMORY_API_KEY env) then
            SyncStars.sync_repos isoformat repr exn_str
              (SyncStars.mkSupermemoryClient
                 (SyncStars.SUPERMEMORY_API_KEY env)
                 (SyncStars.getenv (SyncStars.SUPERMEMORY_API_URL env)
                                   "https://api.supermemory.ai/v1"))
              (fst rendered) ;;; ret tt
          else ret tt) ;;;
         try_except
           (SyncStars.commit_to_github isoformat strftime
              (SyncStars.getenv (SyncStars.TARGET_REPO_OWNER env)
                                (opt_str (SyncStars.GITHUB_USERNAME env)))
              (SyncStars.getenv (SyncStars.TARGET_REPO_NAME env) "starmap")
              (SyncStars.getenv (SyncStars.TARGET_BRANCH env) "main")
              (opt_str (SyncStars.GITHUB_TOKEN env))
              (snd rendered))
           (fun e => print ("⚠️ Failed to commit to GitHub: "
                            +++ exn_str e)) ;;;
         print (nl +++ "🎉 Sync complete!") ;;;
         print ("Raw URL: https://raw.githubusercontent.com/"
                +++ SyncStars.getenv (SyncStars.TARGET_REPO_OWNER env)
                      (opt_str (SyncStars.GITHUB_USERNAME env))
                +++ "/"
                +++ SyncStars.getenv (SyncStars.TARGET_REPO_NAME env)
                                     "starmap"
                +++ "/"
                +++ SyncStars.getenv (SyncStars.TARGET_BRANCH env) "main"
                +++ "/starred-repos.md")) w2
    | Raises e => (Raises e, w2)
    | OutOfFuel => (OutOfFuel, w2)
    end.
Proof.
  intros Huser Htoken Hfetch Hrepos Hgen. split.
  - eapply adds_only_trans.
    + apply (run_adds_only _ _ _ _ _
               (fetch_starred_repos_respects isoformat fuel _) Hfetch).
    + apply (adds_only_weaken (fun _ => False)); [intros ev []|].
      apply (run_adds_only _ _ _ _ _
               (generate_markdown_respects strftime repr repos) Hgen).
  - unfold SyncStars.main. rewrite Huser, Htoken.
    change (negb true || negb true) with false. cbv beta iota zeta.
    fold (client_of env). unfold bind at 1. rewrite Hfetch.
    destruct repos as [|r repos]; [contradiction|].
    unfold bind at 1. rewrite Hgen. destruct o; reflexivity.
Qed.


Lemma sync_repos_raises (self : SyncStars.SupermemoryClient)
    (good rest : list dict) (bad : dict) (ms : list (string * dict))
    (e : exn) (w : world) :
  opt_truthy (SyncStars.api_key self) = true ->
  mapM (SyncStars.memory_of repr) good = Ok ms ->
  SyncStars.memory_of repr bad = Err e ->
  exists w',
    SyncStars.sync_repos isoformat repr exn_str self (good ++ bad :: rest) w
    = (Raises e, w').
Proof.
  intros Hkey Hms Hbad. unfold SyncStars.sync_repos. rewrite Hkey.
  cbn [negb]. cbv beta iota.
  unfold bind at 1. unfold utcnow. unfold bind at 1. unfold print at 1.
  unfold bind at 1.
  match goal with
  | |- context [SyncStars.sync_loop repr exn_str self _ 0 ?w0] =>
      destruct (sync_loop_app repr exn_str self good (bad :: rest) ms 0 w0
                              Hms) as [count' [w' [Hrun _]]]
  end.
  rewrite Hrun. simpl SyncStars.sync_loop. rewrite Hbad.
  exists w'. reflexivity.
Qed.

(** X22: only the publisher is guarded in [main].  When the document has
    been rendered and saved and the mirror then raises, because one
    record cannot be summarised, [main] raises that exception: the
    saved file holds the rendered text, and the run ends without any
    request to the published document. *)
Theorem mirror_failure_skips_publishing
    (fuel : nat) (env : SyncStars.environ) (w w1 w2 : world)
    (repos ordered good rest : list dict) (bad : dict) (md : string)
    (ms : list (string * dict)) (e : exn) :
  opt_truthy (SyncStars.GITHUB_USERNAME env) = true ->
  opt_truthy (SyncStars.GITHUB_TOKEN env) = true ->
  opt_truthy (SyncStars.SUPERMEMORY_API_KEY env) = true ->
  SyncStars.fetch_starred_repos isoformat fuel (client_of env) w
  = (Returns repos, w1) ->
  repos <> [] ->
  SyncStars.generate_markdown strftime repr repos w1
  = (Returns (ordered, md), w2) ->
  writable w = true ->
  ordered = good ++ bad :: rest ->
  mapM (SyncStars.memory_of repr) good = Ok ms ->
  SyncStars.memory_of repr bad = Err e ->
  exists w',
    run fuel env w = (Raises e, w') /\
    read_file (files w') "starred-repos.md" = Some md /\
    exists evs,
      log w' = log w ++ evs /\
      Forall (fun ev => ~ is_publish env ev) evs.
Proof.
  intros Huser Htoken Hkey Hfetch Hrepos Hgen Hwritable -> Hms Hbad.
  destruct (main_renders _ _ _ _ _ _ _ Huser Htoken Hfetch Hrepos Hgen)
    as [[_ [Hwr [_ [evs1 [Hlog1 Hevs1]]]]] ->].
  cbn [fst snd]. rewrite Hkey.
  unfold bind at 1. unfold write_file at 1. rewrite Hwr, Hwritable.
  unfold bind at 1. unfold print at 1. unfold bind at 1. unfold bind at 1.
  match goal with
  | |- context [SyncStars.sync_repos isoformat repr exn_str ?self _ ?w3] =>
      destruct (sync_repos_raises self good rest bad ms e w3 Hkey Hms Hbad)
        as [w4 Hsync];
      pose proof (run_adds_only _ _ _ _ _
                    (sync_repos_respects isoformat repr exn_str self _)
                    Hsync) as [_ [_ [Hfiles4 [evs4 [Hlog4 Hevs4]]]]]
  end.
  rewrite Hsync. exists w4. split; [reflexivity|].
  split.
  - rewrite Hfiles4. reflexivity.
  - exists (evs1 ++ [Write "starred-repos.md" md;
                     Print "✅ Saved to starred-repos.md"] ++ evs4).
    split.
    + rewrite Hlog4. unfold record; cbn [log]. rewrite Hlog1, <- !app_assoc.
      reflexivity.
    + apply Forall_app. split.
      * eapply Forall_impl; [|exact Hevs1].
        intros ev. apply listing_event_not_publish.
      * apply Forall_app. split.
        -- repeat constructor; simpl; intros H; exact H.
        -- eapply Forall_impl; [|exact Hevs4].
           intros ev. apply sink_event_not_publish.
Qed.
(** X23: [generate_markdown] sorts the list it is given in place, and
    [main] passes the same list to the mirror afterwards.  So in a run
    with a sink credential whose records can be rendered, saved and
    summarised, the requests are, in this order: the listing pages; one
    submission per record in the order of the rendered document (most
    recently starred first), which is the order [sorted] gives and not
    the order of the listing; then the read of the version token and
    the one write, from whose content base64 decoding gives the
    rendered document back. *)
Theorem mirror_submits_in_rendered_order
    (fuel : nat) (env : SyncStars.environ) (w w1 w2 : world)
    (repos ordered : list dict) (md : string) (ms : list (string * dict)) :
  opt_truthy (SyncStars.GITHUB_USERNAME env) = true ->
  opt_truthy (SyncStars.GITHUB_TOKEN env) = true ->
  opt_truthy (SyncStars.SUPERMEMORY_API_KEY env) = true ->
  SyncStars.fetch_starred_repos isoformat fuel (client_of env) w
  = (Returns repos, w1) ->
  repos <> [] ->
  SyncStars.generate_markdown strftime repr repos w1
  = (Returns (ordered, md), w2) ->
  writable w = true ->
  mapM (SyncStars.memory_of repr) ordered = Ok ms ->
  SyncStars.sort_by_starred_at repos = Ok ordered /\
  exists payload,
    sent (snd (run fuel env w))
    = sent w1
      ++ map (submission
                (SyncStars.mkSupermemoryClient
                   (SyncStars.SUPERMEMORY_API_KEY env)
                   (SyncStars.getenv (SyncStars.SUPERMEMORY_API_URL env)
                                     "https://api.supermemory.ai/v1"))) ms
      ++ [GET (publish_url env)
              [("ref", JStr (SyncStars.getenv (SyncStars.TARGET_BRANCH env)
                                              "main"))];
          PUT (publish_url env) payload] /\
    exists content,
      Py.lookup payload "content" = Some (JStr content) /\
      b64decode content = Some md.
Proof.
  intros Huser Htoken Hkey Hfetch Hrepos Hgen Hwritable Hms. split.
  { unfold SyncStars.generate_markdown in Hgen.
    destruct (SyncStars.sort_by_starred_at repos) as [sorted|e];
      [|discriminate Hgen].
    unfold lift at 1 in Hgen. unfold bind at 1 in Hgen.
    unfold ret at 1 in Hgen. unfold bind at 1 in Hgen.
    unfold utcnow in Hgen.
    destruct (mapM (SyncStars.section_of repr) sorted) as [sections|e];
      [|discriminate Hgen].
    unfold lift, bind, ret in Hgen. injection Hgen as <- _ _.
    reflexivity. }
  destruct (main_renders _ _ _ _ _ _ _ Huser Htoken Hfetch Hrepos Hgen)
    as [[_ [Hwr _]] ->].
  assert (Hsent2 : sent w2 = sent w1).
  { destruct (run_adds_only _ _ _ _ _
                (generate_markdown_respects strftime repr repos) Hgen)
      as [_ [_ [_ [evs [Hlog Hevs]]]]].
    assert (evs = []) as -> by (destruct Hevs; tauto).
    unfold sent. rewrite Hlog, app_nil_r. reflexivity. }
  cbn [fst snd]. rewrite Hkey.
  unfold bind at 1. unfold write_file at 1. rewrite Hwr, Hwritable.
  unfold bind at 1. unfold print at 1. unfold bind at 1. unfold bind at 1.
  unfold SyncStars.sync_repos. cbn [SyncStars.api_key]. rewrite Hkey.
  cbn [negb]. cbv beta iota.
  unfold bind at 1. unfold utcnow at 1. unfold bind at 1. unfold print at 1.
  unfold bind at 1.
  match goal with
  | |- context [SyncStars.sync_loop repr exn_str ?self ordered 0 ?w3] =>
      destruct (sync_loop_submits repr exn_str self ordered ms 0 w3 Hms)
        as [w4 [Hloop [_ Hsent4]]];
      assert (Hsent3 : sent w3 = sent w2)
        by (unfold sent, record; cbn [log]; rewrite !requests_app; simpl;
            rewrite !app_nil_r; reflexivity);
      rewrite Hsent3, Hsent2 in Hsent4
  end.
  rewrite Hloop. unfold bind at 1. unfold print at 1. unfold ret at 1.
  unfold ret at 1. unfold bind at 1. unfold try_except.
  match goal with
  | |- context [SyncStars.commit_to_github isoformat strftime ?o ?n ?b ?t md
                  ?w5] =>
      assert (Hsent5 : sent w5 = sent w4)
        by (rewrite sent_record_print; reflexivity);
      set (w5v := w5) in *; clearbody w5v;
      pose proof (commit_to_github_sends isoformat strftime o n b t md w5v)
        as Hcommit;
      exists (SyncStars.build_payload (commit_message strftime w5v) b md
                                      (token_read o n b w5v));
      destruct (SyncStars.commit_to_github isoformat strftime o n b t md w5v)
        as [[[]|e|] w6]
  end;
    cbn [snd] in Hcommit;
    (split; [|exists (SyncStars.b64encode md);
              rewrite build_payload_overwrites;
              split; [reflexivity|apply b64decode_b64encode]]);
    unfold bind, print, ret; cbn [snd];
    rewrite ?sent_record_print, Hcommit, Hsent5, Hsent4, <- app_assoc;
    reflexivity.
Qed.
End SyncRunSteps.

Lemma missing_configuration_stops_main_witness :
  SyncStars.main (fun _ => EmptyString) (fun _ => EmptyString)
                 (fun _ => EmptyString) (fun _ => EmptyString) 1
                 (SyncStars.mkEnviron (Some "octocat") (Some "") None None
                                      None None None)
                 failing_world
  = (Raises missing_configuration, failing_world).
Proof.
  apply missing_configuration_stops_main. right. reflexivity.
Defined.

Lemma empty_listing_ends_the_run_witness :
  exists w',
    SyncStars.main (fun _ => EmptyString) (fun _ => EmptyString)
                   (fun _ => EmptyString) (fun _ => EmptyString) 1
                   octocat_env empty_world
    = (Returns tt, w') /\
    List.length (log w') = 4%nat /\
    files w' = [].
Proof.
  destruct (empty_listing_ends_the_run
              (fun _ => EmptyString) (fun _ => EmptyString)
              (fun _ => EmptyString) (fun _ => EmptyString) 1
              octocat_env empty_world eq_refl eq_refl
              (fun _ => eq_refl)) as [w' [Hrun [Hlog Hfiles]]]; [lia|].
  exists w'. split; [exact Hrun|]. split; [|exact Hfiles].
  rewrite Hlog. reflexivity.
Defined.

Lemma no_credential_no_submission_witness :
  exists evs,
    log (snd (SyncStars.main (fun _ => EmptyString) (fun _ => EmptyString)
                (fun _ => EmptyString) (fun _ => EmptyString) 2
                octocat_env conflicting_world))
    = evs /\
    Forall (fun ev => ~ is_submission ev) evs.
Proof.
  apply (no_credential_no_submission
           (fun _ => EmptyString) (fun _ => EmptyString)
           (fun _ => EmptyString) (fun _ => EmptyString) 2
           octocat_env conflicting_world eq_refl).
Defined.


Lemma mirror_failure_skips_publishing_witness :
  exists w' md,
    SyncStars.main (fun _ => EmptyString) (fun _ => EmptyString)
                   (fun _ => EmptyString) (fun _ => EmptyString) 2
                   mirrored_env mistagged_world
    = (Raises TypeError, w') /\
    read_file (files w') "starred-repos.md" = Some md.
Proof.
  pose (fetched := SyncStars.fetch_starred_repos (fun _ => EmptyString) 2
                     (client_of mirrored_env) mistagged_world).
  pose (repos := match fst fetched with Returns r => r | _ => [] end).
  pose (rendered := SyncStars.generate_markdown (fun _ => EmptyString)
                      (fun _ => EmptyString) repos (snd fetched)).
  pose (ordered := match fst rendered with
                   | Returns r => fst r
                   | _ => []
                   end).
  pose (md := match fst rendered with
              | Returns r => snd r
              | _ => EmptyString
              end).
  pose (bad := hd [] ordered).
  assert (Hfetch : fetched = (Returns repos, snd fetched))
    by (vm_compute; reflexivity).
  assert (Hrepos : repos <> []) by (vm_compute; discriminate).
  assert (Hrender : rendered = (Returns (ordered, md), snd rendered))
    by (vm_compute; reflexivity).
  assert (Hordered : ordered = [] ++ bad :: []) by (vm_compute; reflexivity).
  destruct (mirror_failure_skips_publishing
              (fun _ => EmptyString) (fun _ => EmptyString)
              (fun _ => EmptyString) (fun _ => EmptyString) 2
              mirrored_env mistagged_world (snd fetched) (snd rendered)
              repos ordered [] [] bad md [] TypeError
              eq_refl eq_refl eq_refl Hfetch Hrepos Hrender eq_refl
              Hordered eq_refl)
    as [w' [Hrun [Hfile _]]]; [vm_compute; reflexivity|].
  exists w', md. split; [exact Hrun|exact Hfile].
Defined.

Lemma mirror_submits_in_rendered_order_witness :
  exists payload m1 m2,
    sent (snd (SyncStars.main (fun _ => EmptyString) (fun _ => EmptyString)
                 (fun _ => EmptyString) (fun _ => EmptyString) 2
                 mirrored_env two_star_world))
    = [page_request (SyncStars.starred_url (client_of mirrored_env)) 1;
       submission (SyncStars.mkSupermemoryClient
                     (Some "key") "https://api.supermemory.ai/v1") m1;
       submission (SyncStars.mkSupermemoryClient
                     (Some "key") "https://api.supermemory.ai/v1") m2;
       GET (publish_url mirrored_env) [("ref", JStr "main")];
       PUT (publish_url mirrored_env) payload] /\
    Py.lookup (snd m1) "repo_name" = Some (JStr "octocat/newer") /\
    Py.lookup (snd m2) "repo_name" = Some (JStr "octocat/older") /\
    map (fun r => Py.lookup r "name")
        (match fst (SyncStars.fetch_starred_repos
                      (fun _ => EmptyString) 2 (client_of mirrored_env)
                      two_star_world) with
         | Returns listed => listed
         | _ => []
         end)
    = [Some (JStr "octocat/older"); Some (JStr "octocat/newer")].
Proof.
  pose (fetched := SyncStars.fetch_starred_repos (fun _ => EmptyString) 2
                     (client_of mirrored_env) two_star_world).
  pose (repos := match fst fetched with Returns r => r | _ => [] end).
  pose (rendered := SyncStars.generate_markdown (fun _ => EmptyString)
                      (fun _ => EmptyString) repos (snd fetched)).
  pose (ordered := match fst rendered with
                   | Returns r => fst r
                   | _ => []
                   end).
  pose (md := match fst rendered with
              | Returns r => snd r
              | _ => EmptyString
              end).
  pose (ms := match mapM (SyncStars.memory_of (fun _ => EmptyString)) ordered
              with
              | Ok ms => ms
              | Err _ => []
              end).
  pose (m1 := hd (EmptyString, []) ms).
  pose (m2 := hd (EmptyString, []) (tl ms)).
  assert (Hfetch : fetched = (Returns repos, snd fetched))
    by (vm_compute; reflexivity).
  assert (Hrepos : repos <> []) by (vm_compute; discriminate).
  assert (Hrender : rendered = (Returns (ordered, md), snd rendered))
    by (vm_compute; reflexivity).
  assert (Hms : mapM (SyncStars.memory_of (fun _ => EmptyString)) ordered
                = Ok [m1; m2]) by (vm_compute; reflexivity).
  destruct (mirror_submits_in_rendered_order
              (fun _ => EmptyString) (fun _ => EmptyString)
              (fun _ => EmptyString) (fun _ => EmptyString) 2
              mirrored_env two_star_world (snd fetched) (snd rendered)
              repos ordered md [m1; m2]
              eq_refl eq_refl eq_refl Hfetch Hrepos Hrender eq_refl Hms)
    as [_ [payload [Hsent _]]].
  exists payload, m1, m2. rewrite Hsent.
  split; [vm_compute; reflexivity|].
  split; [vm_compute; reflexivity|].
  split; vm_compute; reflexivity.
Defined.
